(** * dreamer-pytorch: the RSSM rollout, the squashed action distribution and
    the sampling approximator of [models.py]

    A shallow embedding of [TransitionModel.forward], [ActionModel.forward]
    and [SampleDist], with the properties of the specification proved (or
    refuted) on it; and of the rest of the file -- [bottle], the perceptrons
    ([SymbolicObservationModel], [RewardModel], [SymbolicEncoder] and
    [ValueModel]), the convolutional models ([VisualObservationModel] and
    [VisualEncoder]) and the two factories --, with further properties of
    the code.

    Conventions of the embedding.
    - Tensor entries are real numbers: Python and PyTorch floats are
      idealised as [R], without rounding and without overflow. Where an
      operation of the code leaves the real numbers on real arguments,
      its float result is in the model: [np.log] at zero and below, a
      division by a zero scale, the mean over no samples and the density
      of a value on the boundary of the support give -inf and nan.
    - A rank-2 tensor (batch x features) is a list of rows together with its
      declared number of columns, so that a tensor without rows still has a
      feature size; a rank-3 tensor (time x batch x features) likewise
      carries its two trailing sizes. These are the ranks at which the
      code works: its [dim=1] concatenations and splits and [nn.GRUCell]
      take batches of vectors, and the sequences are stacks of those.
      Batches of images are tensors of rank 4, introduced with the
      convolutions.
    - Python exceptions are results: every operation that can raise returns
      [result], and the exception class is kept.
    - The global random generator is the sequence of standard-normal values
      it is going to deliver; drawing a tensor consumes a prefix of it. *)

From Stdlib Require Import Reals Lra Lia ZArith.
From stdpp Require Import base list vector.

Open Scope R_scope.

(** ** Exceptions *)

Inductive exn : Set := IndexError | ValueError | RuntimeError.

Inductive result (A : Type) : Type :=
  | Ok (a : A)
  | Raise (e : exn).
Arguments Ok {A} a.
Arguments Raise {A} e.

#[global] Instance result_ret : MRet result := fun A a => Ok a.
#[global] Instance result_bind : MBind result := fun A B f m =>
  match m with
  | Ok a => f a
  | Raise e => Raise e
  end.

(** ** Tensors *)

Module Tensor.

(** Rank 2: [size(0)] is the number of rows, [size(1)] is [ncols]. *)
Record Tensor2 : Type := mk2 { ncols : nat; rows : list (list R) }.

Definition nrows (x : Tensor2) : nat := length (rows x).

(** Every row has the declared number of columns. *)
Definition wf2 (x : Tensor2) : Prop :=
  Forall (fun r => length r = ncols x) (rows x).

(** Rank 3: [size(0)] is the number of planes. *)
Record Tensor3 : Type :=
  mk3 { size1 : nat; size2 : nat; planes : list (list (list R)) }.

Definition size0 (x : Tensor3) : nat := length (planes x).

Definition wf3 (x : Tensor3) : Prop :=
  Forall (fun p => length p = size1 x /\ Forall (fun r => length r = size2 x) p)
         (planes x).

(** Rank 3 with integer entries: the index tensor of [gather]. *)
Record LongTensor3 : Type :=
  mkL3 { lsize1 : nat; lsize2 : nat; lplanes : list (list (list nat)) }.

(** [torch.empty(0)]: the placeholder the rollout fills its lists with.
    It has no entries and no slot holding it is ever read. *)
Definition empty0 : Tensor2 := mk2 0 [].

(** [x[i]] for a rank-3 tensor and a Python integer: negative indices count
    from the end, anything out of range raises [IndexError]. *)
Definition getitem (x : Tensor3) (i : Z) : result Tensor2 :=
  let n := Z.of_nat (size0 x) in
  let j := if (i <? 0)%Z then (i + n)%Z else i in
  if ((0 <=? j)%Z && (j <? n)%Z)%bool then
    match planes x !! Z.to_nat j with
    | Some p => Ok (mk2 (size2 x) p)
    | None => Raise IndexError
    end
  else Raise IndexError.

(** Pointwise application, and the sum with a Python scalar. *)
Definition tmap (f : R -> R) (x : Tensor2) : Tensor2 :=
  mk2 (ncols x) (map (map f) (rows x)).

Definition add_scalar (x : Tensor2) (c : R) : Tensor2 := tmap (fun v => v + c) x.

(** Broadcasting of one axis: equal sizes, or one of them is 1. *)
Definition bcast_dim (a b : nat) : option nat :=
  if (a =? b)%nat then Some a
  else if (a =? 1)%nat then Some b
  else if (b =? 1)%nat then Some a
  else None.

(** [expand] of one axis to size [n]: a singleton axis is repeated. *)
Definition expand_axis {A} (n : nat) (l : list A) : list A :=
  if (length l =? n)%nat then l
  else match l with
       | x :: _ => replicate n x
       | [] => []
       end.

(** A binary pointwise operation on rank-2 tensors, with broadcasting. *)
Definition bcast2 (f : R -> R -> R) (a b : Tensor2) : result Tensor2 :=
  match bcast_dim (nrows a) (nrows b), bcast_dim (ncols a) (ncols b) with
  | Some r, Some c =>
      Ok (mk2 c (zip_with
                   (fun ra rb => zip_with f (expand_axis c ra) (expand_axis c rb))
                   (expand_axis r (rows a)) (expand_axis r (rows b))))
  | _, _ => Raise RuntimeError
  end.

Definition add : Tensor2 -> Tensor2 -> result Tensor2 := bcast2 Rplus.
Definition mul : Tensor2 -> Tensor2 -> result Tensor2 := bcast2 Rmult.

(** [torch.cat([a, b], dim=1)]: the row counts must agree. *)
Definition cat1 (a b : Tensor2) : result Tensor2 :=
  if (nrows a =? nrows b)%nat
  then Ok (mk2 (ncols a + ncols b) (zip_with app (rows a) (rows b)))
  else Raise RuntimeError.

(** [first, second = torch.chunk(x, 2, dim=1)]: pieces of ceil(c/2) columns;
    a single column gives a single piece and the unpacking fails. *)
Definition chunk2 (x : Tensor2) : result (Tensor2 * Tensor2) :=
  let k := ((ncols x + 1) / 2)%nat in
  if (ncols x =? 1)%nat then Raise ValueError
  else Ok (mk2 k (map (take k) (rows x)),
           mk2 (ncols x - k) (map (drop k) (rows x))).

(** [torch.stack(l, dim=0)]: the list must be non-empty and its tensors of
    one shape. *)
Definition same_shape (x y : Tensor2) : bool :=
  ((nrows y =? nrows x)%nat && (ncols y =? ncols x)%nat)%bool.

Definition stack (l : list Tensor2) : result Tensor3 :=
  match l with
  | [] => Raise RuntimeError
  | x :: _ =>
      if forallb (same_shape x) l
      then Ok (mk3 (nrows x) (ncols x) (map rows l))
      else Raise RuntimeError
  end.

(** A tensor some of whose entries may be nan, written [None]. The other
    entries are real numbers, so that a nan arises only where an operation
    leaves the real numbers: a logarithm below zero, the quotient 0/0, a
    mean over no values, a density on the boundary of the support. *)
Record NanTensor2 : Type :=
  mkNan2 { nan_ncols : nat; nan_rows : list (list (option R)) }.

Definition nan_nrows (x : NanTensor2) : nat := length (nan_rows x).

(** The tensor [x] of numbers, none of them nan. *)
Definition numbers (x : Tensor2) : NanTensor2 :=
  mkNan2 (ncols x) (map (map Some) (rows x)).

(** Pointwise application of an operation that may give nan. *)
Definition pointwise (f : R -> option R) (x : Tensor2) : NanTensor2 :=
  mkNan2 (ncols x) (map (map f) (rows x)).

(** Column [j], top to bottom. *)
Definition column (j : nat) (x : NanTensor2) : list (option R) :=
  map (fun r => nth j r None) (nan_rows x).

(** [torch.argmax] takes nan as the largest value: an entry replaces the
    running maximum when it is nan and the maximum is a number, or when it
    is the larger of two numbers. *)
Definition replaces (x best : option R) : bool :=
  match x, best with
  | None, Some _ => true
  | Some a, Some b => if Rlt_dec b a then true else false
  | _, None => false
  end.

(** The index [torch.argmax] returns for a list: that of the first nan, or
    without nan that of the first maximal entry. [best] is the running
    maximum, found at index [bi]; [i] is the index of the head of [l]. *)
Fixpoint argmax_from (l : list (option R)) (i bi : nat) (best : option R) : nat :=
  match l with
  | [] => bi
  | x :: l' =>
      if replaces x best then argmax_from l' (S i) i x
      else argmax_from l' (S i) bi best
  end.

Definition argmax_list (l : list (option R)) : nat :=
  match l with
  | [] => 0%nat
  | x :: l' => argmax_from l' 1 0 x
  end.

(** [torch.argmax(x, dim=0)]: for each column the row [torch.argmax] picks;
    reducing an axis of size 0 is an error. The columns of [x] are the
    entries of the trailing axes in row-major order, and so are the indices
    returned. *)
Definition argmax0 (x : NanTensor2) : result (list nat) :=
  if (nan_nrows x =? 0)%nat then Raise IndexError
  else Ok (map (fun j => argmax_list (column j x)) (seq 0 (nan_ncols x))).

(** [idx.reshape(1, b, 1)] of an index tensor, given by its entries in
    row-major order. *)
Definition reshape_1_b_1 (idx : list nat) (b : nat) : result LongTensor3 :=
  if (length idx =? b)%nat
  then Ok (mkL3 b 1 [map (fun i => [i]) idx])
  else Raise RuntimeError.

(** [idx.expand(1, b, f)] of an index tensor of shape (1, b, 1). *)
Definition expand_1_b_f (idx : LongTensor3) (b f : nat) : result LongTensor3 :=
  if ((length (lplanes idx) =? 1)%nat && (lsize1 idx =? b)%nat
      && ((lsize2 idx =? f)%nat || (lsize2 idx =? 1)%nat))%bool
  then Ok (mkL3 b f (map (map (expand_axis f)) (lplanes idx)))
  else Raise RuntimeError.

Definition entry3 (x : Tensor3) (i j k : nat) : R :=
  nth k (nth j (nth i (planes x) []) []) 0.

(** [torch.gather(x, 0, idx)]: out[i][j][k] = x[idx[i][j][k]][j][k]. The
    index may not exceed [x] along the other axes, and its entries must be
    rows of [x]. *)
Definition gather0 (x : Tensor3) (idx : LongTensor3) : result Tensor3 :=
  if ((lsize1 idx <=? size1 x)%nat && (lsize2 idx <=? size2 x)%nat
      && forallb (forallb (forallb (fun i => (i <? size0 x)%nat))) (lplanes idx))%bool
  then Ok (mk3 (lsize1 idx) (lsize2 idx)
               (map (fun p => imap (fun j r => imap (fun k i => entry3 x i j k) r) p)
                    (lplanes idx)))
  else Raise RuntimeError.

(** [x.squeeze(0)] where the leading axis has size 1. Another size would
    leave the rank at 3; the one caller never has it. *)
Definition squeeze0 (x : Tensor3) : result Tensor2 :=
  match planes x with
  | [p] => Ok (mk2 (size2 x) p)
  | _ => Raise RuntimeError
  end.

(** [torch.mean(x, 0)]: the mean over no values is 0/0, which is nan; a sum
    with a nan in it is nan. *)
Definition sum_list (l : list R) : R := foldr Rplus 0 l.

Definition mean0 (x : Tensor3) : NanTensor2 :=
  mkNan2 (size2 x)
      (map (fun j => map (fun k =>
              if (size0 x =? 0)%nat then None
              else Some (sum_list (map (fun i => entry3 x i j k) (seq 0 (size0 x)))
                         / INR (size0 x)))
                         (seq 0 (size2 x)))
           (seq 0 (size1 x))).

Definition nan_sum (l : list (option R)) : option R :=
  foldr (fun v acc => match v, acc with
                      | Some a, Some b => Some (a + b)
                      | _, _ => None
                      end) (Some 0) l.

Definition nan_mean (l : list (option R)) : option R :=
  match nan_sum l with
  | Some s => if (length l =? 0)%nat then None else Some (s / INR (length l))
  | None => None
  end.

Definition mean0_2 (x : NanTensor2) : list (option R) :=
  map (fun j => nan_mean (column j x)) (seq 0 (nan_ncols x)).

End Tensor.
Import Tensor.

(** ** Python lists of tensors *)

(** [l[i]] and [l[i] = v] for a Python list and a non-negative index. *)
Definition pyget {A} (l : list A) (i : nat) : result A :=
  match l !! i with
  | Some x => Ok x
  | None => Raise IndexError
  end.

Definition pyset {A} (l : list A) (i : nat) (v : A) : result (list A) :=
  if (i <? length l)%nat then Ok (<[i:=v]> l) else Raise IndexError.

(** [for t in range(n): body], with the exceptions of the body. *)
Fixpoint for_range {St} (body : nat -> St -> result St) (ts : list nat) (s : St)
  : result St :=
  match ts with
  | [] => Ok s
  | t :: ts' => s' ← body t s; for_range body ts' s'
  end.

Definition range (n : nat) : list nat := seq 0 n.

(** ** The random generator *)

Definition Generator : Type := nat -> R.

(** [torch.randn_like(x)]: a tensor of the shape of [x], filled in row-major
    order with the next values of the generator, which advances past them. *)
Definition randn_like (x : Tensor2) (g : Generator) : Tensor2 * Generator :=
  let r := nrows x in
  let c := ncols x in
  (mk2 c (map (fun i => map (fun j => g (i * c + j)%nat) (seq 0 c)) (seq 0 r)),
   fun k => g (r * c + k)%nat).

(** ** Layers of [torch.nn] used by the models *)

Module nn.

(** [nn.Linear]: [weight] has shape out_features x in_features, [bias] has
    out_features entries; [forward] is [x @ weight.T + bias]. *)
Record Linear : Type := mkLinear { weight : Tensor2; bias : list R }.

Definition in_features (l : Linear) : nat := ncols (weight l).
Definition out_features (l : Linear) : nat := nrows (weight l).

(** What [nn.Linear(i, o)] constructs, whatever the values of its entries. *)
Definition Linear_init (i o : nat) (l : Linear) : Prop :=
  in_features l = i /\ out_features l = o /\
  wf2 (weight l) /\ length (bias l) = o.

Definition dot (w x : list R) : R := foldr Rplus 0 (zip_with Rmult w x).

Definition linear_row (l : Linear) (x : list R) : list R :=
  zip_with Rplus (map (fun w => dot w x) (rows (weight l))) (bias l).

Definition Linear_forward (l : Linear) (x : Tensor2) : result Tensor2 :=
  if (ncols x =? in_features l)%nat
  then Ok (mk2 (out_features l) (map (linear_row l) (rows x)))
  else Raise RuntimeError.

(** [nn.GRUCell]: [ih] stands for (weight_ih, bias_ih), of shape
    3*hidden_size x input_size, and [hh] for (weight_hh, bias_hh), of shape
    3*hidden_size x hidden_size; the three blocks are the reset, update and
    new gates. *)
Record GRUCell : Type :=
  mkGRUCell { input_size : nat; hidden_size : nat; ih : Linear; hh : Linear }.

Definition GRUCell_init (i h : nat) (c : GRUCell) : Prop :=
  input_size c = i /\ hidden_size c = h /\
  Linear_init i (3 * h) (ih c) /\ Linear_init h (3 * h) (hh c).

Definition sigmoid (x : R) : R := 1 / (1 + exp (- x)).

(** One row of the cell:
    r = sigmoid(i_r + h_r), z = sigmoid(i_z + h_z),
    n = tanh(i_n + r * h_n), h' = (1 - z) * n + z * h. *)
Definition gru_row (hs : nat) (gi gh h : list R) : list R :=
  let r := zip_with (fun a b => sigmoid (a + b)) (take hs gi) (take hs gh) in
  let z := zip_with (fun a b => sigmoid (a + b))
                    (take hs (drop hs gi)) (take hs (drop hs gh)) in
  let n := zip_with (fun a b => tanh (a + b))
                    (drop (2 * hs) gi) (zip_with Rmult r (drop (2 * hs) gh)) in
  zip_with (fun zn h0 => (1 - fst zn) * snd zn + fst zn * h0) (zip z n) h.

Definition GRUCell_forward (c : GRUCell) (x h : Tensor2) : result Tensor2 :=
  if negb (ncols x =? input_size c)%nat then Raise RuntimeError
  else if negb (ncols h =? hidden_size c)%nat then Raise RuntimeError
  else if negb (nrows x =? nrows h)%nat then Raise RuntimeError
  else
    gi ← Linear_forward (ih c) x;
    gh ← Linear_forward (hh c) h;
    Ok (mk2 (hidden_size c)
            (zip_with (fun gg h0 => gru_row (hidden_size c) (fst gg) (snd gg) h0)
                      (zip (rows gi) (rows gh)) (rows h))).

End nn.
Import nn.

(** ** Functions of [torch.nn.functional] *)

Module F.

(** [F.softplus] with its default beta: log(1 + exp(x)). PyTorch returns
    [x] itself above its threshold of 20, where the two differ by less
    than exp(-20); on the reals the function is taken as it is defined. *)
Definition softplus (x : R) : R := ln (1 + exp x).

(** [F.relu], the default activation of every model. *)
Definition relu (x : R) : R := Rmax 0 x.

End F.

(** ** [TransitionModel] *)

Module TransitionModel.

Record t : Type := mk {
  act_fn : R -> R;
  min_std_dev : R;
  fc_embed_state_action : Linear;
  rnn : GRUCell;
  fc_embed_belief_prior : Linear;
  fc_state_prior : Linear;
  fc_embed_belief_posterior : Linear;
  fc_state_posterior : Linear
}.

(** [__init__]: the shapes of the layers it creates. The entries of the
    weights are whatever initialisation and training made them; [act_fn] is
    the pointwise function of [torch.nn.functional] that the configuration
    names, and [min_std_dev] is stored as given. *)
Definition __init__
    (belief_size state_size action_size hidden_size embedding_size : nat)
    (self : t) : Prop :=
  Linear_init (state_size + action_size) belief_size (fc_embed_state_action self) /\
  GRUCell_init belief_size belief_size (rnn self) /\
  Linear_init belief_size hidden_size (fc_embed_belief_prior self) /\
  Linear_init hidden_size (2 * state_size) (fc_state_prior self) /\
  Linear_init (belief_size + embedding_size) hidden_size
              (fc_embed_belief_posterior self) /\
  Linear_init hidden_size (2 * state_size) (fc_state_posterior self).

(** The seven lists of hidden states of [forward], one slot per time step. *)
Record Slots : Type := mkSlots {
  beliefs : list Tensor2;
  prior_states : list Tensor2;
  prior_means : list Tensor2;
  prior_std_devs : list Tensor2;
  posterior_states : list Tensor2;
  posterior_means : list Tensor2;
  posterior_std_devs : list Tensor2
}.

Section Forward.

Variable self : t.
Variable actions : Tensor3.
Variables observations nonterminals : option Tensor3.

(** The body of the loop over the time sequence, lines 58 to 76. *)
Definition forward_body (t : nat) (st : Slots * Generator)
  : result (Slots * Generator) :=
  let '(s, g) := st in
  (* Select appropriate previous state *)
  _state ← pyget (match observations with
                   | None => prior_states s
                   | Some _ => posterior_states s
                   end) t;
  (* Mask if previous transition was terminal *)
  _state ← match nonterminals with
            | None => Ok _state
            | Some n => m ← getitem n (Z.of_nat t); mul _state m
            end;
  (* Compute belief (deterministic hidden state) *)
  a ← getitem actions (Z.of_nat t);
  x ← cat1 _state a;
  h ← Linear_forward (fc_embed_state_action self) x;
  let hidden := tmap (act_fn self) h in
  b ← pyget (beliefs s) t;
  b' ← GRUCell_forward (rnn self) hidden b;
  beliefs' ← pyset (beliefs s) (t + 1) b';
  (* Compute state prior by applying transition dynamics *)
  b1 ← pyget beliefs' (t + 1);
  h ← Linear_forward (fc_embed_belief_prior self) b1;
  let hidden := tmap (act_fn self) h in
  o ← Linear_forward (fc_state_prior self) hidden;
  '(pm, _prior_std_dev) ← chunk2 o;
  prior_means' ← pyset (prior_means s) (t + 1) pm;
  prior_std_devs' ← pyset (prior_std_devs s) (t + 1)
                      (add_scalar (tmap F.softplus _prior_std_dev) (min_std_dev self));
  m1 ← pyget prior_means' (t + 1);
  sd1 ← pyget prior_std_devs' (t + 1);
  m2 ← pyget prior_means' (t + 1);
  let '(eps, g1) := randn_like m2 g in
  p ← mul sd1 eps;
  ps ← add m1 p;
  prior_states' ← pyset (prior_states s) (t + 1) ps;
  match observations with
  | None =>
      Ok (mkSlots beliefs' prior_states' prior_means' prior_std_devs'
                  (posterior_states s) (posterior_means s) (posterior_std_devs s),
          g1)
  | Some obs =>
      (* Compute state posterior by applying transition dynamics and using
         current observation *)
      let t_ := (Z.of_nat t - 1)%Z in
      b2 ← pyget beliefs' (t + 1);
      e ← getitem obs (t_ + 1)%Z;
      x ← cat1 b2 e;
      h ← Linear_forward (fc_embed_belief_posterior self) x;
      let hidden := tmap (act_fn self) h in
      o ← Linear_forward (fc_state_posterior self) hidden;
      '(qm, _posterior_std_dev) ← chunk2 o;
      posterior_means' ← pyset (posterior_means s) (t + 1) qm;
      posterior_std_devs' ← pyset (posterior_std_devs s) (t + 1)
                              (add_scalar (tmap F.softplus _posterior_std_dev)
                                          (min_std_dev self));
      n1 ← pyget posterior_means' (t + 1);
      qd1 ← pyget posterior_std_devs' (t + 1);
      n2 ← pyget posterior_means' (t + 1);
      let '(eps', g2) := randn_like n2 g1 in
      q ← mul qd1 eps';
      qs ← add n1 q;
      posterior_states' ← pyset (posterior_states s) (t + 1) qs;
      Ok (mkSlots beliefs' prior_states' prior_means' prior_std_devs'
                  posterior_states' posterior_means' posterior_std_devs',
          g2)
  end.

(** Lines 52 to 55: the lists of [T] placeholders and their seeds in slot 0. *)
Definition initial_slots (prev_state prev_belief : Tensor2) : result Slots :=
  let T := (size0 actions + 1)%nat in
  let s := mkSlots (replicate T empty0) (replicate T empty0) (replicate T empty0)
                   (replicate T empty0) (replicate T empty0) (replicate T empty0)
                   (replicate T empty0) in
  beliefs0 ← pyset (beliefs s) 0 prev_belief;
  prior_states0 ← pyset (prior_states s) 0 prev_state;
  posterior_states0 ← pyset (posterior_states s) 0 prev_state;
  Ok (mkSlots beliefs0 prior_states0 (prior_means s) (prior_std_devs s)
              posterior_states0 (posterior_means s) (posterior_std_devs s)).

(** Lines 52 to 76: the lists, then the loop [for t in range(T - 1)]. *)
Definition forward_slots (prev_state prev_belief : Tensor2) (g : Generator)
  : result (Slots * Generator) :=
  let T := (size0 actions + 1)%nat in
  s0 ← initial_slots prev_state prev_belief;
  for_range forward_body (range (T - 1)) (s0, g).

(** Lines 79 to 82: the slots from 1 on, stacked along a new time axis. *)
Definition forward_hidden (s : Slots) : result (list Tensor3) :=
  h0 ← stack (drop 1 (beliefs s));
  h1 ← stack (drop 1 (prior_states s));
  h2 ← stack (drop 1 (prior_means s));
  h3 ← stack (drop 1 (prior_std_devs s));
  let hidden := [h0; h1; h2; h3] in
  match observations with
  | None => Ok hidden
  | Some _ =>
      h4 ← stack (drop 1 (posterior_states s));
      h5 ← stack (drop 1 (posterior_means s));
      h6 ← stack (drop 1 (posterior_std_devs s));
      Ok (hidden ++ [h4; h5; h6])
  end.

End Forward.

(** [forward], with the generator it draws from and leaves advanced. *)
Definition forward (self : t) (prev_state : Tensor2) (actions : Tensor3)
    (prev_belief : Tensor2) (observations nonterminals : option Tensor3)
    (g : Generator) : result (list Tensor3 * Generator) :=
  '(s, g') ← forward_slots self actions observations nonterminals
                           prev_state prev_belief g;
  hidden ← forward_hidden observations s;
  Ok (hidden, g').

End TransitionModel.

(** ** NumPy floats *)

Module np.

(** The values [np.log] takes on a real number: at zero and below NumPy
    warns and returns -inf and nan. *)
Inductive float : Type := Real (r : R) | NegInf | NaN.

Definition log (x : R) : float :=
  if Rlt_dec 0 x then Real (ln x)
  else if Req_dec_T x 0 then NegInf else NaN.

End np.

(** An entry of a tensor plus a NumPy float; [F.softplus] of such a sum,
    where softplus(-inf) is log(1 + 0); and an entry that may be nan plus a
    Python float. *)
Definition add_float (x : R) (c : np.float) : np.float :=
  match c with
  | np.Real r => np.Real (x + r)
  | np.NegInf => np.NegInf
  | np.NaN => np.NaN
  end.

Definition softplus_float (x : np.float) : option R :=
  match x with
  | np.Real r => Some (F.softplus r)
  | np.NegInf => Some 0
  | np.NaN => None
  end.

Definition add_nan (x : option R) (c : R) : option R :=
  match x with
  | Some v => Some (v + c)
  | None => None
  end.

(** [c * torch.tanh(x / c)] at one entry. A zero [c] divides a non-zero [x]
    to +inf or -inf, whose tanh is 1 or -1 and whose product with [c] is
    0; and 0 / 0 is nan. *)
Definition scaled_tanh (c x : R) : option R :=
  if Req_dec_T c 0
  then (if Req_dec_T x 0 then None else Some 0)
  else Some (c * tanh (x / c)).

(** ** [torch.distributions] *)

Module distributions.

Inductive Transform : Set := TanhTransform.

(** The distribution objects [ActionModel.forward] builds, a record for
    each class, named by its constructor: a [Normal] over a batch of
    feature vectors, transformed, and wrapped in [Independent]. *)
Record normal : Type := Normal { loc : Tensor2; scale : Tensor2 }.

Record transformed : Type :=
  TransformedDistribution { transformed_base : normal; transforms : list Transform }.

Record TorchDist : Type :=
  Independent { base_dist : transformed; reinterpreted_batch_ndims : nat }.

Definition is_number (v : option R) : bool :=
  match v with Some _ => true | None => false end.

Definition is_positive (v : option R) : bool :=
  match v with
  | Some r => if Rlt_dec 0 r then true else false
  | None => false
  end.

(** The entries of a tensor without nan. *)
Definition reals (x : NanTensor2) : Tensor2 :=
  mk2 (nan_ncols x) (map (map (default 0)) (nan_rows x)).

(** [x.expand(r, c)]: a tensor of that shape is returned as it is. *)
Definition expand_to (r c : nat) (x : NanTensor2) : NanTensor2 :=
  if ((nan_nrows x =? r)%nat && (nan_ncols x =? c)%nat)%bool then x
  else mkNan2 c (map (expand_axis c) (expand_axis r (nan_rows x))).

(** [broadcast_all(loc, scale)]. *)
Definition broadcast_all (a b : NanTensor2) : result (NanTensor2 * NanTensor2) :=
  match bcast_dim (nan_nrows a) (nan_nrows b),
        bcast_dim (nan_ncols a) (nan_ncols b) with
  | Some r, Some c => Ok (expand_to r c a, expand_to r c b)
  | _, _ => Raise RuntimeError
  end.

(** [Normal(loc, scale)]: the parameters are broadcast to one shape and
    validated: no entry of [loc] may be nan, and every entry of [scale]
    must be greater than zero, which a nan is not. *)
Definition Normal_init (loc scale : NanTensor2) : result normal :=
  '(loc, scale) ← broadcast_all loc scale;
  if (forallb (forallb is_number) (nan_rows loc)
      && forallb (forallb is_positive) (nan_rows scale))%bool
  then Ok (Normal (reals loc) (reals scale))
  else Raise ValueError.

(** [Independent(dist, n)]: [n] may not exceed the number of batch axes of
    [dist], which is two. *)
Definition Independent_init (dist : transformed) (n : nat) : result TorchDist :=
  if (n <=? 2)%nat then Ok (Independent dist n) else Raise ValueError.

(** Log-densities of shape (samples, *batch_shape): a row for each sample,
    holding the entries over the batch shape in row-major order. *)
Record LogProb : Type :=
  mkLogProb { lp_batch_shape : list nat; lp_values : NanTensor2 }.

(** What [SampleDist] asks of the distribution it wraps. [expand samples d]
    is [d.expand((samples, *d.batch_shape))]: a new leading axis of the
    given size, a Python integer; the wrapped distribution is over a batch
    of feature vectors, so that the expanded one draws samples of rank 3. *)
Class Distribution (D E : Type) : Type := {
  expand : Z -> D -> result E;
  rsample : E -> Generator -> result (Tensor3 * Generator);
  log_prob : E -> Tensor3 -> result LogProb
}.

End distributions.
Import distributions.

(** ** [SampleDist] *)

Module SampleDist.

Section Wrapped.

Context {D E : Type} `{!Distribution D E}.

Record t : Type := mk { _dist : D; _samples : Z }.

(** [__init__]: both arguments are stored; nothing is checked. *)
Definition __init__ (dist : D) (samples : Z) : result t :=
  Ok (mk dist samples).

Definition mean (self : t) (g : Generator) : result (NanTensor2 * Generator) :=
  dist ← expand (_samples self) (_dist self);
  '(sample, g') ← rsample dist g;
  Ok (mean0 sample, g').

Definition mode (self : t) (g : Generator) : result (Tensor2 * Generator) :=
  dist ← expand (_samples self) (_dist self);
  '(sample, g') ← rsample dist g;
  logprob ← log_prob dist sample;
  let batch_size := size1 sample in
  let feature_size := size2 sample in
  am ← argmax0 (lp_values logprob);
  i1 ← reshape_1_b_1 am batch_size;
  indices ← expand_1_b_f i1 batch_size feature_size;
  out ← gather0 sample indices;
  r ← squeeze0 out;
  Ok (r, g').

(** [entropy] returns a tensor of the batch shape of the log-densities,
    given here with its entries in row-major order. *)
Definition entropy (self : t) (g : Generator)
  : result ((list nat * list (option R)) * Generator) :=
  dist ← expand (_samples self) (_dist self);
  '(sample, g') ← rsample dist g;
  logprob ← log_prob dist sample;
  Ok ((lp_batch_shape logprob,
       map (fun v => match v with Some r => Some (- r) | None => None end)
           (mean0_2 (lp_values logprob))), g').

End Wrapped.

Arguments t D : clear implicits.

End SampleDist.

(** ** The distributions of [torch.distributions] as [SampleDist] uses them *)

Module TorchDistOps.

Definition params (d : TorchDist) : Tensor2 * Tensor2 :=
  (loc (transformed_base (base_dist d)), scale (transformed_base (base_dist d))).

(** [d.batch_shape]: [Normal.batch_shape] is the shape of its parameters; a
    transform of event dimension 0 keeps the shapes; [Independent] moves
    the last [n] batch axes to the event shape. *)
Definition batch_shape_of (d : TorchDist) : list nat :=
  take (2 - reinterpreted_batch_ndims d) [nrows (fst (params d)); ncols (fst (params d))].

Definition atanh (y : R) : R := / 2 * ln ((1 + y) / (1 - y)).

(** The value a transform is undone to: atanh is a number inside (-1, 1),
    infinite at 1 and -1, and nan outside, as it is at an infinity. *)
Inductive ext : Type := Fin (r : R) | Inf | Nan.

(** A transform, its inverse, and the log of its absolute derivative at [x]. *)
Definition call (T : Transform) (x : R) : R :=
  match T with TanhTransform => tanh x end.

Definition inv (T : Transform) (y : ext) : ext :=
  match T, y with
  | TanhTransform, Fin r =>
      if Rlt_dec (Rabs r) 1 then Fin (atanh r)
      else if Req_dec_T (Rabs r) 1 then Inf else Nan
  | TanhTransform, _ => Nan
  end.

Definition log_abs_det_jacobian (T : Transform) (x : R) : R :=
  match T with TanhTransform => 2 * (ln 2 - x - F.softplus (- 2 * x)) end.

(** [Normal.log_prob] at one entry. *)
Definition normal_log_prob (loc scale v : R) : R :=
  - ((v - loc) ^ 2) / (2 * scale ^ 2) - ln scale - ln (sqrt (2 * PI)).

(** [TransformedDistribution.log_prob] at one entry: the transforms are
    undone last to first, each taking its log-derivative off the density.
    The value must lie in the support, and the [Normal] validates what the
    transforms are undone to: a nan there is a [ValueError]. An infinity
    is accepted; its density is inf - inf, which is nan. *)
Fixpoint undo (rts : list Transform) (acc : R) (y : ext) : R * ext :=
  match rts with
  | [] => (acc, y)
  | T :: rts' =>
      let x := inv T y in
      undo rts' (match x with
                 | Fin r => acc - log_abs_det_jacobian T r
                 | _ => acc
                 end) x
  end.

Definition entry_log_prob (ts : list Transform) (loc scale v : R)
  : result (option R) :=
  match undo (rev ts) 0 (Fin v) with
  | (acc, Fin y) => Ok (Some (acc + normal_log_prob loc scale y))
  | (_, Inf) => Ok None
  | (_, Nan) => Raise ValueError
  end.

Definition entry2 (x : Tensor2) (i j : nat) : R := nth j (nth i (rows x) []) 0.

(** The result of [d.expand((samples, *d.batch_shape))]: PyTorch builds a
    distribution of the same classes whose [Normal] has its parameters
    expanded by the new axis; the model keeps the distribution and the
    size of the axis. *)
Record Expanded : Type := mkExpanded { ex_samples : nat; ex_dist : TorchDist }.

(** [expand]: a negative size of the new axis is an error. *)
Definition expand (samples : Z) (d : TorchDist) : result Expanded :=
  if (0 <=? samples)%Z then Ok (mkExpanded (Z.to_nat samples) d)
  else Raise RuntimeError.

(** [rsample]: loc + eps * scale on fresh noise of the expanded shape, then
    the transforms. *)
Definition rsample (e : Expanded) (g : Generator) : result (Tensor3 * Generator) :=
  let '(loc, scale) := params (ex_dist e) in
  let ts := transforms (base_dist (ex_dist e)) in
  let S := ex_samples e in
  let B := nrows loc in
  let Fe := ncols loc in
  Ok (mk3 B Fe
          (map (fun s =>
             map (fun b =>
               map (fun f =>
                 foldl (fun x T => call T x)
                       (entry2 loc b f + g ((s * B + b) * Fe + f)%nat * entry2 scale b f)
                       ts)
                 (seq 0 Fe))
               (seq 0 B))
             (seq 0 S)),
      fun k => g (S * B * Fe + k)%nat).

(** The results of a list of computations, or the first exception. *)
Fixpoint sequence {A} (l : list (result A)) : result (list A) :=
  match l with
  | [] => Ok []
  | m :: l' => a ← m; r ← sequence l'; Ok (a :: r)
  end.

(** The index into an axis of size [n] that is broadcast when [n] is 1. *)
Definition clamp (n i : nat) : nat := if (n =? 1)%nat then 0%nat else i.

(** [_sum_rightmost(x, n)] on densities of shape (S, B, Fe):
    [x.reshape(shape[:-n] + (-1,)).sum(-1)], where the reshape refuses a
    tensor without entries whose leading axes have no entries either. What
    is left of (B, Fe) is the batch shape. *)
Definition sum_rightmost (n S B Fe : nat) (x : list (list (list (option R))))
  : result LogProb :=
  match n with
  | 0%nat => Ok (mkLogProb [B; Fe] (mkNan2 (B * Fe) (map (fun p => concat p) x)))
  | 1%nat =>
      if (S * B =? 0)%nat then Raise RuntimeError
      else Ok (mkLogProb [B] (mkNan2 B (map (map nan_sum) x)))
  | _ =>
      if (S =? 0)%nat then Raise RuntimeError
      else Ok (mkLogProb [] (mkNan2 1 (map (fun p => [nan_sum (concat p)]) x)))
  end.

(** [log_prob]: the value must broadcast with the expanded shape; the
    densities of the entries are summed over the event axes. *)
Definition log_prob (e : Expanded) (x : Tensor3) : result LogProb :=
  let '(loc, scale) := params (ex_dist e) in
  let ts := transforms (base_dist (ex_dist e)) in
  match bcast_dim (size0 x) (ex_samples e), bcast_dim (size1 x) (nrows loc),
        bcast_dim (size2 x) (ncols loc) with
  | Some S0, Some B, Some Fe =>
      lp ← sequence (map (fun s =>
              sequence (map (fun b =>
                sequence (map (fun f =>
                  entry_log_prob ts
                    (entry2 loc (clamp (nrows loc) b) (clamp (ncols loc) f))
                    (entry2 scale (clamp (nrows loc) b) (clamp (ncols loc) f))
                    (entry3 x (clamp (size0 x) s) (clamp (size1 x) b)
                            (clamp (size2 x) f)))
                  (seq 0 Fe)))
                (seq 0 B)))
              (seq 0 S0));
      sum_rightmost (reinterpreted_batch_ndims (ex_dist e)) S0 B Fe lp
  | _, _, _ => Raise ValueError
  end.

End TorchDistOps.

#[global] Instance TorchDist_Distribution
  : Distribution TorchDist TorchDistOps.Expanded := {|
  expand := TorchDistOps.expand;
  rsample := TorchDistOps.rsample;
  log_prob := TorchDistOps.log_prob
|}.

(** ** [ActionModel] *)

Module ActionModel.

Record t : Type := mk {
  act_fn : R -> R;
  fc1 : Linear;
  fc2 : Linear;
  fc3 : Linear;
  fc4 : Linear;
  fc5 : Linear;
  min_std : R;
  init_std : R;
  mean_scale : R
}.

(** [__init__]: the shapes of the layers it creates. *)
Definition __init__ (action_size belief_size state_size hidden_size : nat)
    (self : t) : Prop :=
  Linear_init (belief_size + state_size) hidden_size (fc1 self) /\
  Linear_init hidden_size hidden_size (fc2 self) /\
  Linear_init hidden_size hidden_size (fc3 self) /\
  Linear_init hidden_size hidden_size (fc4 self) /\
  Linear_init hidden_size (2 * action_size) (fc5 self).

(** [forward]: the action distribution tanh(Normal(mean, std)), wrapped in a
    [SampleDist] with its default number of samples. *)
Definition forward (self : t) (belief state : Tensor2) (training : bool)
  : result (SampleDist.t TorchDist) :=
  let raw_init_std := np.log (exp (init_std self) - 1) in
  x ← cat1 belief state;
  h ← Linear_forward (fc1 self) x;
  let hidden := tmap (act_fn self) h in
  h ← Linear_forward (fc2 self) hidden;
  let hidden := tmap (act_fn self) h in
  h ← Linear_forward (fc3 self) hidden;
  let hidden := tmap (act_fn self) h in
  h ← Linear_forward (fc4 self) hidden;
  let hidden := tmap (act_fn self) h in
  o ← Linear_forward (fc5 self) hidden;
  '(mean, std) ← chunk2 o;
  let mean := pointwise (scaled_tanh (mean_scale self)) mean in
  let std := pointwise (fun v => add_nan (softplus_float (add_float v raw_init_std))
                                         (min_std self)) std in
  base_dist ← Normal_init mean std;
  let transform := [TanhTransform] in
  let dist := TransformedDistribution base_dist transform in
  dist ← Independent_init dist 1;
  SampleDist.__init__ dist 100.

End ActionModel.

(** ** The single step of the dynamics, read off the loop body *)

Section DynamicsStep.

Variable self : TransitionModel.t.

(** The next belief from the (masked) previous state, the action and the
    previous belief. *)
Definition belief_update (_state a b : Tensor2) : result Tensor2 :=
  x ← cat1 _state a;
  h ← Linear_forward (TransitionModel.fc_embed_state_action self) x;
  GRUCell_forward (TransitionModel.rnn self) (tmap (TransitionModel.act_fn self) h) b.

(** Mean and stddev from a feature tensor: two layers, the split, and the
    floored softplus. *)
Definition gaussian_params (embed out : Linear) (x : Tensor2)
  : result (Tensor2 * Tensor2) :=
  h ← Linear_forward embed x;
  o ← Linear_forward out (tmap (TransitionModel.act_fn self) h);
  '(m, raw) ← chunk2 o;
  Ok (m, add_scalar (tmap F.softplus raw) (TransitionModel.min_std_dev self)).

Definition prior_params (b : Tensor2) : result (Tensor2 * Tensor2) :=
  gaussian_params (TransitionModel.fc_embed_belief_prior self)
                  (TransitionModel.fc_state_prior self) b.

(** The posterior parameters: from the concatenation of a belief and an
    observation embedding. *)
Definition posterior_params (b e : Tensor2) : result (Tensor2 * Tensor2) :=
  x ← cat1 b e;
  gaussian_params (TransitionModel.fc_embed_belief_posterior self)
                  (TransitionModel.fc_state_posterior self) x.

(** mean + stddev * noise, on fresh noise. *)
Definition reparameterize (m sd : Tensor2) (g : Generator)
  : result (Tensor2 * Generator) :=
  let '(eps, g1) := randn_like m g in
  p ← mul sd eps;
  x ← add m p;
  Ok (x, g1).

(** The state fed into the step: the previous state, times the mask of the
    step when there is one. *)
Definition masked (nonterminals : option Tensor3) (t : nat) (st : Tensor2)
  : result Tensor2 :=
  match nonterminals with
  | None => Ok st
  | Some n => m ← getitem n (Z.of_nat t); mul st m
  end.

End DynamicsStep.

(** The list the previous state is read from. *)
Definition selected (observations : option Tensor3) (s : TransitionModel.Slots)
  : list Tensor2 :=
  match observations with
  | None => TransitionModel.prior_states s
  | Some _ => TransitionModel.posterior_states s
  end.


(** A well-formed tensor of [r] rows and [c] columns. *)
Definition shaped (r c : nat) (x : Tensor2) : Prop :=
  nrows x = r /\ ncols x = c /\ wf2 x.


(** ** The loop, iteration by iteration *)

Section LoopNotions.

Variable self : TransitionModel.t.
Variable actions : Tensor3.
Variables observations nonterminals : option Tensor3.
Variables prev_state prev_belief : Tensor2.

(** What iteration [t] computed for an observation, and where it stored it. *)
Definition posterior_step (t : nat) (b' : Tensor2) (g1 : Generator)
    (s s' : TransitionModel.Slots) (g' : Generator) : Prop :=
  match observations with
  | None =>
      g' = g1 /\
      TransitionModel.posterior_states s' = TransitionModel.posterior_states s /\
      TransitionModel.posterior_means s' = TransitionModel.posterior_means s /\
      TransitionModel.posterior_std_devs s' = TransitionModel.posterior_std_devs s
  | Some obs =>
      exists e qm qsd qs,
        getitem obs (Z.of_nat t) = Ok e /\
        posterior_params self b' e = Ok (qm, qsd) /\
        reparameterize qm qsd g1 = Ok (qs, g') /\
        (t + 1 < length (TransitionModel.posterior_states s))%nat /\
        (t + 1 < length (TransitionModel.posterior_means s))%nat /\
        (t + 1 < length (TransitionModel.posterior_std_devs s))%nat /\
        TransitionModel.posterior_states s'
          = <[(t + 1)%nat := qs]> (TransitionModel.posterior_states s) /\
        TransitionModel.posterior_means s'
          = <[(t + 1)%nat := qm]> (TransitionModel.posterior_means s) /\
        TransitionModel.posterior_std_devs s'
          = <[(t + 1)%nat := qsd]> (TransitionModel.posterior_std_devs s)
  end.

(** Iteration [t] of the loop: it reads slot [t] and writes slot [t + 1]. *)
Definition step (t : nat) (s : TransitionModel.Slots) (g : Generator)
    (s' : TransitionModel.Slots) (g' : Generator) : Prop :=
  exists st0 st a b b' pm psd ps g1,
    selected observations s !! t = Some st0 /\
    masked nonterminals t st0 = Ok st /\
    getitem actions (Z.of_nat t) = Ok a /\
    TransitionModel.beliefs s !! t = Some b /\
    belief_update self st a b = Ok b' /\
    prior_params self b' = Ok (pm, psd) /\
    reparameterize pm psd g = Ok (ps, g1) /\
    (t + 1 < length (TransitionModel.beliefs s))%nat /\
    (t + 1 < length (TransitionModel.prior_states s))%nat /\
    (t + 1 < length (TransitionModel.prior_means s))%nat /\
    (t + 1 < length (TransitionModel.prior_std_devs s))%nat /\
    TransitionModel.beliefs s' = <[(t + 1)%nat := b']> (TransitionModel.beliefs s) /\
    TransitionModel.prior_states s'
      = <[(t + 1)%nat := ps]> (TransitionModel.prior_states s) /\
    TransitionModel.prior_means s'
      = <[(t + 1)%nat := pm]> (TransitionModel.prior_means s) /\
    TransitionModel.prior_std_devs s'
      = <[(t + 1)%nat := psd]> (TransitionModel.prior_std_devs s) /\
    posterior_step t b' g1 s s' g'.

(** All seven lists have [n] slots. *)
Definition slots_length (n : nat) (s : TransitionModel.Slots) : Prop :=
  length (TransitionModel.beliefs s) = n /\
  length (TransitionModel.prior_states s) = n /\
  length (TransitionModel.prior_means s) = n /\
  length (TransitionModel.prior_std_devs s) = n /\
  length (TransitionModel.posterior_states s) = n /\
  length (TransitionModel.posterior_means s) = n /\
  length (TransitionModel.posterior_std_devs s) = n.

(** Slot [t + 1] holds what the step computes from slot [t]. *)
Definition computed_at (s : TransitionModel.Slots) (t : nat) : Prop :=
  exists st0 st a b b' pm psd ps g g1,
    selected observations s !! t = Some st0 /\
    masked nonterminals t st0 = Ok st /\
    getitem actions (Z.of_nat t) = Ok a /\
    TransitionModel.beliefs s !! t = Some b /\
    belief_update self st a b = Ok b' /\
    TransitionModel.beliefs s !! (t + 1)%nat = Some b' /\
    prior_params self b' = Ok (pm, psd) /\
    TransitionModel.prior_means s !! (t + 1)%nat = Some pm /\
    TransitionModel.prior_std_devs s !! (t + 1)%nat = Some psd /\
    reparameterize pm psd g = Ok (ps, g1) /\
    TransitionModel.prior_states s !! (t + 1)%nat = Some ps /\
    match observations with
    | None => True
    | Some obs =>
        exists e qm qsd qs g2,
          getitem obs (Z.of_nat t) = Ok e /\
          posterior_params self b' e = Ok (qm, qsd) /\
          TransitionModel.posterior_means s !! (t + 1)%nat = Some qm /\
          TransitionModel.posterior_std_devs s !! (t + 1)%nat = Some qsd /\
          reparameterize qm qsd g1 = Ok (qs, g2) /\
          TransitionModel.posterior_states s !! (t + 1)%nat = Some qs
    end.

(** The seeds stay in slot 0, every list keeps its length, and the slots up
    to [k] are computed. *)
Definition loop_inv (n k : nat) (st : TransitionModel.Slots * Generator) : Prop :=
  slots_length n (fst st) /\
  TransitionModel.beliefs (fst st) !! 0%nat = Some prev_belief /\
  TransitionModel.prior_states (fst st) !! 0%nat = Some prev_state /\
  TransitionModel.posterior_states (fst st) !! 0%nat = Some prev_state /\
  forall t, (t < k)%nat -> computed_at (fst st) t.

End LoopNotions.



(** ** The outputs of [forward] and the slots *)

(** Output index [t] is slot [t + 1]: the seed of slot 0 is not emitted. *)
Definition emitted (l : list Tensor2) (h : Tensor3) : Prop :=
  size0 h = (length l - 1)%nat /\
  forall t y, l !! S t = Some y -> getitem h (Z.of_nat t) = Ok y.

(** The fields of the returned list, in order. *)
Definition emitted_fields (observations : option Tensor3)
    (s : TransitionModel.Slots) (hidden : list Tensor3) : Prop :=
  exists h0 h1 h2 h3,
    emitted (TransitionModel.beliefs s) h0 /\
    emitted (TransitionModel.prior_states s) h1 /\
    emitted (TransitionModel.prior_means s) h2 /\
    emitted (TransitionModel.prior_std_devs s) h3 /\
    stack (drop 1 (TransitionModel.prior_std_devs s)) = Ok h3 /\
    match observations with
    | None => hidden = [h0; h1; h2; h3]
    | Some _ =>
        exists h4 h5 h6,
          emitted (TransitionModel.posterior_states s) h4 /\
          emitted (TransitionModel.posterior_means s) h5 /\
          emitted (TransitionModel.posterior_std_devs s) h6 /\
          stack (drop 1 (TransitionModel.posterior_std_devs s)) = Ok h6 /\
          hidden = [h0; h1; h2; h3; h4; h5; h6]
    end.

(** ** [ActionModel.forward] and [SampleDist.mode], taken apart *)

(** Lines 231 to 235: the raw mean and the raw scale, the two halves of the
    output of the last layer. *)
Definition raw_params (self : ActionModel.t) (belief state : Tensor2)
  : result (Tensor2 * Tensor2) :=
  x ← cat1 belief state;
  h ← Linear_forward (ActionModel.fc1 self) x;
  h ← Linear_forward (ActionModel.fc2 self) (tmap (ActionModel.act_fn self) h);
  h ← Linear_forward (ActionModel.fc3 self) (tmap (ActionModel.act_fn self) h);
  h ← Linear_forward (ActionModel.fc4 self) (tmap (ActionModel.act_fn self) h);
  o ← Linear_forward (ActionModel.fc5 self) (tmap (ActionModel.act_fn self) h);
  chunk2 o.

(** Line 237 entry by entry, on the real numbers. *)
Definition policy_std (self : ActionModel.t) (s : R) : R :=
  F.softplus (s + ln (exp (ActionModel.init_std self) - 1)) + ActionModel.min_std self.

(** Line 237 entry by entry, with the values [np.log] can take. *)
Definition policy_scale (self : ActionModel.t) (s : R) : option R :=
  add_nan (softplus_float (add_float s (np.log (exp (ActionModel.init_std self) - 1))))
          (ActionModel.min_std self).

(** The row that [gather] and [squeeze] produce for batch element [j] from
    the sample index [i]. *)
Definition gathered_row (x : Tensor3) (j i : nat) : list R :=
  map (fun k => entry3 x i j k) (seq 0 (size2 x)).

(** The index tensor that [mode] gathers with: the indices of [argmax],
    each repeated along the feature axis. *)
Definition gather_index (sample : Tensor3) (am : list nat) : list (list (list nat)) :=
  [map (expand_axis (size2 sample)) (map (fun i => [i]) am)].

(** What [mode] returns, given the sample and its densities. *)
Definition best_rows (sample : Tensor3) (logprob : LogProb) : Tensor2 :=
  mk2 (size2 sample)
      (imap (fun j i => gathered_row sample j i)
            (map (fun j => argmax_list (column j (lp_values logprob)))
                 (seq 0 (nan_ncols (lp_values logprob))))).

(** ** Well-shaped inputs *)

(** The inputs have the shapes of the diagram above [forward]: T - 1
    actions and masks, and an observation for each of them. *)
Definition well_shaped (belief_size state_size action_size embedding_size batch : nat)
    (actions : Tensor3) (observations nonterminals : option Tensor3)
    (prev_state prev_belief : Tensor2) : Prop :=
  shaped batch state_size prev_state /\
  shaped batch belief_size prev_belief /\
  (wf3 actions /\ size1 actions = batch /\ size2 actions = action_size) /\
  match observations with
  | None => True
  | Some obs =>
      wf3 obs /\ size1 obs = batch /\ size2 obs = embedding_size /\
      (size0 actions <= size0 obs)%nat
  end /\
  match nonterminals with
  | None => True
  | Some m =>
      wf3 m /\ size1 m = batch /\ size2 m = 1%nat /\ (size0 actions <= size0 m)%nat
  end.

(** Slot [i] holds tensors of the shapes of the model. *)
Definition good_slot (belief_size state_size batch : nat)
    (observations : option Tensor3) (s : TransitionModel.Slots) (i : nat) : Prop :=
  (exists y, TransitionModel.beliefs s !! i = Some y /\ shaped batch belief_size y) /\
  (exists y, TransitionModel.prior_states s !! i = Some y /\ shaped batch state_size y) /\
  (exists y, TransitionModel.prior_means s !! i = Some y /\ shaped batch state_size y) /\
  (exists y, TransitionModel.prior_std_devs s !! i = Some y
             /\ shaped batch state_size y) /\
  (observations <> None ->
   (exists y, TransitionModel.posterior_states s !! i = Some y
              /\ shaped batch state_size y) /\
   (exists y, TransitionModel.posterior_means s !! i = Some y
              /\ shaped batch state_size y) /\
   (exists y, TransitionModel.posterior_std_devs s !! i = Some y
              /\ shaped batch state_size y)).

Definition total_inv (belief_size state_size batch : nat) (actions : Tensor3)
    (observations : option Tensor3) (k : nat)
    (st : TransitionModel.Slots * Generator) : Prop :=
  slots_length (size0 actions + 1) (fst st) /\
  (exists y, TransitionModel.beliefs (fst st) !! k = Some y
             /\ shaped batch belief_size y) /\
  (exists y, selected observations (fst st) !! k = Some y
             /\ shaped batch state_size y) /\
  forall i, (1 <= i <= k)%nat ->
            good_slot belief_size state_size batch observations (fst st) i.

(** ** The rollout and its generator *)

(** The generator [g] after [n] of its values have been drawn. *)
Definition skip (n : nat) (g : Generator) : Generator := fun i => g (n + i)%nat.

(** The number of noise tensors one iteration of the loop draws: one for
    the prior state, and one more for the posterior state. *)
Definition draws (observations : option Tensor3) : nat :=
  match observations with
  | None => 1%nat
  | Some _ => 2%nat
  end.

(** Slot [t + 1] of the state lists holds mean + stddev * noise, on the
    noise that iteration [t] finds in the generator [g0] when every tensor
    of noise has [n] entries. *)
Definition noise_at (observations : option Tensor3) (g0 : Generator) (n : nat)
    (s : TransitionModel.Slots) (t : nat) : Prop :=
  exists pm psd ps g1,
    TransitionModel.prior_means s !! (t + 1)%nat = Some pm /\
    TransitionModel.prior_std_devs s !! (t + 1)%nat = Some psd /\
    TransitionModel.prior_states s !! (t + 1)%nat = Some ps /\
    reparameterize pm psd (skip (t * draws observations * n) g0) = Ok (ps, g1) /\
    match observations with
    | None => True
    | Some _ =>
        exists qm qsd qs g2,
          TransitionModel.posterior_means s !! (t + 1)%nat = Some qm /\
          TransitionModel.posterior_std_devs s !! (t + 1)%nat = Some qsd /\
          TransitionModel.posterior_states s !! (t + 1)%nat = Some qs /\
          reparameterize qm qsd (skip (t * draws observations * n + n) g0)
          = Ok (qs, g2)
    end.

(** The invariant of the loop on the generator: [k] iterations have drawn
    [k * draws * n] values. *)
Definition noise_inv (belief_size state_size batch : nat) (actions : Tensor3)
    (observations : option Tensor3) (g0 : Generator) (k : nat)
    (st : TransitionModel.Slots * Generator) : Prop :=
  total_inv belief_size state_size batch actions observations k st /\
  (forall i, snd st i = g0 (k * draws observations * (batch * state_size) + i)%nat) /\
  forall t, (t < k)%nat ->
            noise_at observations g0 (batch * state_size) (fst st) t.

(** Two optional sequences that agree on their first [n] entries. *)
Definition same_prefix (n : nat) (x y : option Tensor3) : Prop :=
  match x, y with
  | None, None => True
  | Some a, Some b => size2 a = size2 b /\ take n (planes a) = take n (planes b)
  | _, _ => False
  end.

(** A sequence continued by [n] more entries of zeros. *)
Definition padded (n : nat) (x : Tensor3) : Tensor3 :=
  mk3 (size1 x) (size2 x)
      (planes x ++ replicate n (replicate (size1 x) (replicate (size2 x) 0))).

(** ** Tensors of rank 1 *)

(** A tensor of rank 1 or of rank 2: what [squeeze] returns. *)
Inductive Tensor12 : Type :=
  | Rank1 (v : list R)
  | Rank2 (x : Tensor2).

(** [x.squeeze(dim=1)] of a rank-2 tensor: the axis is removed when its size
    is 1, and the tensor is returned as it is otherwise. *)
Definition squeeze1 (x : Tensor2) : Tensor12 :=
  if (ncols x =? 1)%nat then Rank1 (map (fun r => nth 0 r 0) (rows x))
  else Rank2 x.

(** ** [SymbolicObservationModel] *)

Module SymbolicObservationModel.

Record t : Type := mk {
  act_fn : R -> R;
  fc1 : Linear;
  fc2 : Linear;
  fc3 : Linear
}.

Definition __init__ (observation_size belief_size state_size embedding_size : nat)
    (self : t) : Prop :=
  Linear_init (belief_size + state_size) embedding_size (fc1 self) /\
  Linear_init embedding_size embedding_size (fc2 self) /\
  Linear_init embedding_size observation_size (fc3 self).

Definition forward (self : t) (belief state : Tensor2) : result Tensor2 :=
  x ← cat1 belief state;
  h ← Linear_forward (fc1 self) x;
  let hidden := tmap (act_fn self) h in
  h ← Linear_forward (fc2 self) hidden;
  let hidden := tmap (act_fn self) h in
  observation ← Linear_forward (fc3 self) hidden;
  Ok observation.

End SymbolicObservationModel.

(** ** [RewardModel] *)

Module RewardModel.

Record t : Type := mk {
  act_fn : R -> R;
  fc1 : Linear;
  fc2 : Linear;
  fc3 : Linear
}.

Definition __init__ (belief_size state_size hidden_size : nat) (self : t) : Prop :=
  Linear_init (belief_size + state_size) hidden_size (fc1 self) /\
  Linear_init hidden_size hidden_size (fc2 self) /\
  Linear_init hidden_size 1 (fc3 self).

(** On rank-2 inputs [dim=-1] is [dim=1]. *)
Definition forward (self : t) (belief state : Tensor2) : result Tensor12 :=
  x ← cat1 belief state;
  h ← Linear_forward (fc1 self) x;
  let hidden := tmap (act_fn self) h in
  h ← Linear_forward (fc2 self) hidden;
  let hidden := tmap (act_fn self) h in
  o ← Linear_forward (fc3 self) hidden;
  let reward := squeeze1 o in
  Ok reward.

End RewardModel.

(** ** [SymbolicEncoder] *)

Module SymbolicEncoder.

Record t : Type := mk {
  act_fn : R -> R;
  fc1 : Linear;
  fc2 : Linear;
  fc3 : Linear
}.

Definition __init__ (observation_size embedding_size : nat) (self : t) : Prop :=
  Linear_init observation_size embedding_size (fc1 self) /\
  Linear_init embedding_size embedding_size (fc2 self) /\
  Linear_init embedding_size embedding_size (fc3 self).

Definition forward (self : t) (observation : Tensor2) : result Tensor2 :=
  h ← Linear_forward (fc1 self) observation;
  let hidden := tmap (act_fn self) h in
  h ← Linear_forward (fc2 self) hidden;
  let hidden := tmap (act_fn self) h in
  hidden ← Linear_forward (fc3 self) hidden;
  Ok hidden.

End SymbolicEncoder.

(** ** [ValueModel] *)

Module ValueModel.

Record t : Type := mk {
  act_fn : R -> R;
  fc1 : Linear;
  fc2 : Linear;
  fc3 : Linear;
  fc4 : Linear
}.

Definition __init__ (belief_size state_size hidden_size : nat) (self : t) : Prop :=
  Linear_init (belief_size + state_size) hidden_size (fc1 self) /\
  Linear_init hidden_size hidden_size (fc2 self) /\
  Linear_init hidden_size hidden_size (fc3 self) /\
  Linear_init hidden_size 1 (fc4 self).

Definition forward (self : t) (belief state : Tensor2) : result Tensor12 :=
  x ← cat1 belief state;
  h ← Linear_forward (fc1 self) x;
  let hidden := tmap (act_fn self) h in
  h ← Linear_forward (fc2 self) hidden;
  let hidden := tmap (act_fn self) h in
  h ← Linear_forward (fc3 self) hidden;
  let hidden := tmap (act_fn self) h in
  o ← Linear_forward (fc4 self) hidden;
  let value := squeeze1 o in
  Ok value.

End ValueModel.

(** ** [bottle] *)

(** A sequence over time and batch: of rank 2, one scalar per step and
    batch element, or of rank 3. *)
Inductive Tensor23 : Type :=
  | Seq2 (x : Tensor2)
  | Seq3 (x : Tensor3).

(** [x.view(T * B, F)] of a rank-3 tensor of sizes (T, B, F): the planes,
    one after the other. *)
Definition view_flat (x : Tensor3) : Tensor2 :=
  mk2 (size2 x) (concat (planes x)).

(** [y.view(T, B, *y.size()[1:])]: the numbers of entries must agree; row
    [t * B + b] of [y] becomes the entry at step [t] and batch element [b]. *)
Definition view_seq (T B : nat) (y : Tensor12) : result Tensor23 :=
  match y with
  | Rank1 v =>
      if (length v =? T * B)%nat
      then Ok (Seq2 (mk2 B (map (fun t => map (fun b => nth (t * B + b) v 0)
                                              (seq 0 B))
                                (seq 0 T))))
      else Raise RuntimeError
  | Rank2 x =>
      if (nrows x * ncols x =? T * B * ncols x)%nat
      then Ok (Seq3 (mk3 B (ncols x)
                         (map (fun t => map (fun b => nth (t * B + b) (rows x) [])
                                            (seq 0 B))
                              (seq 0 T))))
      else Raise RuntimeError
  end.

(** [bottle(f, x_tuple)] for a tuple of rank-3 tensors: [f] takes as many
    arguments as the tuple has entries, and returns one tensor. The time
    and batch sizes of the result are those of the first entry of the
    tuple. *)
Definition bottle {n : nat} (f : vec Tensor2 n -> result Tensor12)
    (x_tuple : vec Tensor3 n) : result Tensor23 :=
  let x_sizes := vmap (fun x => (size0 x, size1 x, size2 x)) x_tuple in
  y ← f (vmap view_flat x_tuple);
  match vec_to_list x_sizes with
  | [] => Raise IndexError
  | (T, B, _) :: _ => view_seq T B y
  end.

(** The call of [f] on the unpacked tuple, for a function of one and of two
    tensors; and a model that returns a tensor of rank 2. *)
Definition star1 {A} (f : Tensor2 -> A) (args : vec Tensor2 1) : A :=
  f (args !!! 0%fin).

Definition star2 {A} (f : Tensor2 -> Tensor2 -> A) (args : vec Tensor2 2) : A :=
  f (args !!! 0%fin) (args !!! 1%fin).

Definition rank2 (y : result Tensor2) : result Tensor12 :=
  x ← y; Ok (Rank2 x).

(** ** The perceptrons, row by row *)

(** One layer with its activation, on one row. *)
Definition dense (act : R -> R) (l : Linear) (r : list R) : list R :=
  map act (linear_row l r).

Definition observation_row (self : SymbolicObservationModel.t) (r : list R)
  : list R :=
  linear_row (SymbolicObservationModel.fc3 self)
    (dense (SymbolicObservationModel.act_fn self) (SymbolicObservationModel.fc2 self)
       (dense (SymbolicObservationModel.act_fn self)
              (SymbolicObservationModel.fc1 self) r)).

Definition reward_row (self : RewardModel.t) (r : list R) : R :=
  nth 0 (linear_row (RewardModel.fc3 self)
           (dense (RewardModel.act_fn self) (RewardModel.fc2 self)
              (dense (RewardModel.act_fn self) (RewardModel.fc1 self) r))) 0.

Definition encoder_row (self : SymbolicEncoder.t) (r : list R) : list R :=
  linear_row (SymbolicEncoder.fc3 self)
    (dense (SymbolicEncoder.act_fn self) (SymbolicEncoder.fc2 self)
       (dense (SymbolicEncoder.act_fn self) (SymbolicEncoder.fc1 self) r)).

Definition value_row (self : ValueModel.t) (r : list R) : R :=
  nth 0 (linear_row (ValueModel.fc4 self)
           (dense (ValueModel.act_fn self) (ValueModel.fc3 self)
              (dense (ValueModel.act_fn self) (ValueModel.fc2 self)
                 (dense (ValueModel.act_fn self) (ValueModel.fc1 self) r)))) 0.

(** A sequence of rank 3 with its three sizes. *)
Definition shaped3 (T B F : nat) (x : Tensor3) : Prop :=
  size0 x = T /\ size1 x = B /\ size2 x = F /\ wf3 x.

(** ** Bounds *)

(** Every entry of a tensor lies strictly between [lo] and [hi]. *)
Definition all_within (lo hi : R) (x : Tensor2) : Prop :=
  Forall (Forall (fun v => lo < v < hi)) (rows x).

Definition all_within3 (lo hi : R) (x : Tensor3) : Prop :=
  Forall (Forall (Forall (fun v => lo < v < hi))) (planes x).

(** The distribution of actions that [ActionModel.forward] builds on a mean
    and a stddev. *)
Definition squashed (mean std : Tensor2) : TorchDist :=
  Independent (TransformedDistribution (Normal mean std) [TanhTransform]) 1.

(** Every entry of a tensor lies between [lo] and [hi], ends included. *)
Definition all_in (lo hi : R) (x : Tensor2) : Prop :=
  Forall (Forall (fun v => lo <= v <= hi)) (rows x).

(** ** Images: tensors of rank 4 *)

(** One image: channels x height x width. *)
Abbreviation Image := (list (list (list R))).

(** Rank 4, batch x channels x height x width: the images with their
    three declared sizes. *)
Record Tensor4 : Type :=
  mk4 { channels : nat; height : nat; width : nat; images : list Image }.

Definition wf_image (C H W : nat) (img : Image) : Prop :=
  length img = C /\
  Forall (fun ch => length ch = H /\ Forall (fun r => length r = W) ch) img.

Definition wf4 (x : Tensor4) : Prop :=
  Forall (wf_image (channels x) (height x) (width x)) (images x).

Definition shaped4 (B C H W : nat) (x : Tensor4) : Prop :=
  length (images x) = B /\ channels x = C /\ height x = H /\ width x = W /\ wf4 x.

Definition pixel (img : Image) (c y x : nat) : R :=
  nth x (nth y (nth c img []) []) 0.

Definition tmap4 (f : R -> R) (x : Tensor4) : Tensor4 :=
  mk4 (channels x) (height x) (width x) (map (map (map (map f))) (images x)).

(** The entries of a tensor in row-major order. *)
Definition flatten4 (x : Tensor4) : list R :=
  concat (map (fun img => concat (map (@concat R) img)) (images x)).

(** [data.view(-1, c)]: rows of [c] entries. The number of entries must be
    a multiple of [c], and [c] may not be zero. *)
Definition chunks {A} (c : nat) (l : list A) : list (list A) :=
  map (fun i => take c (drop (i * c) l)) (seq 0 (length l / c)).

Definition view_rows (c : nat) (data : list R) : result (list (list R)) :=
  if (c =? 0)%nat then Raise RuntimeError
  else if (length data mod c =? 0)%nat then Ok (chunks c data)
  else Raise RuntimeError.

(** ** The convolutions of [torch.nn] *)

(** A stack of kernels, [a] x [b] x [k] x [k], and its entries. *)
Definition Kernels : Type := list (list (list (list R))).

Definition wf_kernels (a b k : nat) (w : Kernels) : Prop :=
  length w = a /\
  Forall (fun wa => length wa = b /\
            Forall (fun wb => length wb = k /\ Forall (fun r => length r = k) wb) wa)
         w.

Definition kernel_at (w : Kernels) (a b di dj : nat) : R :=
  nth dj (nth di (nth b (nth a w []) []) []) 0.

(** [nn.Conv2d(in_channels, out_channels, kernel_size, stride=stride)],
    without padding or dilation: [conv_weight] is its weight, of shape
    out x in x k x k. *)
Record Conv2d : Type := mkConv2d {
  in_channels : nat;
  out_channels : nat;
  kernel_size : nat;
  stride : nat;
  conv_weight : Kernels;
  conv_bias : list R
}.

Definition Conv2d_init (i o k s : nat) (l : Conv2d) : Prop :=
  in_channels l = i /\ out_channels l = o /\ kernel_size l = k /\ stride l = s /\
  wf_kernels o i k (conv_weight l) /\ length (conv_bias l) = o.

(** The size of the output along an axis of size [n]. *)
Definition conv_out (n k s : nat) : nat := ((n - k) / s + 1)%nat.

(** out[o][i][j] = bias[o] + sum over c, di, dj of
    weight[o][c][di][dj] * in[c][i * stride + di][j * stride + dj]. *)
Definition Conv2d_image (l : Conv2d) (Ho Wo : nat) (img : Image) : Image :=
  map (fun o =>
    map (fun i =>
      map (fun j =>
        nth o (conv_bias l) 0
        + sum_list (map (fun c =>
            sum_list (map (fun di =>
              sum_list (map (fun dj =>
                kernel_at (conv_weight l) o c di dj
                * pixel img c (i * stride l + di) (j * stride l + dj))
                (seq 0 (kernel_size l))))
              (seq 0 (kernel_size l))))
            (seq 0 (in_channels l))))
        (seq 0 Wo))
      (seq 0 Ho))
    (seq 0 (out_channels l)).

(** The channels must be those of the layer, and the image no smaller than
    the kernel. *)
Definition Conv2d_forward (l : Conv2d) (x : Tensor4) : result Tensor4 :=
  if negb (channels x =? in_channels l)%nat then Raise RuntimeError
  else if ((height x <? kernel_size l)%nat || (width x <? kernel_size l)%nat)%bool
  then Raise RuntimeError
  else
    let Ho := conv_out (height x) (kernel_size l) (stride l) in
    let Wo := conv_out (width x) (kernel_size l) (stride l) in
    Ok (mk4 (out_channels l) Ho Wo (map (Conv2d_image l Ho Wo) (images x))).

(** [nn.ConvTranspose2d(in_channels, out_channels, kernel_size,
    stride=stride)], without padding: [t_weight] is its weight, of shape
    in x out x k x k. *)
Record ConvTranspose2d : Type := mkConvTranspose2d {
  t_in_channels : nat;
  t_out_channels : nat;
  t_kernel_size : nat;
  t_stride : nat;
  t_weight : Kernels;
  t_bias : list R
}.

Definition ConvTranspose2d_init (i o k s : nat) (l : ConvTranspose2d) : Prop :=
  t_in_channels l = i /\ t_out_channels l = o /\ t_kernel_size l = k /\
  t_stride l = s /\ wf_kernels i o k (t_weight l) /\ length (t_bias l) = o.

Definition conv_transpose_out (n k s : nat) : nat := ((n - 1) * s + k)%nat.

(** out[o][y][x] = bias[o] + sum over c, i, j of
    in[c][i][j] * weight[c][o][y - i * stride][x - j * stride],
    over the (i, j) whose kernel reaches (y, x). *)
Definition ConvTranspose2d_image (l : ConvTranspose2d) (H W Ho Wo : nat)
    (img : Image) : Image :=
  map (fun o =>
    map (fun y =>
      map (fun x =>
        nth o (t_bias l) 0
        + sum_list (map (fun c =>
            sum_list (map (fun i =>
              sum_list (map (fun j =>
                if ((i * t_stride l <=? y)%nat
                    && (y - i * t_stride l <? t_kernel_size l)%nat
                    && (j * t_stride l <=? x)%nat
                    && (x - j * t_stride l <? t_kernel_size l)%nat)%bool
                then pixel img c i j
                     * kernel_at (t_weight l) c o (y - i * t_stride l)
                                 (x - j * t_stride l)
                else 0)
                (seq 0 W)))
              (seq 0 H)))
            (seq 0 (t_in_channels l))))
        (seq 0 Wo))
      (seq 0 Ho))
    (seq 0 (t_out_channels l)).

(** The channels must be those of the layer. An input without pixels is
    not met by the models and is answered with an error. *)
Definition ConvTranspose2d_forward (l : ConvTranspose2d) (x : Tensor4)
  : result Tensor4 :=
  if negb (channels x =? t_in_channels l)%nat then Raise RuntimeError
  else if ((height x =? 0)%nat || (width x =? 0)%nat)%bool then Raise RuntimeError
  else
    let Ho := conv_transpose_out (height x) (t_kernel_size l) (t_stride l) in
    let Wo := conv_transpose_out (width x) (t_kernel_size l) (t_stride l) in
    Ok (mk4 (t_out_channels l) Ho Wo
            (map (ConvTranspose2d_image l (height x) (width x) Ho Wo) (images x))).

(** ** [VisualObservationModel] *)

Module VisualObservationModel.

Record t : Type := mk {
  act_fn : R -> R;
  embedding_size : nat;
  fc1 : Linear;
  conv1 : ConvTranspose2d;
  conv2 : ConvTranspose2d;
  conv3 : ConvTranspose2d;
  conv4 : ConvTranspose2d
}.

Definition __init__ (belief_size state_size embedding_size0 : nat) (self : t)
  : Prop :=
  embedding_size self = embedding_size0 /\
  Linear_init (belief_size + state_size) embedding_size0 (fc1 self) /\
  ConvTranspose2d_init embedding_size0 128 5 2 (conv1 self) /\
  ConvTranspose2d_init 128 64 5 2 (conv2 self) /\
  ConvTranspose2d_init 64 32 6 2 (conv3 self) /\
  ConvTranspose2d_init 32 3 6 2 (conv4 self).

Definition forward (self : t) (belief state : Tensor2) : result Tensor4 :=
  x ← cat1 belief state;
  hidden ← Linear_forward (fc1 self) x;  (* No nonlinearity here *)
  (* hidden.view(-1, self.embedding_size, 1, 1) *)
  vectors ← view_rows (embedding_size self) (concat (rows hidden));
  let hidden := mk4 (embedding_size self) 1 1
                    (map (map (fun v => [[v]])) vectors) in
  h ← ConvTranspose2d_forward (conv1 self) hidden;
  let hidden := tmap4 (act_fn self) h in
  h ← ConvTranspose2d_forward (conv2 self) hidden;
  let hidden := tmap4 (act_fn self) h in
  h ← ConvTranspose2d_forward (conv3 self) hidden;
  let hidden := tmap4 (act_fn self) h in
  observation ← ConvTranspose2d_forward (conv4 self) hidden;
  Ok observation.

End VisualObservationModel.

(** ** [VisualEncoder] *)

Module VisualEncoder.

(** [fc] is [None] for [nn.Identity()]. *)
Record t : Type := mk {
  act_fn : R -> R;
  embedding_size : nat;
  conv1 : Conv2d;
  conv2 : Conv2d;
  conv3 : Conv2d;
  conv4 : Conv2d;
  fc : option Linear
}.

Definition __init__ (embedding_size0 : nat) (self : t) : Prop :=
  embedding_size self = embedding_size0 /\
  Conv2d_init 3 32 4 2 (conv1 self) /\
  Conv2d_init 32 64 4 2 (conv2 self) /\
  Conv2d_init 64 128 4 2 (conv3 self) /\
  Conv2d_init 128 256 4 2 (conv4 self) /\
  if (embedding_size0 =? 1024)%nat then fc self = None
  else exists l, fc self = Some l /\ Linear_init 1024 embedding_size0 l.

Definition forward (self : t) (observation : Tensor4) : result Tensor2 :=
  h ← Conv2d_forward (conv1 self) observation;
  let hidden := tmap4 (act_fn self) h in
  h ← Conv2d_forward (conv2 self) hidden;
  let hidden := tmap4 (act_fn self) h in
  h ← Conv2d_forward (conv3 self) hidden;
  let hidden := tmap4 (act_fn self) h in
  h ← Conv2d_forward (conv4 self) hidden;
  let hidden := tmap4 (act_fn self) h in
  (* hidden.view(-1, 1024) *)
  vectors ← view_rows 1024 (flatten4 hidden);
  let hidden := mk2 1024 vectors in
  (* Identity if embedding size is 1024 else linear projection *)
  match fc self with
  | None => Ok hidden
  | Some l => Linear_forward l hidden
  end.

End VisualEncoder.

(** ** The factories [ObservationModel] and [Encoder] *)

Inductive ObservationModelT : Type :=
  | SymbolicObservation (m : SymbolicObservationModel.t)
  | VisualObservation (m : VisualObservationModel.t).

(** What [ObservationModel(symbolic, ...)] returns: a model of the class
    that [symbolic] selects, constructed from the arguments that the class
    takes. *)
Definition ObservationModel (symbolic : bool)
    (observation_size belief_size state_size embedding_size : nat)
    (m : ObservationModelT) : Prop :=
  if symbolic
  then exists s, m = SymbolicObservation s /\
                 SymbolicObservationModel.__init__ observation_size belief_size
                                                   state_size embedding_size s
  else exists v, m = VisualObservation v /\
                 VisualObservationModel.__init__ belief_size state_size
                                                 embedding_size v.

Inductive EncoderT : Type :=
  | SymbolicEnc (m : SymbolicEncoder.t)
  | VisualEnc (m : VisualEncoder.t).

Definition Encoder (symbolic : bool) (observation_size embedding_size : nat)
    (m : EncoderT) : Prop :=
  if symbolic
  then exists s, m = SymbolicEnc s /\
                 SymbolicEncoder.__init__ observation_size embedding_size s
  else exists v, m = VisualEnc v /\ VisualEncoder.__init__ embedding_size v.

(** The spatial size after the four convolutions of the encoder. *)
Definition encoded_size (n : nat) : nat :=
  conv_out (conv_out (conv_out (conv_out n 4 2) 4 2) 4 2) 4 2.

(** The number of entries the four convolutions return on a batch of [B]
    images of [H] x [W] pixels. *)
Definition encoded_entries (B H W : nat) : nat :=
  (B * (256 * (encoded_size H * encoded_size W)))%nat.

(** ** Small concrete models, for the examples *)

Module Example.

(** A layer whose weights all are [w] and whose biases all are [b]. *)
Definition const_linear (o i : nat) (w b : R) : Linear :=
  mkLinear (mk2 i (replicate o (replicate i w))) (replicate o b).

(** Every size is 1: belief, state, action, hidden and embedding; the
    activation and the stddev floor are the defaults. *)
Definition rssm : TransitionModel.t :=
  TransitionModel.mk F.relu (1 / 10)
    (const_linear 1 2 1 0)
    (mkGRUCell 1 1 (const_linear 3 1 (1 / 2) 0) (const_linear 3 1 (1 / 2) 0))
    (const_linear 1 1 1 0)
    (const_linear 2 1 1 0)
    (const_linear 1 2 1 0)
    (const_linear 2 1 1 0).

(** A batch of two: seeds, two actions, two observations, two masks. *)
Definition state0 : Tensor2 := mk2 1 [[1]; [2]].
Definition belief0 : Tensor2 := mk2 1 [[0]; [0]].
Definition no_actions : Tensor3 := mk3 2 1 [].
Definition actions2 : Tensor3 := mk3 2 1 [[[1]; [0]]; [[0]; [1]]].
Definition observations2 : Tensor3 := mk3 2 1 [[[1]; [1]]; [[2]; [2]]].
Definition nonterminals2 : Tensor3 := mk3 2 1 [[[1]; [0]]; [[1]; [1]]].

(** A generator that delivers 1, 2, 3, ... *)
Definition counting : Generator := fun k => INR (S k).

(** The policy network with every size 1 and the default mean_scale = 5,
    min_std = 1e-4 and init_std = 5. Its last layer is zero, so that the
    raw mean and the raw scale are zero. *)
Definition policy : ActionModel.t :=
  ActionModel.mk F.relu
    (const_linear 1 2 1 0) (const_linear 1 1 1 0) (const_linear 1 1 1 0)
    (const_linear 1 1 1 0) (const_linear 2 1 0 0)
    (1 / 10000) 5 5.

(** tanh(Normal(0, 1)) over a batch of two and one action dimension, as
    [ActionModel.forward] composes it. *)
Definition dist : TorchDist :=
  Independent
    (TransformedDistribution (Normal (mk2 1 [[0]; [0]]) (mk2 1 [[1]; [1]]))
                             [TanhTransform]) 1.



End Example.

(** ** More small models, for the examples *)

Module Demo.

Definition observation_model : SymbolicObservationModel.t :=
  SymbolicObservationModel.mk F.relu
    (Example.const_linear 1 2 1 0) (Example.const_linear 1 1 1 0)
    (Example.const_linear 1 1 1 0).

Definition reward_model : RewardModel.t :=
  RewardModel.mk F.relu
    (Example.const_linear 1 2 1 0) (Example.const_linear 1 1 1 0)
    (Example.const_linear 1 1 1 0).

Definition encoder : SymbolicEncoder.t :=
  SymbolicEncoder.mk F.relu
    (Example.const_linear 1 1 1 0) (Example.const_linear 1 1 1 0)
    (Example.const_linear 1 1 1 0).

Definition value_model : ValueModel.t :=
  ValueModel.mk F.relu
    (Example.const_linear 1 2 1 0) (Example.const_linear 1 1 1 0)
    (Example.const_linear 1 1 1 0) (Example.const_linear 1 1 1 0).

(** Two steps of beliefs and states for a batch of two. *)
Definition beliefs2 : Tensor3 := mk3 2 1 [[[0]; [1]]; [[2]; [3]]].
Definition states2 : Tensor3 := mk3 2 1 [[[1]; [1]]; [[0]; [2]]].

(** Convolutions whose weights all are [w] and whose biases all are [b]. *)
Definition const_kernels (a b k : nat) (w : R) : Kernels :=
  replicate a (replicate b (replicate k (replicate k w))).

Definition const_conv (i o k s : nat) (w b : R) : Conv2d :=
  mkConv2d i o k s (const_kernels o i k w) (replicate o b).

Definition const_conv_transpose (i o k s : nat) (w b : R) : ConvTranspose2d :=
  mkConvTranspose2d i o k s (const_kernels i o k w) (replicate o b).

(** An encoder with the embedding size 1024, so that its last layer is the
    identity, and an observation model with the embedding size 1. *)
Definition visual_encoder : VisualEncoder.t :=
  VisualEncoder.mk F.relu 1024
    (const_conv 3 32 4 2 0 0) (const_conv 32 64 4 2 0 0)
    (const_conv 64 128 4 2 0 0) (const_conv 128 256 4 2 0 0) None.

Definition visual_observation_model : VisualObservationModel.t :=
  VisualObservationModel.mk F.relu 1 (Example.const_linear 1 2 1 0)
    (const_conv_transpose 1 128 5 2 0 0) (const_conv_transpose 128 64 5 2 0 0)
    (const_conv_transpose 64 32 6 2 0 0) (const_conv_transpose 32 3 6 2 0 0).

(** A batch of [B] black images of [n] x [n] pixels. *)
Definition black_images (B n : nat) : Tensor4 :=
  mk4 3 n n (replicate B (replicate 3 (replicate n (replicate n 0)))).

End Demo.


(** Runs a model on concrete tensors, leaving the real arithmetic as it is. *)
Ltac run_model :=
  cbv -[Rplus Rmult Rminus Ropp Rinv Rdiv exp ln tanh Rmax Rle_dec Rlt_dec
        INR IZR sqrt PI F.softplus F.relu sigmoid].

(** ** Lemmas on results, lists and tensors *)

Lemma bind_ok {A B} (m : result A) (f : A -> result B) b :
  m ≫= f = Ok b -> exists a, m = Ok a /\ f a = Ok b.
Proof. destruct m; cbn; [eauto|discriminate]. Qed.

Lemma pyget_ok {A} (l : list A) i x : pyget l i = Ok x <-> l !! i = Some x.
Proof. unfold pyget. destruct (l !! i); split; congruence. Qed.

Lemma pyset_ok {A} (l l' : list A) i v :
  pyset l i v = Ok l' <-> (i < length l)%nat /\ l' = <[i:=v]> l.
Proof.
  unfold pyset. destruct (i <? length l)%nat eqn:E.
  - apply Nat.ltb_lt in E. split; [intros [= <-]; auto | intros [_ ->]; auto].
  - apply Nat.ltb_ge in E. split; [discriminate | intros [? _]; lia].
Qed.

Lemma pyset_pyget {A} (l l' : list A) i v :
  pyset l i v = Ok l' -> pyget l' i = Ok v.
Proof.
  intros [Hi ->]%pyset_ok. apply pyget_ok. by apply list_lookup_insert_eq.
Qed.

Lemma getitem_nat (x : Tensor3) (t : nat) :
  getitem x (Z.of_nat t) =
  match planes x !! t with
  | Some p => Ok (mk2 (size2 x) p)
  | None => Raise IndexError
  end.
Proof.
  unfold getitem. destruct (Z.of_nat t <? 0)%Z eqn:E; [apply Z.ltb_lt in E; lia|].
  rewrite Nat2Z.id. destruct (planes x !! t) eqn:El.
  - apply lookup_lt_Some in El. unfold size0.
    destruct (0 <=? Z.of_nat t)%Z eqn:E1; [|apply Z.leb_gt in E1; lia].
    destruct (Z.of_nat t <? Z.of_nat (length (planes x)))%Z eqn:E2;
      [reflexivity | apply Z.ltb_ge in E2; lia].
  - by destruct (_ && _)%bool.
Qed.

(** The observation index of the loop: [t_ + 1] with [t_ = t - 1] is [t]. *)
Lemma observation_index (t : nat) : (Z.of_nat t - 1 + 1)%Z = Z.of_nat t.
Proof. lia. Qed.

Lemma stack_ok l x :
  stack l = Ok x ->
  l <> [] /\ planes x = map rows l /\
  Forall (fun y => nrows y = size1 x /\ ncols y = size2 x) l.
Proof.
  unfold stack. destruct l as [|y l]; [discriminate|].
  destruct (forallb _ _) eqn:E; [|discriminate]. intros [= <-].
  split; [discriminate|]. split; [reflexivity|]. cbn [size1 size2].
  apply Forall_forall. intros z Hz. apply list_elem_of_In in Hz.
  rewrite forallb_forall in E. specialize (E z Hz). unfold same_shape in E.
  apply andb_prop in E as [E1 E2]. by apply Nat.eqb_eq in E1, E2.
Qed.

Lemma stack_size0 l x : stack l = Ok x -> size0 x = length l.
Proof.
  intros (_ & Hp & _)%stack_ok. unfold size0. by rewrite Hp, length_map.
Qed.

Lemma stack_getitem l x (t : nat) y :
  stack l = Ok x -> l !! t = Some y -> getitem x (Z.of_nat t) = Ok y.
Proof.
  intros (_ & Hp & Hs)%stack_ok Hy. rewrite getitem_nat, Hp, list_lookup_fmap, Hy.
  cbn. rewrite Forall_forall in Hs.
  destruct (Hs y) as [_ <-]; [by eapply list_elem_of_lookup_2|]. by destruct y.
Qed.

(** ** The loop body as one step of the dynamics *)

Section Body.

Variable self : TransitionModel.t.
Variable actions : Tensor3.
Variables observations nonterminals : option Tensor3.

Local Abbreviation body :=
  (TransitionModel.forward_body self actions observations nonterminals).

Lemma forward_body_step t s g s' g' :
  body t (s, g) = Ok (s', g') ->
  step self actions observations nonterminals t s g s' g'.
Proof.
  unfold TransitionModel.forward_body. intros H.
  apply bind_ok in H as (st0 & Hst0 & H).
  apply bind_ok in H as (st & Hst & H).
  apply bind_ok in H as (a & Ha & H).
  apply bind_ok in H as (x & Hx & H).
  apply bind_ok in H as (h & Hh & H).
  apply bind_ok in H as (b & Hb & H).
  apply bind_ok in H as (b' & Hb' & H).
  apply bind_ok in H as (beliefs' & Hbs & H).
  rewrite (pyset_pyget _ _ _ _ Hbs) in H. cbn [mbind result_bind] in H.
  apply bind_ok in H as (h1 & Hh1 & H).
  apply bind_ok in H as (o & Ho & H).
  apply bind_ok in H as ([pm raw] & Hc & H).
  apply bind_ok in H as (pms & Hpms & H).
  apply bind_ok in H as (psds & Hpsds & H).
  rewrite (pyset_pyget _ _ _ _ Hpms), (pyset_pyget _ _ _ _ Hpsds) in H.
  cbn [mbind result_bind] in H.
  destruct (randn_like pm g) as [eps g1] eqn:Hr.
  apply bind_ok in H as (p & Hp & H).
  apply bind_ok in H as (ps & Hps & H).
  apply bind_ok in H as (pss & Hpss & H).
  apply pyget_ok in Hst0, Hb.
  apply pyset_ok in Hbs as [Lb ->], Hpms as [Lpm ->], Hpsds as [Lpsd ->], Hpss as [Lps ->].
  exists st0, st, a, b, b', pm,
    (add_scalar (tmap F.softplus raw) (TransitionModel.min_std_dev self)), ps, g1.
  assert (Hbu : belief_update self st a b = Ok b').
  { unfold belief_update. rewrite Hx. cbn. rewrite Hh. cbn. exact Hb'. }
  assert (Hpp : prior_params self b'
                = Ok (pm, add_scalar (tmap F.softplus raw)
                                     (TransitionModel.min_std_dev self))).
  { unfold prior_params, gaussian_params. rewrite Hh1. cbn. rewrite Ho. cbn.
    rewrite Hc. reflexivity. }
  assert (Hrp : reparameterize pm
                  (add_scalar (tmap F.softplus raw) (TransitionModel.min_std_dev self)) g
                = Ok (ps, g1)).
  { unfold reparameterize. rewrite Hr, Hp. cbn. rewrite Hps. reflexivity. }
  unfold selected, masked, posterior_step.
  destruct observations as [obs|].
  - apply bind_ok in H as (e & He & H).
    apply bind_ok in H as (x2 & Hx2 & H).
    apply bind_ok in H as (h2 & Hh2 & H).
    apply bind_ok in H as (o2 & Ho2 & H).
    apply bind_ok in H as ([qm raw2] & Hc2 & H).
    apply bind_ok in H as (qms & Hqms & H).
    apply bind_ok in H as (qsds & Hqsds & H).
    rewrite (pyset_pyget _ _ _ _ Hqms), (pyset_pyget _ _ _ _ Hqsds) in H.
    cbn [mbind result_bind] in H.
    destruct (randn_like qm g1) as [eps2 g2] eqn:Hr2.
    apply bind_ok in H as (q & Hq & H).
    apply bind_ok in H as (qs & Hqs & H).
    apply bind_ok in H as (qss & Hqss & H).
    injection H as <- <-.
    apply pyset_ok in Hqms as [Lqm ->], Hqsds as [Lqsd ->], Hqss as [Lqs ->].
    rewrite observation_index in He.
    repeat (split; [first [assumption | reflexivity]|]).
    exists e, qm,
      (add_scalar (tmap F.softplus raw2) (TransitionModel.min_std_dev self)), qs.
    repeat (split; [first [assumption | reflexivity]|]).
    split.
    + unfold posterior_params, gaussian_params. rewrite Hx2. cbn. rewrite Hh2. cbn.
      rewrite Ho2. cbn. rewrite Hc2. reflexivity.
    + split.
      * unfold reparameterize. rewrite Hr2, Hq. cbn. rewrite Hqs. reflexivity.
      * repeat (split; [first [assumption | reflexivity]|]). reflexivity.
  - injection H as <- <-.
    repeat (split; [first [assumption | reflexivity]|]). reflexivity.
Qed.

End Body.

(** ** The loop: what every slot holds when it ends *)

Lemma for_range_inv {St} (body : nat -> St -> result St) (P : nat -> St -> Prop) :
  forall n a s s',
    (forall t s1 s2, (a <= t < a + n)%nat -> P t s1 -> body t s1 = Ok s2 -> P (S t) s2) ->
    P a s -> for_range body (seq a n) s = Ok s' -> P (a + n)%nat s'.
Proof.
  induction n as [|n IH]; intros a s s' Hstep Ha H; cbn in H.
  - injection H as <-. by rewrite Nat.add_0_r.
  - apply bind_ok in H as (s1 & H1 & H).
    replace (a + S n)%nat with (S a + n)%nat by lia.
    apply (IH (S a) s1 s'); [|apply (Hstep a s s1); [lia|assumption..]|assumption].
    intros t s2 s3 Ht. apply Hstep. lia.
Qed.

Section Loop.

Variable self : TransitionModel.t.
Variable actions : Tensor3.
Variables observations nonterminals : option Tensor3.
Variables prev_state prev_belief : Tensor2.

Local Abbreviation body :=
  (TransitionModel.forward_body self actions observations nonterminals).
Local Abbreviation computed :=
  (computed_at self actions observations nonterminals).
Local Abbreviation linv :=
  (loop_inv self actions observations nonterminals prev_state prev_belief).

Lemma step_slots_length t s g s' g' n :
  step self actions observations nonterminals t s g s' g' ->
  slots_length n s -> slots_length n s'.
Proof.
  unfold slots_length.
  intros (st0 & st & a & b & b' & pm & psd & ps & g1 & _ & _ & _ & _ & _ & _ & _
          & _ & _ & _ & _ & -> & -> & -> & -> & Hpost) (L1 & L2 & L3 & L4 & L5 & L6 & L7).
  rewrite !length_insert. unfold posterior_step in Hpost.
  destruct observations.
  - destruct Hpost as (e & qm & qsd & qs & _ & _ & _ & _ & _ & _ & -> & -> & ->).
    by rewrite !length_insert.
  - destruct Hpost as (_ & -> & -> & ->). done.
Qed.

Lemma step_lookup_ne t s g s' g' i :
  step self actions observations nonterminals t s g s' g' -> i <> (t + 1)%nat ->
  TransitionModel.beliefs s' !! i = TransitionModel.beliefs s !! i /\
  TransitionModel.prior_states s' !! i = TransitionModel.prior_states s !! i /\
  TransitionModel.prior_means s' !! i = TransitionModel.prior_means s !! i /\
  TransitionModel.prior_std_devs s' !! i = TransitionModel.prior_std_devs s !! i /\
  TransitionModel.posterior_states s' !! i = TransitionModel.posterior_states s !! i /\
  TransitionModel.posterior_means s' !! i = TransitionModel.posterior_means s !! i /\
  TransitionModel.posterior_std_devs s' !! i
    = TransitionModel.posterior_std_devs s !! i.
Proof.
  intros (st0 & st & a & b & b' & pm & psd & ps & g1 & _ & _ & _ & _ & _ & _ & _
          & _ & _ & _ & _ & -> & -> & -> & -> & Hpost) Hi.
  rewrite !list_lookup_insert_ne by lia. unfold posterior_step in Hpost.
  destruct observations.
  - destruct Hpost as (e & qm & qsd & qs & _ & _ & _ & _ & _ & _ & -> & -> & ->).
    by rewrite !list_lookup_insert_ne by lia.
  - destruct Hpost as (_ & -> & -> & ->). done.
Qed.

Lemma selected_lookup_ne t s g s' g' i :
  step self actions observations nonterminals t s g s' g' -> i <> (t + 1)%nat ->
  selected observations s' !! i = selected observations s !! i.
Proof.
  intros Hs Hi. destruct (step_lookup_ne _ _ _ _ _ i Hs Hi) as (_ & ? & _ & _ & ? & _).
  unfold selected. by destruct observations.
Qed.

Lemma computed_at_mono t s g s' g' i :
  step self actions observations nonterminals t s g s' g' -> (i < t)%nat ->
  computed s i -> computed s' i.
Proof.
  intros Hs Hi (st0 & st & a & b & b' & pm & psd & ps & g0 & g1 & H1 & H2 & H3 & H4
                & H5 & H6 & H7 & H8 & H9 & H10 & H11 & H12).
  destruct (step_lookup_ne _ _ _ _ _ i Hs ltac:(lia)) as (E1 & _).
  destruct (step_lookup_ne _ _ _ _ _ (i + 1)%nat Hs ltac:(lia))
    as (F1 & F2 & F3 & F4 & F5 & F6 & F7).
  exists st0, st, a, b, b', pm, psd, ps, g0, g1.
  rewrite (selected_lookup_ne _ _ _ _ _ i Hs ltac:(lia)), E1, F1, F2, F3, F4.
  repeat (split; [assumption|]).
  destruct observations; [|exact I].
  destruct H12 as (e & qm & qsd & qs & g2 & ? & ? & ? & ? & ? & ?).
  exists e, qm, qsd, qs, g2. rewrite F5, F6, F7. auto 10.
Qed.

Lemma step_computed_at t s g s' g' :
  step self actions observations nonterminals t s g s' g' -> computed s' t.
Proof.
  intros Hs. pose proof (selected_lookup_ne _ _ _ _ _ t Hs ltac:(lia)) as Hsel.
  destruct (step_lookup_ne _ _ _ _ _ t Hs ltac:(lia)) as (E1 & _).
  destruct Hs as (st0 & st & a & b & b' & pm & psd & ps & g1 & H1 & H2 & H3 & H4 & H5
                  & H6 & H7 & L1 & L2 & L3 & L4 & Eb & Eps & Epm & Epsd & Hpost).
  exists st0, st, a, b, b', pm, psd, ps, g, g1.
  rewrite Hsel, E1, Eb, Eps, Epm, Epsd, !list_lookup_insert_eq by assumption.
  repeat (split; [first [assumption | reflexivity]|]).
  unfold posterior_step in Hpost. destruct observations; [|exact I].
  destruct Hpost as (e & qm & qsd & qs & ? & ? & ? & ? & ? & ? & -> & -> & ->).
  exists e, qm, qsd, qs, g'. rewrite !list_lookup_insert_eq by assumption. auto 10.
Qed.

Lemma initial_slots_ok :
  exists s0,
    TransitionModel.initial_slots actions prev_state prev_belief = Ok s0 /\
    forall g, linv (size0 actions + 1)%nat 0%nat (s0, g).
Proof.
  unfold TransitionModel.initial_slots, pyset. cbn [TransitionModel.beliefs
    TransitionModel.prior_states TransitionModel.posterior_states
    TransitionModel.prior_means TransitionModel.prior_std_devs
    TransitionModel.posterior_means TransitionModel.posterior_std_devs].
  rewrite length_replicate.
  destruct (0 <? size0 actions + 1)%nat eqn:E; [|apply Nat.ltb_ge in E; lia].
  cbn [mbind result_bind]. eexists. split; [reflexivity|]. intros g.
  unfold loop_inv, slots_length. cbn.
  rewrite !length_insert, !length_replicate.
  split; [repeat split; reflexivity|].
  repeat (split; [apply list_lookup_insert_eq; rewrite length_replicate; lia|]).
  intros t Ht. lia.
Qed.

Lemma loop_inv_step n k st st' :
  linv n k st -> body k st = Ok st' -> linv n (S k) st'.
Proof.
  destruct st as [s g], st' as [s' g']. intros (HL & B0 & P0 & Q0 & Hc) Hb.
  apply forward_body_step in Hb. unfold loop_inv. cbn [fst].
  destruct (step_lookup_ne _ _ _ _ _ 0%nat Hb ltac:(lia)) as (-> & -> & _ & _ & -> & _).
  repeat (split; [first [assumption | by eapply step_slots_length]|]).
  intros t Ht. destruct (decide (t = k)) as [->|Hne].
  - by eapply step_computed_at.
  - eapply computed_at_mono; [exact Hb|lia|]. apply Hc. lia.
Qed.

Lemma forward_slots_inv g s g' :
  TransitionModel.forward_slots self actions observations nonterminals
                                prev_state prev_belief g = Ok (s, g') ->
  linv (size0 actions + 1)%nat (size0 actions) (s, g').
Proof.
  unfold TransitionModel.forward_slots. intros H.
  apply bind_ok in H as (s0 & Hs0 & H).
  destruct initial_slots_ok as (s0' & Hs0' & Hinv).
  rewrite Hs0 in Hs0'. injection Hs0' as <-.
  unfold range in H. replace (size0 actions + 1 - 1)%nat with (size0 actions) in H by lia.
  apply (for_range_inv body (linv (size0 actions + 1)%nat) _ 0%nat (s0, g) (s, g'));
    [|apply Hinv|exact H].
  intros t s1 s2 _. apply loop_inv_step.
Qed.

End Loop.

(** ** The outputs of [forward] and the slots: lemmas *)

Lemma stack_emitted l h : stack (drop 1 l) = Ok h -> emitted l h.
Proof.
  intros H. split.
  - by rewrite (stack_size0 _ _ H), length_drop.
  - intros t y Hy. apply (stack_getitem _ _ _ _ H). by rewrite lookup_drop.
Qed.

Lemma forward_hidden_ok observations s hidden :
  TransitionModel.forward_hidden observations s = Ok hidden ->
  emitted_fields observations s hidden.
Proof.
  unfold TransitionModel.forward_hidden. intros H.
  apply bind_ok in H as (h0 & H0 & H). apply bind_ok in H as (h1 & H1 & H).
  apply bind_ok in H as (h2 & H2 & H). apply bind_ok in H as (h3 & H3 & H).
  exists h0, h1, h2, h3. repeat (split; [by (apply stack_emitted || assumption)|]).
  destruct observations; [|by injection H as <-].
  apply bind_ok in H as (h4 & H4 & H). apply bind_ok in H as (h5 & H5 & H).
  apply bind_ok in H as (h6 & H6 & H). injection H as <-.
  exists h4, h5, h6. repeat (split; [by (apply stack_emitted || assumption)|]).
  reflexivity.
Qed.

Lemma forward_ok self prev_state actions prev_belief observations nonterminals g
    hidden g' :
  TransitionModel.forward self prev_state actions prev_belief observations
                          nonterminals g = Ok (hidden, g') ->
  exists s,
    TransitionModel.forward_slots self actions observations nonterminals
                                  prev_state prev_belief g = Ok (s, g') /\
    emitted_fields observations s hidden.
Proof.
  unfold TransitionModel.forward. intros H.
  apply bind_ok in H as ([s g1] & Hs & H). apply bind_ok in H as (h & Hh & H).
  injection H as <- <-. exists s. split; [assumption|]. by apply forward_hidden_ok.
Qed.

(** ** C1: a rollout over no actions *)

(** C1, as the code has it: with an empty action sequence (T = 1) the loop
    body never executes -- the lists keep their seeds and placeholders and
    no noise is drawn -- and [forward] then raises: [torch.stack] refuses
    the empty list of slots from 1 on. No sequence is returned, whatever the
    other inputs are. *)
Theorem rollout_without_actions
    self prev_state actions prev_belief observations nonterminals g :
  size0 actions = 0%nat ->
  TransitionModel.forward_slots self actions observations nonterminals
                                prev_state prev_belief g
  = Ok (TransitionModel.mkSlots [prev_belief] [prev_state] [empty0] [empty0]
                                [prev_state] [empty0] [empty0], g) /\
  TransitionModel.forward self prev_state actions prev_belief observations
                          nonterminals g
  = Raise RuntimeError.
Proof.
  intros HT.
  assert (Hs : TransitionModel.forward_slots self actions observations nonterminals
                 prev_state prev_belief g
               = Ok (TransitionModel.mkSlots [prev_belief] [prev_state] [empty0]
                       [empty0] [prev_state] [empty0] [empty0], g)).
  { unfold TransitionModel.forward_slots, TransitionModel.initial_slots.
    rewrite HT. reflexivity. }
  split; [exact Hs|].
  unfold TransitionModel.forward. rewrite Hs. reflexivity.
Qed.

Lemma rollout_without_actions_witness :
  size0 Example.no_actions = 0%nat /\
  TransitionModel.forward Example.rssm Example.state0 Example.no_actions
    Example.belief0 (Some Example.observations2) None Example.counting
  = Raise RuntimeError.
Proof.
  split; [reflexivity|].
  apply (rollout_without_actions Example.rssm Example.state0 Example.no_actions
           Example.belief0 (Some Example.observations2) None Example.counting).
  reflexivity.
Defined.

(** C1 as the specification states it fails: on an empty action sequence
    [forward] returns no empty sequences, it raises. *)
Lemma rollout_without_actions_raises :
  TransitionModel.forward Example.rssm Example.state0 Example.no_actions
    Example.belief0 None None Example.counting
  = Raise RuntimeError.
Proof. reflexivity. Qed.

(** ** C9: the length of the returned sequences *)

(** C9: when [forward] returns, it returns four sequences, or seven when
    observations are supplied, each of the length of the action sequence;
    entry [t] of each is slot [t + 1] of its list, so that the seed in slot 0
    is not among them. *)
Theorem rollout_output_length
    self prev_state actions prev_belief observations nonterminals g hidden g' :
  TransitionModel.forward self prev_state actions prev_belief observations
                          nonterminals g = Ok (hidden, g') ->
  Forall (fun h => size0 h = size0 actions) hidden /\
  length hidden = match observations with None => 4%nat | Some _ => 7%nat end /\
  exists s,
    TransitionModel.forward_slots self actions observations nonterminals
                                  prev_state prev_belief g = Ok (s, g') /\
    slots_length (size0 actions + 1) s /\
    emitted_fields observations s hidden.
Proof.
  intros H. apply forward_ok in H as (s & Hs & Hf).
  pose proof (forward_slots_inv _ _ _ _ _ _ _ _ _ Hs) as (HL & _).
  cbn [fst] in HL.
  assert (Hlen : forall l h, length l = (size0 actions + 1)%nat -> emitted l h ->
                             size0 h = size0 actions).
  { intros l h Hl [-> _]. lia. }
  destruct HL as (L1 & L2 & L3 & L4 & L5 & L6 & L7).
  pose proof Hf as (h0 & h1 & h2 & h3 & E0 & E1 & E2 & E3 & _ & Hh).
  destruct observations.
  - destruct Hh as (h4 & h5 & h6 & E4 & E5 & E6 & _ & ->).
    split; [repeat constructor; eauto|]. split; [reflexivity|].
    exists s. unfold slots_length. auto 10.
  - subst hidden. split; [repeat constructor; eauto|]. split; [reflexivity|].
    exists s. unfold slots_length. auto 10.
Qed.

Lemma rollout_output_length_witness :
  exists hidden g',
    TransitionModel.forward Example.rssm Example.state0 Example.actions2
      Example.belief0 (Some Example.observations2) (Some Example.nonterminals2)
      Example.counting = Ok (hidden, g') /\
    Forall (fun h => size0 h = 2%nat) hidden /\ length hidden = 7%nat.
Proof.
  assert (exists hidden g',
            TransitionModel.forward Example.rssm Example.state0 Example.actions2
              Example.belief0 (Some Example.observations2)
              (Some Example.nonterminals2) Example.counting = Ok (hidden, g'))
    as (hidden & g' & H) by (eexists; eexists; run_model; reflexivity).
  exists hidden, g'. split; [exact H|].
  destruct (rollout_output_length _ _ _ _ _ _ _ _ _ H) as (H1 & H2 & _).
  split; [exact H1 | exact H2].
Defined.

(** ** C2: which observation the posterior of a step is computed from *)

(** C2: with observations supplied, entry [t] of the returned posterior
    means and stddevs (slot [t + 1], written by loop iteration [t]) is
    computed from the concatenation of entry [t] of the returned beliefs
    -- the belief newly computed in that iteration, slot [t + 1] -- with the
    observation embedding at index [t]. *)
Theorem posterior_uses_new_belief
    self prev_state actions prev_belief obs nonterminals g hidden g' :
  TransitionModel.forward self prev_state actions prev_belief (Some obs)
                          nonterminals g = Ok (hidden, g') ->
  exists bel means stds,
    hidden !! 0%nat = Some bel /\ hidden !! 5%nat = Some means /\
    hidden !! 6%nat = Some stds /\
    forall t, (t < size0 actions)%nat ->
      exists b e qm qsd,
        getitem bel (Z.of_nat t) = Ok b /\
        getitem obs (Z.of_nat t) = Ok e /\
        posterior_params self b e = Ok (qm, qsd) /\
        getitem means (Z.of_nat t) = Ok qm /\
        getitem stds (Z.of_nat t) = Ok qsd.
Proof.
  intros H. apply forward_ok in H as (s & Hs & Hf).
  apply forward_slots_inv in Hs as (_ & _ & _ & _ & Hc). cbn [fst] in Hc.
  destruct Hf as (h0 & h1 & h2 & h3 & [_ E0] & _ & _ & _ & _
                  & h4 & h5 & h6 & _ & [_ E5] & [_ E6] & _ & ->).
  exists h0, h5, h6. repeat (split; [reflexivity|]).
  intros t Ht.
  destruct (Hc t Ht) as (st0 & st & a & b & b' & pm & psd & ps & g0 & g1 & _ & _ & _
                         & _ & _ & Hb' & _ & _ & _ & _ & _
                         & e & qm & qsd & qs & g2 & He & Hq & Hqm & Hqsd & _).
  exists b', e, qm, qsd. rewrite Nat.add_1_r in Hb', Hqm, Hqsd. auto 10.
Qed.

Lemma posterior_uses_new_belief_witness :
  exists hidden g' bel means stds b e qm qsd,
    TransitionModel.forward Example.rssm Example.state0 Example.actions2
      Example.belief0 (Some Example.observations2) None Example.counting
    = Ok (hidden, g') /\
    hidden !! 0%nat = Some bel /\ hidden !! 5%nat = Some means /\
    hidden !! 6%nat = Some stds /\
    getitem bel 1 = Ok b /\
    getitem Example.observations2 1 = Ok e /\
    posterior_params Example.rssm b e = Ok (qm, qsd) /\
    getitem means 1 = Ok qm /\ getitem stds 1 = Ok qsd.
Proof.
  assert (exists hidden g',
            TransitionModel.forward Example.rssm Example.state0 Example.actions2
              Example.belief0 (Some Example.observations2) None Example.counting
            = Ok (hidden, g'))
    as (hidden & g' & H) by (eexists; eexists; run_model; reflexivity).
  destruct (posterior_uses_new_belief _ _ _ _ _ _ _ _ _ H)
    as (bel & means & stds & H0 & H5 & H6 & Ht).
  destruct (Ht 1%nat) as (b & e & qm & qsd & ?); [cbn; lia|].
  exists hidden, g', bel, means, stds, b, e, qm, qsd. auto 10.
Defined.

(** ** C6: the nonterminal mask *)

Lemma expand_axis_length {A} n (l : list A) :
  length l = n \/ length l = 1%nat -> length (expand_axis n l) = n.
Proof.
  unfold expand_axis. destruct (length l =? n)%nat eqn:E.
  - by apply Nat.eqb_eq in E.
  - intros [H|H]; [apply Nat.eqb_neq in E; lia|].
    destruct l; [discriminate|]. by rewrite length_replicate.
Qed.

Lemma bcast_dim_some a b r :
  bcast_dim a b = Some r ->
  (a = r \/ a = 1%nat) /\ (b = r \/ b = 1%nat).
Proof.
  unfold bcast_dim. destruct (a =? b)%nat eqn:E1.
  - apply Nat.eqb_eq in E1. intros [= <-]. lia.
  - destruct (a =? 1)%nat eqn:E2.
    + apply Nat.eqb_eq in E2. intros [= <-]. lia.
    + destruct (b =? 1)%nat eqn:E3; [|discriminate].
      apply Nat.eqb_eq in E3. intros [= <-]. lia.
Qed.

(** A row of the expanded mask is a row of the mask. *)
Lemma expand_axis_lookup {A} n (l : list A) i x y :
  length l = n \/ length l = 1%nat ->
  expand_axis n l !! i = Some x -> l !! i = Some y -> x = y.
Proof.
  unfold expand_axis. destruct (length l =? n)%nat eqn:E; [intros; congruence|].
  intros [H|H]; [apply Nat.eqb_neq in E; lia|].
  destruct l as [|z [|? ?]]; try discriminate.
  intros [-> _]%lookup_replicate Hy. pose proof (lookup_lt_Some _ _ _ Hy) as Hi.
  destruct i; [cbn in Hy; congruence | cbn in Hi; lia].
Qed.

Lemma zip_with_zero_r (xs zs : list R) :
  Forall (fun v => v = 0) zs -> Forall (fun v => v = 0) (zip_with Rmult xs zs).
Proof.
  intros Hz. revert xs. induction Hz as [|z zs -> _ IH]; intros [|x xs]; cbn;
    constructor; [lra|apply IH].
Qed.

Lemma mul_zero_row st0 m st i r :
  mul st0 m = Ok st -> rows m !! i = Some [0] -> rows st !! i = Some r ->
  Forall (fun v => v = 0) r.
Proof.
  unfold mul, bcast2.
  destruct (bcast_dim (nrows st0) (nrows m)) as [n|] eqn:En; [|discriminate].
  destruct (bcast_dim (ncols st0) (ncols m)) as [c|] eqn:Ec; [|discriminate].
  intros [= <-] Hm Hr. cbn [rows] in Hr.
  apply lookup_zip_with_Some in Hr as (ra & rb & -> & Ha & Hb).
  apply bcast_dim_some in En as [_ En].
  assert (rb = [0]) as -> by (eapply expand_axis_lookup; eauto).
  apply zip_with_zero_r. unfold expand_axis. change (length [0]) with 1%nat.
  destruct (1 =? c)%nat; [by repeat constructor | by apply Forall_replicate].
Qed.

(** C6: at a step whose mask entry for a batch element is zero, the row of
    that batch element in the state handed to the belief update is zero in
    every component, whatever the previous state was; the previous belief
    enters the update as it stands in its slot. *)
Theorem terminal_mask_zeroes_state
    self prev_state actions prev_belief observations mask g hidden g' :
  TransitionModel.forward self prev_state actions prev_belief observations
                          (Some mask) g = Ok (hidden, g') ->
  exists s,
    TransitionModel.forward_slots self actions observations (Some mask)
                                  prev_state prev_belief g = Ok (s, g') /\
    forall t, (t < size0 actions)%nat ->
      exists st0 m st a b b',
        selected observations s !! t = Some st0 /\
        getitem mask (Z.of_nat t) = Ok m /\
        mul st0 m = Ok st /\
        getitem actions (Z.of_nat t) = Ok a /\
        TransitionModel.beliefs s !! t = Some b /\
        belief_update self st a b = Ok b' /\
        TransitionModel.beliefs s !! S t = Some b' /\
        forall i r, rows m !! i = Some [0] -> rows st !! i = Some r ->
                    Forall (fun v => v = 0) r.
Proof.
  intros H. apply forward_ok in H as (s & Hs & _). exists s. split; [exact Hs|].
  apply forward_slots_inv in Hs as (_ & _ & _ & _ & Hc). cbn [fst] in Hc.
  intros t Ht.
  destruct (Hc t Ht) as (st0 & st & a & b & b' & pm & psd & ps & g0 & g1 & Hsel & Hm
                         & Ha & Hb & Hu & Hb' & _).
  unfold masked in Hm. apply bind_ok in Hm as (m & Hm & Hmul).
  exists st0, m, st, a, b, b'. rewrite Nat.add_1_r in Hb'.
  repeat (split; [assumption|]). intros i r. exact (mul_zero_row st0 m st i r Hmul).
Qed.

Lemma terminal_mask_zeroes_state_witness :
  exists hidden g' s st0 st b b',
    TransitionModel.forward Example.rssm Example.state0 Example.actions2
      Example.belief0 None (Some Example.nonterminals2) Example.counting
    = Ok (hidden, g') /\
    selected None s !! 0%nat = Some st0 /\
    mul st0 (mk2 1 [[1]; [0]]) = Ok st /\
    TransitionModel.beliefs s !! 0%nat = Some b /\
    belief_update Example.rssm st (mk2 1 [[1]; [0]]) b = Ok b' /\
    TransitionModel.beliefs s !! 1%nat = Some b' /\
    forall r, rows st !! 1%nat = Some r -> Forall (fun v => v = 0) r.
Proof.
  assert (exists hidden g',
            TransitionModel.forward Example.rssm Example.state0 Example.actions2
              Example.belief0 None (Some Example.nonterminals2) Example.counting
            = Ok (hidden, g'))
    as (hidden & g' & H) by (eexists; eexists; run_model; reflexivity).
  destruct (terminal_mask_zeroes_state _ _ _ _ _ _ _ _ _ H) as (s & _ & Ht).
  destruct (Ht 0%nat) as (st0 & m & st & a & b & b' & H1 & H2 & H3 & H4 & H5 & H6
                          & H7 & H8); [cbn; lia|].
  injection H2 as <-. injection H4 as <-.
  exists hidden, g', s, st0, st, b, b'.
  repeat (split; [assumption|]). intros r. by apply H8.
Defined.

(** ** C10: the training flag *)

(** C10: [forward] returns the same distribution whatever its [training]
    flag is: the flag enters no computation. *)
Theorem training_flag_ignored (self : ActionModel.t) (belief state : Tensor2)
    (training1 training2 : bool) :
  ActionModel.forward self belief state training1
  = ActionModel.forward self belief state training2.
Proof.
  unfold ActionModel.forward. destruct training1, training2; reflexivity.
Qed.

(** ** Shapes *)

Lemma tmap_shaped f r c x : shaped r c x -> shaped r c (tmap f x).
Proof.
  intros (Hr & Hc & Hw). unfold shaped, nrows, wf2, tmap in *. cbn [rows ncols].
  rewrite length_map. repeat split; [assumption..|].
  rewrite Forall_forall in Hw |- *. intros y Hy.
  apply list_elem_of_In, in_map_iff in Hy as (y0 & <- & Hy0).
  rewrite length_map. by apply Hw, list_elem_of_In.
Qed.

Lemma expand_axis_same {A} n (l : list A) : length l = n -> expand_axis n l = l.
Proof. intros <-. unfold expand_axis. by rewrite Nat.eqb_refl. Qed.

Lemma bcast_dim_same n : bcast_dim n n = Some n.
Proof. unfold bcast_dim. by rewrite Nat.eqb_refl. Qed.

Lemma bcast2_shaped f r c a b :
  shaped r c a -> shaped r c b ->
  exists y, bcast2 f a b = Ok y /\ shaped r c y.
Proof.
  intros (Ha & Hca & Hwa) (Hb & Hcb & Hwb). unfold bcast2.
  rewrite Ha, Hb, Hca, Hcb, !bcast_dim_same. eexists. split; [reflexivity|].
  rewrite !expand_axis_same by assumption.
  unfold shaped, nrows, wf2 in *. cbn [rows ncols].
  rewrite length_zip_with, Ha, Hb. repeat split; [lia|].
  rewrite Forall_forall in Hwa, Hwb |- *. intros y Hy.
  apply list_elem_of_lookup in Hy as (i & Hy).
  apply lookup_zip_with_Some in Hy as (ra & rb & -> & Hra & Hrb).
  apply list_elem_of_lookup_2, Hwa in Hra. apply list_elem_of_lookup_2, Hwb in Hrb.
  rewrite !expand_axis_same by congruence. rewrite length_zip_with. lia.
Qed.

Lemma cat1_shaped r c1 c2 a b :
  shaped r c1 a -> shaped r c2 b ->
  exists y, cat1 a b = Ok y /\ shaped r (c1 + c2) y.
Proof.
  intros (Ha & Hca & Hwa) (Hb & Hcb & Hwb). unfold cat1.
  rewrite Ha, Hb, Nat.eqb_refl. eexists. split; [reflexivity|].
  unfold shaped, nrows, wf2 in *. cbn [rows ncols].
  rewrite length_zip_with, Ha, Hb, Hca, Hcb. repeat split; [lia|].
  rewrite Forall_forall in Hwa, Hwb |- *. intros y Hy.
  apply list_elem_of_lookup in Hy as (i & Hy).
  apply lookup_zip_with_Some in Hy as (ra & rb & -> & Hra & Hrb).
  apply list_elem_of_lookup_2, Hwa in Hra. apply list_elem_of_lookup_2, Hwb in Hrb.
  rewrite length_app. lia.
Qed.

Lemma linear_row_length i o l x : Linear_init i o l -> length (linear_row l x) = o.
Proof.
  intros (_ & Ho & _ & Hb). unfold linear_row, out_features, nrows in *.
  rewrite length_zip_with, length_map. lia.
Qed.

Lemma Linear_forward_shaped i o l r x :
  Linear_init i o l -> nrows x = r -> ncols x = i ->
  exists y, Linear_forward l x = Ok y /\ shaped r o y.
Proof.
  intros Hl Hr Hc. pose proof Hl as (Hi & Ho & _). unfold Linear_forward.
  rewrite Hc, Hi, Nat.eqb_refl. eexists. split; [reflexivity|].
  unfold shaped, nrows, wf2 in *. cbn [rows ncols]. rewrite length_map.
  repeat split; [assumption..|]. rewrite Forall_forall. intros y Hy.
  apply list_elem_of_In, in_map_iff in Hy as (y0 & <- & _).
  rewrite Ho. by eapply linear_row_length.
Qed.

Lemma gru_row_length hs gi gh h :
  length gi = (3 * hs)%nat -> length gh = (3 * hs)%nat -> length h = hs ->
  length (gru_row hs gi gh h) = hs.
Proof.
  intros Hi Hh Hl. unfold gru_row.
  repeat (rewrite length_zip_with || rewrite length_take || rewrite length_drop).
  lia.
Qed.

Lemma GRUCell_forward_shaped i h c r x hx :
  GRUCell_init i h c -> shaped r i x -> shaped r h hx ->
  exists y, GRUCell_forward c x hx = Ok y /\ shaped r h y.
Proof.
  intros (Hi & Hh & Lih & Lhh) (Hxr & Hxc & _) (Hhr & Hhc & Hhw). unfold GRUCell_forward.
  rewrite Hxc, Hi, Hhc, Hh, Hxr, Hhr, !Nat.eqb_refl. cbn [negb].
  destruct (Linear_forward_shaped _ _ _ r x Lih Hxr Hxc) as (gi & -> & Gr & Gc & Gw).
  destruct (Linear_forward_shaped _ _ _ r hx Lhh Hhr Hhc) as (gh & -> & Kr & Kc & Kw).
  cbn [mbind result_bind]. eexists. split; [reflexivity|].
  unfold shaped, nrows, wf2 in *. cbn [rows ncols].
  rewrite !length_zip_with. repeat split; [lia|].
  rewrite Forall_forall in Gw, Kw, Hhw |- *. intros y Hy.
  apply list_elem_of_lookup in Hy as (k & Hy).
  apply lookup_zip_with_Some in Hy as ([a b] & h0 & -> & Hab & Hh0).
  apply lookup_zip_with_Some in Hab as (a' & b' & [= <- <-] & Ha & Hb).
  apply list_elem_of_lookup_2 in Ha, Hb, Hh0. cbn [fst snd].
  apply gru_row_length; [rewrite (Gw _ Ha) | rewrite (Kw _ Hb) | rewrite (Hhw _ Hh0)];
    congruence.
Qed.

Lemma chunk2_shaped r k x :
  shaped r (2 * k) x ->
  exists m raw, chunk2 x = Ok (m, raw) /\ shaped r k m /\ shaped r k raw.
Proof.
  intros (Hr & Hc & Hw). unfold chunk2. rewrite Hc.
  destruct (2 * k =? 1)%nat eqn:E; [apply Nat.eqb_eq in E; lia|].
  replace ((2 * k + 1) / 2)%nat with k
    by (apply (Nat.div_unique _ 2 k 1); lia).
  eexists. eexists. split; [reflexivity|].
  unfold shaped, nrows, wf2 in *. cbn [rows ncols]. rewrite !length_map.
  rewrite Forall_forall in Hw.
  split; (split; [assumption|]; split; [lia|]); rewrite Forall_forall; intros y Hy;
    apply list_elem_of_In, in_map_iff in Hy as (y0 & <- & Hy0);
    apply list_elem_of_In, Hw in Hy0;
    [rewrite length_take | rewrite length_drop]; lia.
Qed.

Lemma randn_like_shaped r c x g :
  nrows x = r -> ncols x = c -> shaped r c (fst (randn_like x g)).
Proof.
  intros Hr Hc. unfold randn_like, shaped, nrows, wf2 in *. cbn [fst rows ncols].
  rewrite length_map, length_seq. repeat split; [assumption..|].
  rewrite Forall_forall. intros y Hy.
  apply list_elem_of_In, in_map_iff in Hy as (i & <- & _).
  by rewrite length_map, length_seq.
Qed.

Lemma gaussian_params_shaped self state_size hidden_size i embed out r x :
  Linear_init i hidden_size embed -> Linear_init hidden_size (2 * state_size) out ->
  nrows x = r -> ncols x = i ->
  exists m sd, gaussian_params self embed out x = Ok (m, sd) /\
               shaped r state_size m /\ shaped r state_size sd.
Proof.
  intros Le Lo Hr Hc. unfold gaussian_params.
  destruct (Linear_forward_shaped _ _ _ r x Le Hr Hc) as (h & -> & Hh).
  cbn [mbind result_bind].
  apply (tmap_shaped (TransitionModel.act_fn self)) in Hh as (Tr & Tc & _).
  destruct (Linear_forward_shaped _ _ _ r _ Lo Tr Tc) as (o & -> & Ho).
  cbn [mbind result_bind].
  destruct (chunk2_shaped _ _ _ Ho) as (m & raw & -> & Hm & Hraw).
  cbn [mbind result_bind]. exists m. eexists. split; [reflexivity|].
  split; [assumption|]. unfold add_scalar. by do 2 apply tmap_shaped.
Qed.

Lemma reparameterize_shaped r c m sd g :
  shaped r c m -> shaped r c sd ->
  exists x g1, reparameterize m sd g = Ok (x, g1) /\ shaped r c x.
Proof.
  intros Hm Hsd. unfold reparameterize.
  pose proof (randn_like_shaped r c m g (proj1 Hm) (proj1 (proj2 Hm))) as He.
  destruct (randn_like m g) as [eps g1]. cbn [fst] in He.
  destruct (bcast2_shaped Rmult _ _ _ _ Hsd He) as (p & Hp & Hps).
  unfold mul. rewrite Hp. cbn [mbind result_bind].
  destruct (bcast2_shaped Rplus _ _ _ _ Hm Hps) as (x & Hx & Hxs).
  unfold add. rewrite Hx. cbn [mbind result_bind]. eauto.
Qed.

(** ** C5: a mask of ones *)






Lemma cat1_nrows a b x : cat1 a b = Ok x -> nrows x = nrows a.
Proof.
  unfold cat1. destruct (nrows a =? nrows b)%nat eqn:E; [|discriminate].
  apply Nat.eqb_eq in E. intros [= <-]. unfold nrows in *. cbn [rows].
  rewrite length_zip_with. lia.
Qed.

Lemma Linear_forward_nrows l x y : Linear_forward l x = Ok y -> nrows y = nrows x.
Proof.
  unfold Linear_forward. destruct (_ =? _)%nat; [|discriminate].
  intros [= <-]. unfold nrows. cbn [rows]. by rewrite length_map.
Qed.


Lemma tmap_nrows f x : nrows (tmap f x) = nrows x.
Proof. unfold nrows, tmap. cbn [rows]. by rewrite length_map. Qed.





Section OnesLoop.

Variable self : TransitionModel.t.
Variables belief_size state_size action_size hidden_size embedding_size : nat.
Hypothesis Hinit :
  TransitionModel.__init__ belief_size state_size action_size hidden_size
                           embedding_size self.
Variable actions : Tensor3.
Variable observations : option Tensor3.
Variable b : nat.


End OnesLoop.

Lemma for_range_ext {St} (body1 body2 : nat -> St -> result St)
    (P : nat -> St -> Prop) :
  forall n a s,
    (forall t s1, (a <= t < a + n)%nat -> P t s1 -> body1 t s1 = body2 t s1) ->
    (forall t s1 s2, (a <= t < a + n)%nat -> P t s1 -> body2 t s1 = Ok s2 -> P (S t) s2) ->
    P a s -> for_range body1 (seq a n) s = for_range body2 (seq a n) s.
Proof.
  induction n as [|n IH]; intros a s Heq Hstep Ha; cbn; [reflexivity|].
  rewrite (Heq a s) by (lia || assumption).
  destruct (body2 a s) as [s1|e] eqn:E; cbn; [|reflexivity].
  apply IH.
  - intros t s2 Ht. apply Heq. lia.
  - intros t s2 s3 Ht. apply Hstep. lia.
  - apply (Hstep a s s1); [lia|assumption..].
Qed.




(** ** [ActionModel.forward], taken apart *)

Lemma softplus_pos x : 0 < F.softplus x.
Proof.
  unfold F.softplus. rewrite <- ln_1. apply ln_increasing; [lra|].
  pose proof (exp_pos x). lra.
Qed.

(** The bias inverts the softplus: softplus(log(exp(s) - 1)) = s. *)
Lemma softplus_inverse_bias s : 0 < s -> F.softplus (ln (exp s - 1)) = s.
Proof.
  intros Hs. unfold F.softplus.
  assert (0 < exp s - 1).
  { pose proof (exp_increasing 0 s Hs) as H. rewrite exp_0 in H. lra. }
  rewrite exp_ln by assumption.
  replace (1 + (exp s - 1)) with (exp s) by lra. apply ln_exp.
Qed.

Lemma tmap_ext f h x : (forall v, f v = h v) -> tmap f x = tmap h x.
Proof.
  intros E. unfold tmap. f_equal. apply map_ext. intros r. by apply map_ext.
Qed.

(** The three values of the bias [np.log(np.exp(init_std) - 1)]. *)
Lemma raw_init_std_cases s :
  (0 < s /\ np.log (exp s - 1) = np.Real (ln (exp s - 1))) \/
  (s = 0 /\ np.log (exp s - 1) = np.NegInf) \/
  (s < 0 /\ np.log (exp s - 1) = np.NaN).
Proof.
  unfold np.log. destruct (Rtotal_order s 0) as [H|[H|H]].
  - right. right. split; [assumption|].
    apply exp_increasing in H. rewrite exp_0 in H.
    destruct (Rlt_dec 0 (exp s - 1)); [lra|].
    destruct (Req_dec_T (exp s - 1) 0); [lra | reflexivity].
  - right. left. split; [assumption|]. subst s. rewrite exp_0.
    destruct (Rlt_dec 0 (1 - 1)); [lra|].
    destruct (Req_dec_T (1 - 1) 0); [reflexivity | lra].
  - left. split; [lra|].
    apply exp_increasing in H. rewrite exp_0 in H.
    destruct (Rlt_dec 0 (exp s - 1)); [reflexivity | lra].
Qed.

Lemma policy_scale_positive self s :
  0 < ActionModel.init_std self ->
  policy_scale self s = Some (policy_std self s).
Proof.
  intros Hs. unfold policy_scale, policy_std.
  destruct (raw_init_std_cases (ActionModel.init_std self))
    as [[_ ->]|[[E _]|[E _]]]; [reflexivity|lra..].
Qed.

(** The network in front of the distribution, and the distribution. *)
Lemma forward_from_raw self belief state training :
  ActionModel.forward self belief state training
  = (p ← raw_params self belief state;
     base ← Normal_init
              (pointwise (scaled_tanh (ActionModel.mean_scale self)) (fst p))
              (pointwise (policy_scale self) (snd p));
     dist ← Independent_init (TransformedDistribution base [TanhTransform]) 1;
     SampleDist.__init__ dist 100).
Proof.
  unfold ActionModel.forward, raw_params.
  destruct (cat1 belief state) as [x|]; cbn [mbind result_bind]; [|reflexivity].
  destruct (Linear_forward (ActionModel.fc1 self) x) as [h1|];
    cbn [mbind result_bind]; [|reflexivity].
  destruct (Linear_forward (ActionModel.fc2 self) _) as [h2|];
    cbn [mbind result_bind]; [|reflexivity].
  destruct (Linear_forward (ActionModel.fc3 self) _) as [h3|];
    cbn [mbind result_bind]; [|reflexivity].
  destruct (Linear_forward (ActionModel.fc4 self) _) as [h4|];
    cbn [mbind result_bind]; [|reflexivity].
  destruct (Linear_forward (ActionModel.fc5 self) _) as [o|];
    cbn [mbind result_bind]; [|reflexivity].
  destruct (chunk2 o) as [[m s]|]; reflexivity.
Qed.

(** The two halves of the output of a model as [__init__] builds it. *)
Lemma raw_params_halves self a b s h belief state rm rs :
  ActionModel.__init__ a b s h self ->
  raw_params self belief state = Ok (rm, rs) ->
  nrows rm = nrows rs /\ ncols rm = a /\ ncols rs = a.
Proof.
  intros (_ & _ & _ & _ & (_ & Ho & _)) H. unfold raw_params in H.
  apply bind_ok in H as (x & _ & H). apply bind_ok in H as (h1 & _ & H).
  apply bind_ok in H as (h2 & _ & H). apply bind_ok in H as (h3 & _ & H).
  apply bind_ok in H as (h4 & _ & H). apply bind_ok in H as (o & E5 & H).
  unfold Linear_forward in E5. destruct (_ =? _)%nat; [|discriminate].
  injection E5 as <-. unfold chunk2 in H. cbn [ncols rows] in H. rewrite Ho in H.
  destruct (2 * a =? 1)%nat; [discriminate|].
  replace ((2 * a + 1) / 2)%nat with a in H
    by (apply (Nat.div_unique _ 2 a 1); lia).
  injection H as <- <-. unfold nrows. cbn [rows ncols]. rewrite !length_map.
  repeat split; lia.
Qed.

(** ** [Normal] and its validation *)

Lemma expand_to_same x : expand_to (nan_nrows x) (nan_ncols x) x = x.
Proof. unfold expand_to. by rewrite !Nat.eqb_refl. Qed.

Lemma Normal_init_same loc scale :
  nan_nrows loc = nan_nrows scale -> nan_ncols loc = nan_ncols scale ->
  Normal_init loc scale
  = if (forallb (forallb is_number) (nan_rows loc)
        && forallb (forallb is_positive) (nan_rows scale))%bool
    then Ok (Normal (reals loc) (reals scale))
    else Raise ValueError.
Proof.
  intros Hr Hc. unfold Normal_init, broadcast_all. rewrite <- Hr, <- Hc.
  rewrite !bcast_dim_same, expand_to_same. cbn [mbind result_bind].
  rewrite Hr, Hc, expand_to_same. reflexivity.
Qed.

Lemma reals_pointwise f x : reals (pointwise f x) = tmap (fun v => default 0 (f v)) x.
Proof.
  unfold reals, pointwise, tmap. cbn [nan_ncols nan_rows]. f_equal.
  rewrite map_map. apply map_ext. intros r. by rewrite map_map.
Qed.

Lemma is_positive_number v : is_positive v = true -> is_number v = true.
Proof. by destruct v. Qed.

Lemma is_positive_spec v : is_positive v = true <-> exists r, v = Some r /\ 0 < r.
Proof.
  destruct v as [r|]; cbn.
  - destruct (Rlt_dec 0 r); split; try eauto; try discriminate.
    intros (r0 & [= <-] & ?). lra.
  - split; [discriminate|]. by intros (? & [=] & _).
Qed.

Lemma numbers_reals_pointwise f x :
  forallb (forallb is_number) (map (map f) (rows x)) = true ->
  numbers (reals (pointwise f x)) = pointwise f x.
Proof.
  intros H. unfold numbers, reals, pointwise. cbn [ncols rows nan_ncols nan_rows].
  f_equal. rewrite !map_map. apply map_ext_in. intros r Hr. rewrite !map_map.
  apply map_ext_in. intros v Hv.
  rewrite forallb_forall in H.
  specialize (H (map f r) (in_map _ _ _ Hr)). rewrite forallb_forall in H.
  specialize (H (f v) (in_map _ _ _ Hv)). by destruct (f v).
Qed.

Lemma forallb_all_positive f x :
  forallb (forallb is_positive) (map (map f) (rows x)) = true ->
  forallb (forallb is_number) (map (map f) (rows x)) = true.
Proof.
  rewrite !forallb_forall. intros H r Hr. specialize (H r Hr).
  rewrite forallb_forall in H |- *. intros v Hv. by apply is_positive_number, H.
Qed.

(** What [forward] returns, when it returns, and when it does. *)
Lemma ActionModel_forward_ok self a b s h belief state training sd :
  ActionModel.__init__ a b s h self ->
  ActionModel.forward self belief state training = Ok sd ->
  exists rm rs,
    raw_params self belief state = Ok (rm, rs) /\
    forallb (forallb is_number)
            (map (map (scaled_tanh (ActionModel.mean_scale self))) (rows rm)) = true /\
    forallb (forallb is_positive) (map (map (policy_scale self)) (rows rs)) = true /\
    sd = SampleDist.mk
           (squashed (reals (pointwise (scaled_tanh (ActionModel.mean_scale self)) rm))
                     (reals (pointwise (policy_scale self) rs))) 100.
Proof.
  intros Hi H. rewrite forward_from_raw in H.
  apply bind_ok in H as ([rm rs] & Hraw & H). cbn [fst snd] in H.
  destruct (raw_params_halves _ _ _ _ _ _ _ _ _ Hi Hraw) as (Hr & Hc1 & Hc2).
  rewrite Normal_init_same in H.
  2: { unfold nan_nrows, pointwise. cbn [nan_rows]. rewrite !length_map. exact Hr. }
  2: { unfold pointwise. cbn [nan_ncols]. lia. }
  cbn [pointwise nan_rows] in H.
  destruct (forallb _ _ && forallb _ _)%bool eqn:V; [|discriminate].
  apply andb_prop in V as [V1 V2]. cbn [mbind result_bind] in H.
  unfold Independent_init, SampleDist.__init__ in H. cbn in H. injection H as <-.
  exists rm, rs. auto.
Qed.

Lemma ActionModel_forward_returns self a b s h belief state training rm rs :
  ActionModel.__init__ a b s h self ->
  raw_params self belief state = Ok (rm, rs) ->
  forallb (forallb is_number)
          (map (map (scaled_tanh (ActionModel.mean_scale self))) (rows rm)) = true ->
  forallb (forallb is_positive) (map (map (policy_scale self)) (rows rs)) = true ->
  ActionModel.forward self belief state training
  = Ok (SampleDist.mk
          (squashed (reals (pointwise (scaled_tanh (ActionModel.mean_scale self)) rm))
                    (reals (pointwise (policy_scale self) rs))) 100).
Proof.
  intros Hi Hraw V1 V2. rewrite forward_from_raw, Hraw. cbn [mbind result_bind fst snd].
  destruct (raw_params_halves _ _ _ _ _ _ _ _ _ Hi Hraw) as (Hr & Hc1 & Hc2).
  rewrite Normal_init_same.
  2: { unfold nan_nrows, pointwise. cbn [nan_rows]. rewrite !length_map. exact Hr. }
  2: { unfold pointwise. cbn [nan_ncols]. lia. }
  cbn [pointwise nan_rows]. rewrite V1, V2. reflexivity.
Qed.

(** With a non-zero mean_scale and positive init_std and min_std, the
    parameters are numbers and the scale is positive. *)
Lemma scaled_tanh_number c x : c <> 0 -> scaled_tanh c x = Some (c * tanh (x / c)).
Proof. intros Hc. unfold scaled_tanh. by destruct (Req_dec_T c 0). Qed.

Lemma valid_location c (x : Tensor2) :
  c <> 0 -> forallb (forallb is_number) (map (map (scaled_tanh c)) (rows x)) = true.
Proof.
  intros Hc. apply forallb_forall. intros r Hr.
  apply in_map_iff in Hr as (r0 & <- & _). apply forallb_forall. intros v Hv.
  apply in_map_iff in Hv as (v0 & <- & _). by rewrite scaled_tanh_number.
Qed.

Lemma valid_scale self (x : Tensor2) :
  0 < ActionModel.init_std self -> 0 < ActionModel.min_std self ->
  forallb (forallb is_positive) (map (map (policy_scale self)) (rows x)) = true.
Proof.
  intros Hs Hm. apply forallb_forall. intros r Hr.
  apply in_map_iff in Hr as (r0 & <- & _). apply forallb_forall. intros v Hv.
  apply in_map_iff in Hv as (v0 & <- & _). rewrite policy_scale_positive by assumption.
  apply is_positive_spec. eexists. split; [reflexivity|]. unfold policy_std.
  pose proof (softplus_pos (v0 + ln (exp (ActionModel.init_std self) - 1))). lra.
Qed.

Lemma policy_init : ActionModel.__init__ 1 1 1 1 Example.policy.
Proof.
  unfold ActionModel.__init__, Linear_init, in_features, out_features, nrows, wf2.
  cbn. repeat split; repeat constructor.
Qed.

(** ** C7: the stddev of the action distribution *)

(** C7: in a model as [__init__] builds it, the scale of the Normal at the
    base of the action distribution is, entry by entry,
    softplus(raw_scale + log(exp(init_std) - 1)) + min_std, where raw_scale
    is the second half of the output of the last layer and the logarithm is
    NumPy's, which is -inf at zero and nan below; for a positive init_std
    this is the formula on the real numbers; and an entry whose raw scale
    is zero has the stddev init_std + min_std. *)
Theorem policy_stddev_formula self action_size belief_size state_size hidden_size
    belief state training sd :
  ActionModel.__init__ action_size belief_size state_size hidden_size self ->
  ActionModel.forward self belief state training = Ok sd ->
  exists raw_mean raw_scale mean std,
    raw_params self belief state = Ok (raw_mean, raw_scale) /\
    SampleDist._dist sd
    = Independent (TransformedDistribution (Normal mean std) [TanhTransform]) 1 /\
    numbers std
    = pointwise (fun s => add_nan (softplus_float
                                     (add_float s (np.log (exp (ActionModel.init_std self) - 1))))
                                  (ActionModel.min_std self)) raw_scale /\
    (0 < ActionModel.init_std self ->
     std = tmap (fun s => F.softplus (s + ln (exp (ActionModel.init_std self) - 1))
                          + ActionModel.min_std self) raw_scale) /\
    (forall i rr j,
       rows raw_scale !! i = Some rr -> rr !! j = Some 0 ->
       exists sr, rows std !! i = Some sr /\
                  sr !! j = Some (ActionModel.init_std self + ActionModel.min_std self)).
Proof.
  intros Hi H.
  apply (ActionModel_forward_ok _ _ _ _ _ _ _ _ _ Hi) in H
    as (rm & rs & Hraw & V1 & V2 & ->).
  exists rm, rs. eexists. eexists. split; [exact Hraw|]. split; [reflexivity|].
  split; [|split].
  - apply (numbers_reals_pointwise (policy_scale self)).
    by apply forallb_all_positive.
  - intros Hs. rewrite reals_pointwise. apply tmap_ext. intros v.
    by rewrite policy_scale_positive.
  - intros i rr j Hrr Hj. rewrite reals_pointwise. unfold tmap. cbn [rows].
    eexists. rewrite list_lookup_fmap, Hrr. split; [reflexivity|].
    rewrite list_lookup_fmap, Hj. cbn [fmap option_fmap option_map]. f_equal.
    rewrite forallb_forall in V2.
    assert (Hin : In (map (policy_scale self) rr) (map (map (policy_scale self)) (rows rs))).
    { apply in_map. by eapply list_elem_of_In, list_elem_of_lookup_2. }
    specialize (V2 _ Hin). rewrite forallb_forall in V2.
    assert (Hv : is_positive (policy_scale self 0) = true).
    { apply V2, in_map. by eapply list_elem_of_In, list_elem_of_lookup_2. }
    unfold policy_scale in Hv |- *.
    destruct (raw_init_std_cases (ActionModel.init_std self))
      as [[Hs E]|[[Hs E]|[Hs E]]]; rewrite E in Hv |- *; cbn in Hv |- *.
    + by rewrite Rplus_0_l, softplus_inverse_bias.
    + by rewrite Hs.
    + discriminate.
Qed.

Lemma policy_stddev_formula_witness :
  exists sd mean std,
    ActionModel.__init__ 1 1 1 1 Example.policy /\
    ActionModel.forward Example.policy Example.belief0 Example.state0 true = Ok sd /\
    SampleDist._dist sd
    = Independent (TransformedDistribution (Normal mean std) [TanhTransform]) 1 /\
    rows std = [[5 + 1 / 10000]; [5 + 1 / 10000]].
Proof.
  assert (exists rm rs, raw_params Example.policy Example.belief0 Example.state0
                        = Ok (rm, rs))
    as (rm & rs & Hraw) by (eexists; eexists; run_model; reflexivity).
  pose proof (ActionModel_forward_returns _ _ _ _ _ _ _ true _ _ policy_init Hraw
                (valid_location 5 rm ltac:(lra))
                (valid_scale Example.policy rs ltac:(cbn; lra) ltac:(cbn; lra))) as HA.
  destruct (policy_stddev_formula _ _ _ _ _ _ _ _ _ policy_init HA)
    as (rm' & rs' & mean & std & Hraw' & Hd & _ & _ & Hz).
  eexists. exists mean, std. split; [exact policy_init|]. split; [exact HA|].
  split; [exact Hd|].
  rewrite Hraw in Hraw'. injection Hraw' as <- <-.
  cbn [SampleDist._dist] in Hd. injection Hd as _ Hstd.
  revert Hraw. run_model. intros [= <- <-].
  destruct (Hz 0%nat _ 0%nat eq_refl) as (r0 & Hr0 & Hv0); [cbn; f_equal; lra|].
  destruct (Hz 1%nat _ 0%nat eq_refl) as (r1 & Hr1 & Hv1); [cbn; f_equal; lra|].
  rewrite <- Hstd in Hr0, Hr1 |- *. revert Hr0 Hr1 Hv0 Hv1.
  rewrite reals_pointwise. unfold tmap. cbn [rows map].
  intros [= <-] [= <-] [= E0] [= E1]. by rewrite E0, E1.
Defined.

(** ** Bounds of tanh and of the sigmoid *)

Lemma tanh_bounds x : -1 < tanh x < 1.
Proof.
  unfold tanh, sinh, cosh.
  pose proof (exp_pos x) as Ha. pose proof (exp_pos (- x)) as Hb.
  set (a := exp x) in *. set (b := exp (- x)) in *.
  replace ((a - b) / 2 / ((a + b) / 2)) with ((a - b) * / (a + b)) by (field; lra).
  assert (Hs : 0 < / (a + b)) by (apply Rinv_0_lt_compat; lra).
  assert (H1 : (a + b) * / (a + b) = 1) by (apply Rinv_r; lra).
  pose proof (Rmult_lt_0_compat _ _ Ha Hs). pose proof (Rmult_lt_0_compat _ _ Hb Hs).
  split; lra.
Qed.

Lemma tmap_all_within lo hi f x :
  (forall v, lo < f v < hi) -> all_within lo hi (tmap f x).
Proof.
  intros Hf. unfold all_within, tmap. cbn [rows].
  apply Forall_forall. intros r Hr.
  apply list_elem_of_In, in_map_iff in Hr as (r0 & <- & _).
  apply Forall_forall. intros v Hv.
  by apply list_elem_of_In, in_map_iff in Hv as (v0 & <- & _).
Qed.

Lemma sigmoid_bounds x : 0 < sigmoid x < 1.
Proof.
  unfold sigmoid. pose proof (exp_pos (- x)) as He.
  assert (Hi : 0 < / (1 + exp (- x))) by (apply Rinv_0_lt_compat; lra).
  assert (H1 : (1 + exp (- x)) * / (1 + exp (- x)) = 1) by (apply Rinv_r; lra).
  pose proof (Rmult_lt_0_compat _ _ He Hi). unfold Rdiv. split; lra.
Qed.

Lemma all_within_in lo hi x : all_within lo hi x -> all_in lo hi x.
Proof.
  unfold all_within, all_in. intros H.
  eapply Forall_impl; [exact H|]. intros r Hr.
  eapply Forall_impl; [exact Hr|]. cbn. intros v ?. lra.
Qed.

(** ** [argmax] *)

Lemma argmax_from_lt l : forall i bi best,
  (bi < i)%nat -> (argmax_from l i bi best < i + length l)%nat.
Proof.
  induction l as [|x l IH]; intros i bi best Hb; cbn [argmax_from length]; [lia|].
  destruct (replaces x best).
  - pose proof (IH (S i) i x ltac:(lia)). lia.
  - pose proof (IH (S i) bi best ltac:(lia)). lia.
Qed.

Lemma argmax_list_lt l : l <> [] -> (argmax_list l < length l)%nat.
Proof.
  destruct l as [|x l]; [done|]. intros _. unfold argmax_list.
  pose proof (argmax_from_lt l 1 0 x ltac:(lia)). cbn [length]. lia.
Qed.

Lemma column_length j x : length (column j x) = nan_nrows x.
Proof. unfold column. by rewrite length_map. Qed.

(** ** [SampleDist.mode], taken apart *)

Lemma expand_axis_singleton {A} n (i : A) : expand_axis n [i] = replicate n i.
Proof.
  unfold expand_axis. change (length [i]) with 1%nat.
  destruct (1 =? n)%nat eqn:E; [|reflexivity]. by apply Nat.eqb_eq in E as <-.
Qed.

Lemma imap_replicate_entry (x : Tensor3) j i n :
  imap (fun k i0 => entry3 x i0 j k) (replicate n i)
  = map (fun k => entry3 x i j k) (seq 0 n).
Proof.
  apply list_eq. intros k. rewrite list_lookup_imap, list_lookup_fmap.
  destruct (decide (k < n)%nat) as [Hk|Hk].
  - rewrite lookup_replicate_2, lookup_seq_lt by assumption. reflexivity.
  - rewrite (proj1 (lookup_replicate_None n i k)), lookup_seq_ge by lia. reflexivity.
Qed.

Lemma gathered_row_wf x j i plane row :
  wf3 x -> planes x !! i = Some plane -> plane !! j = Some row ->
  gathered_row x j i = row.
Proof.
  intros Hw Hp Hr. unfold wf3 in Hw. rewrite Forall_forall in Hw.
  destruct (Hw plane) as [_ Hrows]; [by eapply list_elem_of_lookup_2|].
  rewrite Forall_forall in Hrows.
  pose proof (Hrows row (list_elem_of_lookup_2 _ _ _ Hr)) as Hlen.
  unfold gathered_row, entry3. rewrite <- Hlen.
  rewrite (nth_lookup_Some _ _ _ _ Hp), (nth_lookup_Some _ _ _ _ Hr).
  apply list_eq. intros k. rewrite list_lookup_fmap.
  destruct (decide (k < length row)%nat) as [Hk|Hk].
  - rewrite lookup_seq_lt by assumption. cbn.
    destruct (lookup_lt_is_Some_2 row k Hk) as [v Hv].
    by rewrite Hv, (nth_lookup_Some _ _ _ _ Hv).
  - rewrite lookup_seq_ge, lookup_ge_None_2 by lia. reflexivity.
Qed.

(** The steps of [mode] after [argmax]. *)
Lemma gather_steps {A} sample am (k : Tensor2 -> result A) :
  (i1 ← reshape_1_b_1 am (size1 sample);
   indices ← expand_1_b_f i1 (size1 sample) (size2 sample);
   out ← gather0 sample indices;
   r ← squeeze0 out;
   k r)
  = if (length am =? size1 sample)%nat
    then if forallb (forallb (forallb (fun i => (i <? size0 sample)%nat)))
                    (gather_index sample am)
         then k (mk2 (size2 sample) (imap (fun j i => gathered_row sample j i) am))
         else Raise RuntimeError
    else Raise RuntimeError.
Proof.
  unfold reshape_1_b_1. destruct (length am =? size1 sample)%nat; [|reflexivity].
  cbn [mbind result_bind]. unfold expand_1_b_f. cbn [lplanes lsize1 lsize2 length].
  rewrite !Nat.eqb_refl, orb_true_r. cbn [andb mbind result_bind].
  unfold gather0. cbn [lplanes lsize1 lsize2]. rewrite !Nat.leb_refl.
  cbn [andb map]. fold (gather_index sample am).
  destruct (forallb _ (gather_index sample am)); [|reflexivity].
  cbn [mbind result_bind]. unfold squeeze0. cbn [planes size2 mbind result_bind].
  f_equal. f_equal.
  rewrite !imap_fmap. apply imap_ext. intros j i _. cbn.
  rewrite expand_axis_singleton. apply imap_replicate_entry.
Qed.

Lemma gather_index_in_range sample am :
  Forall (fun i => (i < size0 sample)%nat) am ->
  forallb (forallb (forallb (fun i => (i <? size0 sample)%nat)))
          (gather_index sample am) = true.
Proof.
  intros H. unfold gather_index. cbn [forallb]. rewrite andb_true_r.
  apply forallb_forall. intros r Hr.
  apply in_map_iff in Hr as (r1 & <- & Hr1).
  apply in_map_iff in Hr1 as (i & <- & Hi).
  rewrite expand_axis_singleton. apply forallb_forall. intros i' Hi'.
  apply list_elem_of_In, elem_of_replicate in Hi' as [-> _].
  apply Nat.ltb_lt. rewrite Forall_forall in H. by apply H, list_elem_of_In.
Qed.

Lemma argmax_in_range (lp : NanTensor2) n :
  (0 < nan_nrows lp)%nat -> (nan_nrows lp <= n)%nat ->
  Forall (fun i => (i < n)%nat)
         (map (fun j => argmax_list (column j lp)) (seq 0 (nan_ncols lp))).
Proof.
  intros Hp Hn. apply Forall_forall. intros i Hi.
  apply list_elem_of_In, in_map_iff in Hi as (j & <- & _).
  pose proof (argmax_list_lt (column j lp)) as H. rewrite column_length in H.
  assert (column j lp <> []).
  { intros E. apply (f_equal length) in E. rewrite column_length in E. cbn in E. lia. }
  specialize (H ltac:(assumption)). lia.
Qed.

Section Mode.

Context {D E : Type} `{!Distribution D E}.

(** [mode] returns when the wrapped distribution does and the densities
    have the shape (samples, batch). *)
Lemma mode_unfold (self : SampleDist.t D) g dist sample g' logprob :
  expand (SampleDist._samples self) (SampleDist._dist self) = Ok dist ->
  rsample dist g = Ok (sample, g') ->
  log_prob dist sample = Ok logprob ->
  nan_nrows (lp_values logprob) = size0 sample ->
  nan_ncols (lp_values logprob) = size1 sample ->
  (0 < size0 sample)%nat ->
  SampleDist.mode self g = Ok (best_rows sample logprob, g').
Proof.
  intros He Hs Hl Hr Hc Hpos. unfold SampleDist.mode. rewrite He.
  cbn [mbind result_bind]. rewrite Hs. cbn [mbind result_bind]. rewrite Hl.
  cbn [mbind result_bind]. unfold argmax0.
  destruct (nan_nrows (lp_values logprob) =? 0)%nat eqn:E0;
    [apply Nat.eqb_eq in E0; lia|].
  cbn [mbind result_bind]. rewrite gather_steps.
  rewrite length_map, length_seq, Hc, Nat.eqb_refl.
  rewrite <- Hc, gather_index_in_range by (apply argmax_in_range; lia).
  reflexivity.
Qed.

(** What [mode] has computed when it returns. *)
Lemma mode_ok (self : SampleDist.t D) g m g' :
  SampleDist.mode self g = Ok (m, g') ->
  exists dist sample logprob,
    expand (SampleDist._samples self) (SampleDist._dist self) = Ok dist /\
    rsample dist g = Ok (sample, g') /\
    log_prob dist sample = Ok logprob /\
    (0 < nan_nrows (lp_values logprob))%nat /\
    nan_ncols (lp_values logprob) = size1 sample /\
    m = best_rows sample logprob.
Proof.
  intros H. unfold SampleDist.mode in H.
  apply bind_ok in H as (dist & Hd & H).
  apply bind_ok in H as ([sample g1] & Hs & H).
  apply bind_ok in H as (logprob & Hl & H).
  apply bind_ok in H as (am & Ham & H).
  unfold argmax0 in Ham.
  destruct (nan_nrows (lp_values logprob) =? 0)%nat eqn:E0; [discriminate|].
  apply Nat.eqb_neq in E0. injection Ham as <-.
  rewrite gather_steps, length_map, length_seq in H.
  destruct (_ =? _)%nat eqn:El; [|discriminate]. apply Nat.eqb_eq in El.
  destruct (forallb _ _); [|discriminate]. injection H as <- <-.
  exists dist, sample, logprob. repeat (split; [assumption || lia|]).
  reflexivity.
Qed.

End Mode.

(** ** The distributions of [torch.distributions] *)

Lemma torch_expand s d e :
  TorchDistOps.expand s d = Ok e ->
  (0 <= s)%Z /\ e = TorchDistOps.mkExpanded (Z.to_nat s) d.
Proof.
  unfold TorchDistOps.expand. destruct (0 <=? s)%Z eqn:E; [|discriminate].
  intros [= <-]. by apply Z.leb_le in E.
Qed.

Lemma torch_rsample e g :
  exists x,
    TorchDistOps.rsample e g
    = Ok (x, fun k => g (TorchDistOps.ex_samples e
                         * nrows (fst (TorchDistOps.params (TorchDistOps.ex_dist e)))
                         * ncols (fst (TorchDistOps.params (TorchDistOps.ex_dist e)))
                         + k)%nat) /\
    wf3 x /\ size0 x = TorchDistOps.ex_samples e /\
    size1 x = nrows (fst (TorchDistOps.params (TorchDistOps.ex_dist e))) /\
    size2 x = ncols (fst (TorchDistOps.params (TorchDistOps.ex_dist e))).
Proof.
  unfold TorchDistOps.rsample.
  destruct (TorchDistOps.params (TorchDistOps.ex_dist e)) as [loc scale].
  cbn [fst]. eexists. split; [reflexivity|]. unfold wf3, size0.
  cbn [planes size1 size2]. rewrite length_map, length_seq.
  repeat split. apply Forall_forall. intros p Hp.
  apply list_elem_of_In, in_map_iff in Hp as (s0 & <- & _).
  rewrite length_map, length_seq. split; [reflexivity|].
  apply Forall_forall. intros r Hr.
  apply list_elem_of_In, in_map_iff in Hr as (b0 & <- & _).
  by rewrite length_map, length_seq.
Qed.

(** Whatever is transformed by tanh last lies strictly between -1 and 1. *)
Lemma rsample_tanh_within e g x g' ts :
  transforms (base_dist (TorchDistOps.ex_dist e)) = ts ++ [TanhTransform] ->
  TorchDistOps.rsample e g = Ok (x, g') -> all_within3 (-1) 1 x.
Proof.
  unfold TorchDistOps.rsample. intros ->.
  destruct (TorchDistOps.params (TorchDistOps.ex_dist e)) as [loc scale].
  intros [= <- _]. unfold all_within3. cbn [planes].
  apply Forall_forall. intros p Hp.
  apply list_elem_of_In, in_map_iff in Hp as (s & <- & _).
  apply Forall_forall. intros r Hr.
  apply list_elem_of_In, in_map_iff in Hr as (b & <- & _).
  apply Forall_forall. intros v Hv.
  apply list_elem_of_In, in_map_iff in Hv as (f & <- & _).
  rewrite foldl_app. cbn. apply tanh_bounds.
Qed.

Lemma nth_Forall {A} (P : A -> Prop) l i d : Forall P l -> P d -> P (nth i l d).
Proof.
  intros Hl Hd. destruct (l !! i) as [x|] eqn:E.
  - rewrite (nth_lookup_Some _ _ _ _ E). rewrite Forall_forall in Hl.
    by eapply Hl, list_elem_of_lookup_2.
  - apply lookup_ge_None in E. by rewrite nth_overflow by lia.
Qed.

Lemma entry3_within lo hi x i j k :
  lo < 0 < hi -> all_within3 lo hi x -> lo < entry3 x i j k < hi.
Proof.
  intros H0 Hx. unfold entry3.
  apply (nth_Forall (fun v => lo < v < hi)); [|exact H0].
  apply (nth_Forall (Forall (fun v => lo < v < hi))); [|constructor].
  apply (nth_Forall (Forall (Forall (fun v => lo < v < hi)))); [exact Hx|constructor].
Qed.

(** Inside (-1, 1) the tanh is undone to a number, and the density is one. *)
Lemma entry_log_prob_tanh loc scale v :
  -1 < v < 1 ->
  exists r, TorchDistOps.entry_log_prob [TanhTransform] loc scale v = Ok (Some r).
Proof.
  intros Hv. unfold TorchDistOps.entry_log_prob. cbn [rev app TorchDistOps.undo TorchDistOps.inv].
  destruct (Rlt_dec (Rabs v) 1) as [_|Hn]; [eauto|].
  exfalso. apply Hn. apply Rabs_def1; lra.
Qed.

Lemma sequence_map_ok {A B} (f : A -> result B) l :
  (forall x, In x l -> exists b, f x = Ok b) ->
  exists r, TorchDistOps.sequence (map f l) = Ok r /\ length r = length l.
Proof.
  induction l as [|x l IH]; intros H; cbn [map TorchDistOps.sequence].
  - by exists [].
  - destruct (H x (or_introl eq_refl)) as (b & ->).
    destruct IH as (r & -> & Hr); [intros y Hy; apply H; by right|].
    cbn [mbind result_bind]. exists (b :: r). cbn [length]. by rewrite Hr.
Qed.

(** [log_prob] of a value of the expanded shape with entries inside
    (-1, 1), under a single tanh: only the sum over the event axes can
    fail. *)
Lemma log_prob_tanh e x :
  transforms (base_dist (TorchDistOps.ex_dist e)) = [TanhTransform] ->
  all_within3 (-1) 1 x ->
  size0 x = TorchDistOps.ex_samples e ->
  size1 x = nrows (fst (TorchDistOps.params (TorchDistOps.ex_dist e))) ->
  size2 x = ncols (fst (TorchDistOps.params (TorchDistOps.ex_dist e))) ->
  exists lp,
    length lp = size0 x /\
    TorchDistOps.log_prob e x
    = TorchDistOps.sum_rightmost
        (reinterpreted_batch_ndims (TorchDistOps.ex_dist e))
        (size0 x) (size1 x) (size2 x) lp.
Proof.
  intros Ht Hx H0 H1 H2. unfold TorchDistOps.log_prob.
  destruct (TorchDistOps.params (TorchDistOps.ex_dist e)) as [loc scale] eqn:Ep.
  cbn [fst] in H1, H2. rewrite Ht, <- H0, <- H1, <- H2, !bcast_dim_same.
  match goal with
  | |- context [TorchDistOps.sequence (map ?f (seq 0 (size0 x)))] =>
      destruct (sequence_map_ok f (seq 0 (size0 x))) as (lp & Hlp & Hlen)
  end.
  { intros s _.
    match goal with
    | |- context [TorchDistOps.sequence (map ?f (seq 0 (size1 x)))] =>
        destruct (sequence_map_ok f (seq 0 (size1 x))) as (p & Hp & _)
    end; [|eauto].
    intros b _.
    match goal with
    | |- context [TorchDistOps.sequence (map ?f (seq 0 (size2 x)))] =>
        destruct (sequence_map_ok f (seq 0 (size2 x))) as (r & Hr & _)
    end; [|eauto].
    intros f _.
    edestruct entry_log_prob_tanh as (v & Hv); [|rewrite Hv; eauto].
    apply entry3_within; [lra | exact Hx]. }
  exists lp. rewrite length_seq in Hlen. split; [exact Hlen|].
  rewrite Hlp. reflexivity.
Qed.

Lemma sequence_length {A} (l : list (result A)) r :
  TorchDistOps.sequence l = Ok r -> length r = length l.
Proof.
  revert r. induction l as [|m l IH]; intros r H; cbn [TorchDistOps.sequence] in H.
  - by injection H as <-.
  - apply bind_ok in H as (a & _ & H). apply bind_ok in H as (r' & Hr & H).
    injection H as <-. cbn [length]. by rewrite (IH r' Hr).
Qed.

(** The shape of the densities, whenever [log_prob] returns them. *)
Lemma log_prob_shape e x lp :
  TorchDistOps.log_prob e x = Ok lp ->
  exists S0 B Fe,
    bcast_dim (size0 x) (TorchDistOps.ex_samples e) = Some S0 /\
    bcast_dim (size1 x) (nrows (fst (TorchDistOps.params (TorchDistOps.ex_dist e))))
    = Some B /\
    bcast_dim (size2 x) (ncols (fst (TorchDistOps.params (TorchDistOps.ex_dist e))))
    = Some Fe /\
    nan_nrows (lp_values lp) = S0 /\
    match reinterpreted_batch_ndims (TorchDistOps.ex_dist e) with
    | 0%nat => lp_batch_shape lp = [B; Fe] /\ nan_ncols (lp_values lp) = (B * Fe)%nat
    | 1%nat => lp_batch_shape lp = [B] /\ nan_ncols (lp_values lp) = B
               /\ (0 < S0 * B)%nat
    | _ => lp_batch_shape lp = [] /\ nan_ncols (lp_values lp) = 1%nat /\ (0 < S0)%nat
    end.
Proof.
  unfold TorchDistOps.log_prob.
  destruct (TorchDistOps.params (TorchDistOps.ex_dist e)) as [loc scale]. cbn [fst].
  destruct (bcast_dim (size0 x) _) as [S0|]; [|discriminate].
  destruct (bcast_dim (size1 x) _) as [B|]; [|discriminate].
  destruct (bcast_dim (size2 x) _) as [Fe|]; [|discriminate].
  intros H. apply bind_ok in H as (r & Hr & H).
  apply sequence_length in Hr. rewrite length_map, length_seq in Hr.
  exists S0, B, Fe. repeat (split; [reflexivity|]).
  unfold TorchDistOps.sum_rightmost in H.
  destruct (reinterpreted_batch_ndims _) as [|[|n]].
  - injection H as <-. unfold nan_nrows. cbn. by rewrite length_map.
  - destruct (S0 * B =? 0)%nat eqn:E; [discriminate|]. apply Nat.eqb_neq in E.
    injection H as <-. unfold nan_nrows. cbn. rewrite length_map.
    repeat split; [assumption | lia].
  - destruct (S0 =? 0)%nat eqn:E; [discriminate|]. apply Nat.eqb_neq in E.
    injection H as <-. unfold nan_nrows. cbn. rewrite length_map.
    repeat split; [assumption | lia].
Qed.

(** A distribution under a single tanh, expanded to [n] samples: its
    sample, the generator it leaves, and its densities before the sum over
    the event axes. *)
Lemma torch_statistics d (n : nat) g :
  transforms (base_dist d) = [TanhTransform] ->
  exists sample lp,
    TorchDistOps.rsample (TorchDistOps.mkExpanded n d) g
    = Ok (sample, skip (n * nrows (fst (TorchDistOps.params d))
                        * ncols (fst (TorchDistOps.params d))) g) /\
    wf3 sample /\ size0 sample = n /\
    size1 sample = nrows (fst (TorchDistOps.params d)) /\
    size2 sample = ncols (fst (TorchDistOps.params d)) /\
    all_within3 (-1) 1 sample /\
    length lp = n /\
    TorchDistOps.log_prob (TorchDistOps.mkExpanded n d) sample
    = TorchDistOps.sum_rightmost (reinterpreted_batch_ndims d) n
        (nrows (fst (TorchDistOps.params d))) (ncols (fst (TorchDistOps.params d))) lp.
Proof.
  intros Ht.
  destruct (torch_rsample (TorchDistOps.mkExpanded n d) g)
    as (x & Hx & Hw & H0 & H1 & H2).
  cbn [TorchDistOps.ex_samples TorchDistOps.ex_dist] in *.
  assert (Hin : all_within3 (-1) 1 x).
  { exact (rsample_tanh_within (TorchDistOps.mkExpanded n d) g x _ [] Ht Hx). }
  destruct (log_prob_tanh (TorchDistOps.mkExpanded n d) x Ht Hin H0 H1 H2)
    as (lp & Hlen & Hlp).
  cbn [TorchDistOps.ex_samples TorchDistOps.ex_dist] in Hlp.
  rewrite H0, H1, H2 in Hlp. rewrite H0 in Hlen.
  exists x, lp. repeat (split; [assumption|]). exact Hlp.
Qed.

(** ** C3: constructing a [SampleDist] *)




(** On a value of the expanded shape, the densities have the batch shape
    of the wrapped distribution behind the sample axis. *)
Lemma log_prob_batch_shape e x lp :
  TorchDistOps.log_prob e x = Ok lp ->
  size1 x = nrows (fst (TorchDistOps.params (TorchDistOps.ex_dist e))) ->
  size2 x = ncols (fst (TorchDistOps.params (TorchDistOps.ex_dist e))) ->
  (reinterpreted_batch_ndims (TorchDistOps.ex_dist e) <= 2)%nat ->
  lp_batch_shape lp = TorchDistOps.batch_shape_of (TorchDistOps.ex_dist e).
Proof.
  intros H H1 H2 Hn.
  apply log_prob_shape in H as (S0 & B & Fe & _ & E1 & E2 & _ & Hsh).
  rewrite <- H1, bcast_dim_same in E1. rewrite <- H2, bcast_dim_same in E2.
  injection E1 as <-. injection E2 as <-.
  unfold TorchDistOps.batch_shape_of. rewrite <- H1, <- H2.
  destruct (reinterpreted_batch_ndims _) as [|[|[|n]]]; [| | |lia];
    by destruct Hsh as [-> _].
Qed.
(** ** The distribution that [ActionModel.forward] returns *)

(** Whatever its parameters are, the distribution is a Normal under a
    single tanh, with one batch axis and one event axis, wrapped with a
    hundred samples. *)
Lemma ActionModel_forward_structure self belief state training sd :
  ActionModel.forward self belief state training = Ok sd ->
  exists mean std, sd = SampleDist.mk (squashed mean std) 100.
Proof.
  intros H. rewrite forward_from_raw in H.
  apply bind_ok in H as (p & _ & H). apply bind_ok in H as ([mean std] & _ & H).
  unfold Independent_init, SampleDist.__init__ in H. cbn in H. injection H as <-.
  by exists mean, std.
Qed.

Lemma raw_params_nrows self belief state rm rs :
  raw_params self belief state = Ok (rm, rs) -> nrows rm = nrows belief.
Proof.
  unfold raw_params. intros H.
  apply bind_ok in H as (x & E0 & H). apply bind_ok in H as (h1 & E1 & H).
  apply bind_ok in H as (h2 & E2 & H). apply bind_ok in H as (h3 & E3 & H).
  apply bind_ok in H as (h4 & E4 & H). apply bind_ok in H as (o & E5 & H).
  apply cat1_nrows in E0. apply Linear_forward_nrows in E1, E2, E3, E4, E5.
  rewrite tmap_nrows in E2, E3, E4, E5.
  unfold chunk2 in H. destruct (_ =? _)%nat; [discriminate|]. injection H as <- _.
  unfold nrows in *. cbn [rows]. rewrite length_map. congruence.
Qed.

(** The example policy returns its distribution. *)
Lemma policy_returns training :
  exists sd,
    ActionModel.forward Example.policy Example.belief0 Example.state0 training = Ok sd.
Proof.
  assert (exists rm rs, raw_params Example.policy Example.belief0 Example.state0
                        = Ok (rm, rs))
    as (rm & rs & Hraw) by (eexists; eexists; run_model; reflexivity).
  eexists.
  exact (ActionModel_forward_returns _ _ _ _ _ _ _ training _ _ policy_init Hraw
           (valid_location 5 rm ltac:(lra))
           (valid_scale Example.policy rs ltac:(cbn; lra) ltac:(cbn; lra))).
Qed.

(** ** Bounds and shapes of what the statistics return *)

Lemma best_rows_within lo hi sample logprob :
  lo < 0 < hi -> all_within3 lo hi sample ->
  all_within lo hi (best_rows sample logprob).
Proof.
  intros H0 Hx. unfold all_within, best_rows. cbn [rows].
  apply Forall_forall. intros r Hr.
  apply list_elem_of_lookup in Hr as (j & Hr).
  rewrite list_lookup_imap in Hr.
  destruct (_ !! j) as [i|]; [|discriminate]. injection Hr as <-.
  unfold gathered_row. apply Forall_forall. intros v Hv.
  apply list_elem_of_In, in_map_iff in Hv as (k & <- & _).
  by apply entry3_within.
Qed.

Lemma sum_list_within l :
  Forall (fun v => -1 < v < 1) l -> l <> [] ->
  - INR (length l) < sum_list l < INR (length l).
Proof.
  induction 1 as [|v l Hv Hl IH]; [done|]. intros _.
  change (sum_list (v :: l)) with (v + sum_list l).
  change (length (v :: l)) with (S (length l)). rewrite S_INR.
  destruct l as [|w l].
  - cbn. lra.
  - specialize (IH ltac:(done)). lra.
Qed.

(** With a sample to take it over, the mean has no nan. *)
Lemma mean0_numbers x : (0 < size0 x)%nat -> mean0 x = numbers (reals (mean0 x)).
Proof.
  intros Hpos. unfold numbers, reals, mean0. cbn [ncols rows nan_ncols nan_rows].
  f_equal. rewrite !map_map. apply map_ext. intros j. rewrite !map_map.
  apply map_ext. intros k.
  destruct (size0 x =? 0)%nat eqn:E; [apply Nat.eqb_eq in E; lia|]. reflexivity.
Qed.

Lemma mean0_within x :
  all_within3 (-1) 1 x -> (0 < size0 x)%nat -> all_within (-1) 1 (reals (mean0 x)).
Proof.
  intros Hx Hpos. unfold all_within, reals, mean0. cbn [rows nan_rows].
  apply Forall_forall. intros r Hr.
  apply list_elem_of_In, in_map_iff in Hr as (r0 & <- & Hr0).
  apply in_map_iff in Hr0 as (j & <- & _).
  apply Forall_forall. intros v Hv.
  apply list_elem_of_In, in_map_iff in Hv as (v0 & <- & Hv0).
  apply in_map_iff in Hv0 as (k & <- & _).
  destruct (size0 x =? 0)%nat eqn:E; [apply Nat.eqb_eq in E; lia|]. cbn [from_option id].
  pose proof (sum_list_within (map (fun i => entry3 x i j k) (seq 0 (size0 x)))) as Hsum.
  rewrite length_map, length_seq in Hsum.
  destruct Hsum as [Hl Hu].
  - apply Forall_forall. intros v Hv.
    apply list_elem_of_In, in_map_iff in Hv as (i & <- & _).
    apply entry3_within; [lra | exact Hx].
  - intros Hnil. apply (f_equal length) in Hnil.
    rewrite length_map, length_seq in Hnil. cbn in Hnil. lia.
  - assert (Hn : 0 < INR (size0 x)) by (apply lt_0_INR; lia).
    assert (Hi : 0 < / INR (size0 x)) by (by apply Rinv_0_lt_compat).
    assert (H1 : INR (size0 x) * / INR (size0 x) = 1) by (apply Rinv_r; lra).
    unfold Datatypes.id, Rdiv. split; nra.
Qed.

Lemma best_rows_shaped sample logprob :
  shaped (nan_ncols (lp_values logprob)) (size2 sample) (best_rows sample logprob).
Proof.
  unfold shaped, best_rows, nrows, wf2. cbn [rows ncols].
  rewrite length_imap, length_map, length_seq. repeat split.
  apply Forall_forall. intros r Hr.
  apply list_elem_of_lookup in Hr as (j & Hr). rewrite list_lookup_imap in Hr.
  destruct (_ !! j) as [i|]; [|discriminate]. injection Hr as <-.
  unfold gathered_row. by rewrite length_map, length_seq.
Qed.

Lemma mean0_shaped x : shaped (size1 x) (size2 x) (reals (mean0 x)).
Proof.
  unfold shaped, reals, mean0, nrows, wf2. cbn [rows ncols nan_rows nan_ncols].
  rewrite !length_map, length_seq. repeat split.
  apply Forall_forall. intros r Hr.
  apply list_elem_of_In, in_map_iff in Hr as (r0 & <- & Hr0).
  apply in_map_iff in Hr0 as (j & <- & _).
  by rewrite !length_map, length_seq.
Qed.

(** The statistics of a [SampleDist] over a distribution of
    [torch.distributions], with the expanded distribution made explicit. *)
Lemma mean_torch (sd : SampleDist.t TorchDist) g m g' :
  SampleDist.mean sd g = Ok (m, g') ->
  (0 <= SampleDist._samples sd)%Z /\
  exists sample,
    TorchDistOps.rsample
      (TorchDistOps.mkExpanded (Z.to_nat (SampleDist._samples sd)) (SampleDist._dist sd)) g
    = Ok (sample, g') /\
    m = mean0 sample.
Proof.
  unfold SampleDist.mean. intros H.
  apply bind_ok in H as (e & He & H).
  apply bind_ok in H as ([sample g1] & Hs & H). injection H as <- <-.
  apply torch_expand in He as [Hpos ->]. split; [exact Hpos|]. by exists sample.
Qed.

Lemma mode_torch (sd : SampleDist.t TorchDist) g m g' :
  SampleDist.mode sd g = Ok (m, g') ->
  (0 <= SampleDist._samples sd)%Z /\
  exists sample logprob,
    TorchDistOps.rsample
      (TorchDistOps.mkExpanded (Z.to_nat (SampleDist._samples sd)) (SampleDist._dist sd)) g
    = Ok (sample, g') /\
    TorchDistOps.log_prob
      (TorchDistOps.mkExpanded (Z.to_nat (SampleDist._samples sd)) (SampleDist._dist sd))
      sample
    = Ok logprob /\
    (0 < nan_nrows (lp_values logprob))%nat /\
    nan_ncols (lp_values logprob) = size1 sample /\
    m = best_rows sample logprob.
Proof.
  intros H. apply mode_ok in H as (e & sample & logprob & He & Hs & Hl & Hr & Hc & ->).
  apply torch_expand in He as [Hpos ->]. split; [exact Hpos|].
  exists sample, logprob. auto.
Qed.

(** The three statistics of the action distribution over [B] batch
    elements, with [n] samples: they return, with these shapes, and leave
    the generator advanced by the entries of the sample. *)
Lemma squashed_statistics mean std (n : nat) g :
  (0 < n)%nat -> (0 < nrows mean)%nat ->
  exists sample logprob,
    all_within3 (-1) 1 sample /\
    size0 sample = n /\ size1 sample = nrows mean /\ size2 sample = ncols mean /\
    lp_batch_shape logprob = [nrows mean] /\
    nan_ncols (lp_values logprob) = nrows mean /\
    SampleDist.mean (SampleDist.mk (squashed mean std) (Z.of_nat n)) g
    = Ok (mean0 sample, skip (n * nrows mean * ncols mean) g) /\
    SampleDist.mode (SampleDist.mk (squashed mean std) (Z.of_nat n)) g
    = Ok (best_rows sample logprob, skip (n * nrows mean * ncols mean) g) /\
    SampleDist.entropy (SampleDist.mk (squashed mean std) (Z.of_nat n)) g
    = Ok ((lp_batch_shape logprob,
           map (fun v => match v with Some r => Some (- r) | None => None end)
               (mean0_2 (lp_values logprob))),
          skip (n * nrows mean * ncols mean) g).
Proof.
  intros Hn HB.
  destruct (torch_statistics (squashed mean std) n g eq_refl)
    as (sample & lp & Hs & Hw & H0 & H1 & H2 & Hin & Hlen & Hl).
  cbn [squashed TorchDistOps.params base_dist transformed_base loc scale fst
       reinterpreted_batch_ndims] in *.
  unfold TorchDistOps.sum_rightmost in Hl.
  destruct (n * nrows mean =? 0)%nat eqn:E; [apply Nat.eqb_eq in E; nia|].
  assert (He : expand (Z.of_nat n) (squashed mean std)
               = Ok (TorchDistOps.mkExpanded n (squashed mean std))).
  { cbn [expand TorchDist_Distribution]. unfold TorchDistOps.expand.
    assert ((0 <=? Z.of_nat n)%Z = true) as -> by (apply Z.leb_le; lia).
    by rewrite Nat2Z.id. }
  exists sample, (mkLogProb [nrows mean]
                            (mkNan2 (nrows mean) (map (map nan_sum) lp))).
  split; [exact Hin|]. split; [exact H0|]. split; [exact H1|].
  split; [exact H2|]. split; [reflexivity|]. split; [reflexivity|].
  split; [|split].
  - unfold SampleDist.mean. cbn [SampleDist._samples SampleDist._dist].
    rewrite He. cbn [mbind result_bind].
    change (@rsample _ _ TorchDist_Distribution) with TorchDistOps.rsample.
    by rewrite Hs.
  - apply (mode_unfold (SampleDist.mk (squashed mean std) (Z.of_nat n)) g _ sample
                       _ _ He Hs Hl).
    + unfold nan_nrows. cbn [lp_values nan_rows]. rewrite length_map. lia.
    + cbn [lp_values nan_ncols]. lia.
    + lia.
  - unfold SampleDist.entropy. cbn [SampleDist._samples SampleDist._dist].
    rewrite He. cbn [mbind result_bind].
    change (@rsample _ _ TorchDist_Distribution) with TorchDistOps.rsample.
    rewrite Hs. cbn [mbind result_bind].
    change (@log_prob _ _ TorchDist_Distribution) with TorchDistOps.log_prob.
    by rewrite Hl.
Qed.
(** ** [forward] returns on well-shaped inputs *)

Lemma pyset_lt {A} (l : list A) i v :
  (i < length l)%nat -> pyset l i v = Ok (<[i:=v]> l).
Proof. intros H. unfold pyset. by apply Nat.ltb_lt in H as ->. Qed.

Lemma pyget_insert {A} (l : list A) i v :
  (i < length l)%nat -> pyget (<[i:=v]> l) i = Ok v.
Proof. intros H. apply pyget_ok. by apply list_lookup_insert_eq. Qed.

Lemma getitem_shaped x t :
  wf3 x -> (t < size0 x)%nat ->
  exists y, getitem x (Z.of_nat t) = Ok y /\ shaped (size1 x) (size2 x) y.
Proof.
  intros Hw Ht. rewrite getitem_nat.
  destruct (lookup_lt_is_Some_2 (planes x) t Ht) as [p Hp]. rewrite Hp.
  eexists. split; [reflexivity|]. unfold wf3 in Hw. rewrite Forall_forall in Hw.
  destruct (Hw p (list_elem_of_lookup_2 _ _ _ Hp)) as [Hl Hr].
  unfold shaped, nrows, wf2. cbn [rows ncols]. auto.
Qed.

Lemma mul_mask_shaped r c st m :
  shaped r c st -> shaped r 1 m -> exists y, mul st m = Ok y /\ shaped r c y.
Proof.
  intros (Hr & Hc & Hw) (Mr & Mc & Mw). unfold mul, bcast2.
  rewrite Hr, Mr, Hc, Mc, bcast_dim_same.
  assert (bcast_dim c 1 = Some c) as ->.
  { unfold bcast_dim. destruct (c =? 1)%nat eqn:E; [|reflexivity].
    by apply Nat.eqb_eq in E as ->. }
  eexists. split; [reflexivity|].
  rewrite !(expand_axis_same r) by assumption.
  unfold shaped, nrows, wf2 in *. cbn [rows ncols].
  rewrite length_zip_with, Hr, Mr. repeat split; [lia|].
  rewrite Forall_forall in Hw, Mw |- *. intros y Hy.
  apply list_elem_of_lookup in Hy as (i & Hy).
  apply lookup_zip_with_Some in Hy as (ra & rb & -> & Hra & Hrb).
  apply list_elem_of_lookup_2, Hw in Hra. apply list_elem_of_lookup_2, Mw in Hrb.
  rewrite length_zip_with, !expand_axis_length by lia. lia.
Qed.

Lemma stack_shaped r c l :
  l <> [] -> Forall (shaped r c) l -> exists h, stack l = Ok h.
Proof.
  intros Hne Hl. unfold stack. destruct l as [|x l]; [done|].
  assert (forallb (same_shape x) (x :: l) = true) as ->; [|eauto].
  apply forallb_forall. intros y Hy. rewrite Forall_forall in Hl.
  destruct (Hl x) as (Xr & Xc & _); [left|].
  destruct (Hl y) as (Yr & Yc & _); [by apply list_elem_of_In|].
  unfold same_shape. rewrite Xr, Xc, Yr, Yc, !Nat.eqb_refl. reflexivity.
Qed.

Lemma for_range_total {St} (body : nat -> St -> result St) (P : nat -> St -> Prop) :
  forall n a s,
    (forall t s1, (a <= t < a + n)%nat -> P t s1 ->
                  exists s2, body t s1 = Ok s2 /\ P (S t) s2) ->
    P a s -> exists s', for_range body (seq a n) s = Ok s' /\ P (a + n)%nat s'.
Proof.
  induction n as [|n IH]; intros a s Hstep Ha; cbn.
  - exists s. by rewrite Nat.add_0_r.
  - destruct (Hstep a s) as (s1 & -> & H1); [lia|assumption|]. cbn.
    replace (a + S n)%nat with (S a + n)%nat by lia.
    apply IH; [|assumption]. intros t s2 Ht. apply Hstep. lia.
Qed.

Section Total.

Variable self : TransitionModel.t.
Variables belief_size state_size action_size hidden_size embedding_size : nat.
Variable batch : nat.
Variable actions : Tensor3.

Local Abbreviation shapes :=
  (well_shaped belief_size state_size action_size embedding_size batch actions).
Local Abbreviation inv := (total_inv belief_size state_size batch actions).

Lemma masked_shaped observations nonterminals prev_state prev_belief t st0 :
  shapes observations nonterminals prev_state prev_belief ->
  (t < size0 actions)%nat -> shaped batch state_size st0 ->
  exists st, masked nonterminals t st0 = Ok st /\ shaped batch state_size st.
Proof.
  intros Hshape Ht Hst. destruct Hshape as (_ & _ & _ & _ & Hm). unfold masked.
  destruct nonterminals as [m|]; [|eauto].
  destruct Hm as (Mw & M1 & M2 & Ml).
  destruct (getitem_shaped m t Mw ltac:(lia)) as (y & -> & Hy).
  cbn [mbind result_bind]. rewrite M1, M2 in Hy. by apply mul_mask_shaped.
Qed.

Lemma forward_body_total observations nonterminals prev_state prev_belief t st :
  TransitionModel.__init__ belief_size state_size action_size hidden_size
                           embedding_size self ->
  shapes observations nonterminals prev_state prev_belief ->
  (t < size0 actions)%nat -> inv observations t st ->
  exists st',
    TransitionModel.forward_body self actions observations nonterminals t st = Ok st'
    /\ inv observations (S t) st'.
Proof.
  destruct st as [s g].
  intros Hinit Hshape Ht (HL & (b & Hb & Sb) & (st0 & Hst0 & Sst0) & Hgood).
  cbn [fst] in *.
  destruct (masked_shaped _ _ _ _ t st0 Hshape Ht Sst0) as (st & Hm & Sst).
  destruct Hshape as (_ & _ & (Aw & A1 & A2) & Hobs & _).
  pose proof Hinit as (L1 & G & Lbp & Lsp & Lbq & Lsq).
  destruct HL as (Lb & Lps & Lpm & Lpsd & Lqs & Lqm & Lqsd).
  destruct (getitem_shaped actions t Aw Ht) as (a & Ha & Sa). rewrite A1, A2 in Sa.
  destruct (cat1_shaped _ _ _ _ _ Sst Sa) as (x & Hx & Xr & Xc & _).
  destruct (Linear_forward_shaped _ _ _ batch x L1 Xr Xc) as (h & Hh & Sh).
  apply (tmap_shaped (TransitionModel.act_fn self)) in Sh.
  destruct (GRUCell_forward_shaped _ _ _ _ _ _ G Sh Sb) as (b' & Hb' & Sb').
  destruct (gaussian_params_shaped self state_size hidden_size _ _ _ batch b'
              Lbp Lsp (proj1 Sb') (proj1 (proj2 Sb')))
    as (pm & psd & Hp & Spm & Spsd).
  destruct (reparameterize_shaped _ _ pm psd g Spm Spsd) as (ps & g1 & Hps & Sps).
  unfold gaussian_params in Hp.
  apply bind_ok in Hp as (h1 & Hh1 & Hp). apply bind_ok in Hp as (o & Ho & Hp).
  apply bind_ok in Hp as ([pm' raw] & Hc & Hp). injection Hp as -> <-.
  unfold reparameterize in Hps. destruct (randn_like pm g) as [eps g1'] eqn:Hr.
  apply bind_ok in Hps as (p & Hmul & Hps). apply bind_ok in Hps as (ps' & Hadd & Hps).
  injection Hps as -> ->.
  unfold TransitionModel.forward_body. unfold selected in Hst0.
  rewrite (proj2 (pyget_ok _ _ _) Hst0). cbn [mbind result_bind].
  unfold masked in Hm. rewrite Hm. cbn [mbind result_bind].
  rewrite Ha. cbn [mbind result_bind]. rewrite Hx. cbn [mbind result_bind].
  rewrite Hh. cbn [mbind result_bind].
  rewrite (proj2 (pyget_ok _ _ _) Hb). cbn [mbind result_bind].
  rewrite Hb'. cbn [mbind result_bind].
  rewrite pyset_lt by lia. cbn [mbind result_bind].
  rewrite pyget_insert by lia. cbn [mbind result_bind].
  rewrite Hh1. cbn [mbind result_bind]. rewrite Ho. cbn [mbind result_bind].
  rewrite Hc. cbn [mbind result_bind].
  repeat (first [rewrite pyset_lt by lia | rewrite pyget_insert by lia];
          cbn [mbind result_bind]).
  rewrite Hr, Hmul. cbn [mbind result_bind]. rewrite Hadd. cbn [mbind result_bind].
  rewrite pyset_lt by lia. cbn [mbind result_bind].
  destruct observations as [obs|].
  - destruct Hobs as (Ow & O1 & O2 & Ol).
    destruct (getitem_shaped obs t Ow ltac:(lia)) as (e & He & Se).
    rewrite O1, O2 in Se.
    destruct (cat1_shaped _ _ _ _ _ Sb' Se) as (x2 & Hx2 & X2r & X2c & _).
    destruct (gaussian_params_shaped self state_size hidden_size _ _ _ batch x2
                Lbq Lsq X2r X2c)
      as (qm & qsd & Hq & Sqm & Sqsd).
    destruct (reparameterize_shaped _ _ qm qsd g1 Sqm Sqsd) as (qs & g2 & Hqs & Sqs).
    unfold gaussian_params in Hq.
    apply bind_ok in Hq as (h2 & Hh2 & Hq). apply bind_ok in Hq as (o2 & Ho2 & Hq).
    apply bind_ok in Hq as ([qm' raw2] & Hc2 & Hq). injection Hq as -> <-.
    unfold reparameterize in Hqs. destruct (randn_like qm g1) as [eps2 g2'] eqn:Hr2.
    apply bind_ok in Hqs as (q & Hmul2 & Hqs).
    apply bind_ok in Hqs as (qs' & Hadd2 & Hqs). injection Hqs as -> ->.
    rewrite observation_index, He. cbn [mbind result_bind].
    rewrite Hx2. cbn [mbind result_bind]. rewrite Hh2. cbn [mbind result_bind].
    rewrite Ho2. cbn [mbind result_bind]. rewrite Hc2. cbn [mbind result_bind].
    repeat (first [rewrite pyset_lt by lia | rewrite pyget_insert by lia];
            cbn [mbind result_bind]).
    rewrite Hr2, Hmul2. cbn [mbind result_bind]. rewrite Hadd2.
    cbn [mbind result_bind]. rewrite pyset_lt by lia. cbn [mbind result_bind].
    eexists. split; [reflexivity|].
    unfold total_inv, slots_length, selected, good_slot. cbn [fst
      TransitionModel.beliefs TransitionModel.prior_states
      TransitionModel.prior_means TransitionModel.prior_std_devs
      TransitionModel.posterior_states TransitionModel.posterior_means
      TransitionModel.posterior_std_devs].
    rewrite !length_insert. rewrite <- (Nat.add_1_r t).
    split; [auto 10|].
    split; [exists b'; by rewrite list_lookup_insert_eq by lia|].
    split; [exists qs; by rewrite list_lookup_insert_eq by lia|].
    intros i Hi. destruct (decide (i = t + 1)%nat) as [->|Hne].
    + rewrite !list_lookup_insert_eq by lia.
      repeat (split || intros _); eexists; (split; [reflexivity | assumption]).
    + rewrite !list_lookup_insert_ne by lia. apply Hgood. lia.
  - eexists. split; [reflexivity|].
    unfold total_inv, slots_length, selected, good_slot. cbn [fst
      TransitionModel.beliefs TransitionModel.prior_states
      TransitionModel.prior_means TransitionModel.prior_std_devs
      TransitionModel.posterior_states TransitionModel.posterior_means
      TransitionModel.posterior_std_devs].
    rewrite !length_insert. rewrite <- (Nat.add_1_r t).
    split; [auto 10|].
    split; [exists b'; by rewrite list_lookup_insert_eq by lia|].
    split; [exists ps; by rewrite list_lookup_insert_eq by lia|].
    intros i Hi. destruct (decide (i = t + 1)%nat) as [->|Hne].
    + rewrite !list_lookup_insert_eq by lia.
      repeat split; try done; eexists; (split; [reflexivity | assumption]).
    + rewrite !list_lookup_insert_ne by lia. apply Hgood. lia.
Qed.

Lemma forward_slots_total observations nonterminals prev_state prev_belief g :
  TransitionModel.__init__ belief_size state_size action_size hidden_size
                           embedding_size self ->
  shapes observations nonterminals prev_state prev_belief ->
  exists s g',
    TransitionModel.forward_slots self actions observations nonterminals
                                  prev_state prev_belief g = Ok (s, g') /\
    inv observations (size0 actions) (s, g').
Proof.
  intros Hinit Hshape. unfold TransitionModel.forward_slots.
  destruct (initial_slots_ok self actions observations nonterminals
              prev_state prev_belief) as (s0 & -> & Hinv).
  cbn [mbind result_bind]. unfold range.
  replace (size0 actions + 1 - 1)%nat with (size0 actions) by lia.
  destruct (for_range_total
              (TransitionModel.forward_body self actions observations nonterminals)
              (inv observations) (size0 actions) 0%nat (s0, g))
    as ([s g'] & Hrun & Hfin).
  - intros t s1 Ht. apply (forward_body_total _ _ prev_state prev_belief);
      [assumption..|lia].
  - destruct (Hinv g) as (HL & B0 & P0 & Q0 & _). cbn [fst] in *.
    destruct Hshape as (Sst & Sb & _).
    unfold total_inv. cbn [fst]. split; [assumption|].
    split; [eauto|]. split; [|intros i Hi; lia].
    exists prev_state. split; [|assumption]. unfold selected.
    by destruct observations.
  - exists s, g'. by split.
Qed.

End Total.

(** X1: for a model as its constructor builds it, a rollout over at least
    one action on inputs of the shapes of the model returns: no operation
    raises. *)
Theorem forward_returns
    self belief_size state_size action_size hidden_size embedding_size batch
    prev_state actions prev_belief observations nonterminals g :
  TransitionModel.__init__ belief_size state_size action_size hidden_size
                           embedding_size self ->
  well_shaped belief_size state_size action_size embedding_size batch actions
              observations nonterminals prev_state prev_belief ->
  (0 < size0 actions)%nat ->
  exists hidden g',
    TransitionModel.forward self prev_state actions prev_belief observations
                            nonterminals g = Ok (hidden, g').
Proof.
  intros Hinit Hshape Hpos.
  destruct (forward_slots_total self _ _ _ _ _ batch actions observations
              nonterminals prev_state prev_belief g Hinit Hshape)
    as (s & g' & Hs & HL & _ & _ & Hgood).
  cbn [fst] in HL, Hgood. unfold TransitionModel.forward. rewrite Hs.
  cbn [mbind result_bind]. unfold TransitionModel.forward_hidden.
  destruct HL as (Lb & Lps & Lpm & Lpsd & Lqs & Lqm & Lqsd).
  assert (Hstack : forall (l : list Tensor2) c,
            length l = (size0 actions + 1)%nat ->
            (forall i, (1 <= i <= size0 actions)%nat ->
                       exists y, l !! i = Some y /\ shaped batch c y) ->
            exists h, stack (drop 1 l) = Ok h).
  { intros l c Hl Hall. apply (stack_shaped batch c).
    - intros Hnil. apply (f_equal length) in Hnil. rewrite length_drop in Hnil.
      cbn in Hnil. lia.
    - apply Forall_forall. intros y Hy.
      apply list_elem_of_lookup in Hy as (i & Hy). rewrite lookup_drop in Hy.
      pose proof (lookup_lt_Some _ _ _ Hy) as Hi.
      destruct (Hall (1 + i)%nat ltac:(lia)) as (y' & Hy' & Sy). congruence. }
  destruct (Hstack _ belief_size Lb) as (h0 & ->); [intros i Hi; apply Hgood, Hi|].
  destruct (Hstack _ state_size Lps) as (h1 & ->); [intros i Hi; apply Hgood, Hi|].
  destruct (Hstack _ state_size Lpm) as (h2 & ->); [intros i Hi; apply Hgood, Hi|].
  destruct (Hstack _ state_size Lpsd) as (h3 & ->); [intros i Hi; apply Hgood, Hi|].
  cbn [mbind result_bind]. destruct observations as [obs|]; [|eauto].
  destruct (Hstack _ state_size Lqs) as (h4 & ->);
    [intros i Hi; by apply (Hgood i Hi)|].
  destruct (Hstack _ state_size Lqm) as (h5 & ->);
    [intros i Hi; by apply (Hgood i Hi)|].
  destruct (Hstack _ state_size Lqsd) as (h6 & ->);
    [intros i Hi; by apply (Hgood i Hi)|].
  cbn [mbind result_bind]. eauto.
Qed.

Lemma forward_returns_witness :
  exists hidden g',
    TransitionModel.forward Example.rssm Example.state0 Example.actions2
      Example.belief0 (Some Example.observations2) (Some Example.nonterminals2)
      Example.counting = Ok (hidden, g').
Proof.
  apply (forward_returns Example.rssm 1 1 1 1 1 2).
  - repeat split; repeat constructor.
  - repeat split; repeat constructor.
  - cbn. lia.
Defined.

(** ** The rollout as a recurrence on what it returns *)

(** X2: the returned sequences obey the recurrence of the model. The belief
    at index [t] is the belief update of the action at [t], the belief
    before it and the masked state before it, where "before" is the seed for
    [t = 0] and index [t - 1] of the returned sequences otherwise; the state
    is taken from the posterior states when observations are supplied and
    from the prior states when they are not. The prior mean and stddev at
    index [t] are computed from the belief at index [t] alone. *)
Theorem rollout_is_recurrence
    self prev_state actions prev_belief observations nonterminals g hidden g' :
  TransitionModel.forward self prev_state actions prev_belief observations
                          nonterminals g = Ok (hidden, g') ->
  exists bel states means stds,
    hidden !! 0%nat = Some bel /\
    hidden !! (match observations with None => 1 | Some _ => 4 end)%nat
    = Some states /\
    hidden !! 2%nat = Some means /\ hidden !! 3%nat = Some stds /\
    forall t, (t < size0 actions)%nat ->
      exists st0 b0 st a b' pm psd,
        match t with
        | O => st0 = prev_state /\ b0 = prev_belief
        | S k => getitem states (Z.of_nat k) = Ok st0 /\
                 getitem bel (Z.of_nat k) = Ok b0
        end /\
        masked nonterminals t st0 = Ok st /\
        getitem actions (Z.of_nat t) = Ok a /\
        belief_update self st a b0 = Ok b' /\
        getitem bel (Z.of_nat t) = Ok b' /\
        prior_params self b' = Ok (pm, psd) /\
        getitem means (Z.of_nat t) = Ok pm /\
        getitem stds (Z.of_nat t) = Ok psd.
Proof.
  intros H. apply forward_ok in H as (s & Hs & Hf).
  apply forward_slots_inv in Hs as (_ & B0 & P0 & Q0 & Hc). cbn [fst] in *.
  destruct Hf as (h0 & h1 & h2 & h3 & [_ E0] & E1 & [_ E2] & [_ E3] & _ & Hh).
  assert (exists states,
            hidden !! (match observations with None => 1 | Some _ => 4 end)%nat
            = Some states /\ hidden !! 0%nat = Some h0 /\
            hidden !! 2%nat = Some h2 /\ hidden !! 3%nat = Some h3 /\
            emitted (selected observations s) states)
    as (states & Hst & Hbel & Hmeans & Hstds & [_ Esel]).
  { unfold selected. destruct observations.
    - destruct Hh as (h4 & h5 & h6 & E4 & _ & _ & _ & ->). by exists h4.
    - subst hidden. by exists h1. }
  exists h0, states, h2, h3. repeat (split; [assumption|]). intros t Ht.
  destruct (Hc t Ht) as (st0 & st & a & b & b' & pm & psd & ps & g0 & g1 & Hsel & Hm
                         & Ha & Hb & Hu & Hb' & Hp & Hpm & Hpsd & _).
  exists st0, b, st, a, b', pm, psd. rewrite Nat.add_1_r in Hb', Hpm, Hpsd.
  split; [|auto 12].
  destruct t as [|k].
  - assert (selected observations s !! 0%nat = Some prev_state) as Hp0
        by (unfold selected; by destruct observations).
    split; congruence.
  - split; [by apply Esel | by apply E0].
Qed.

Lemma rollout_is_recurrence_witness :
  exists hidden g' bel states st0 b0 st a b',
    TransitionModel.forward Example.rssm Example.state0 Example.actions2
      Example.belief0 (Some Example.observations2) (Some Example.nonterminals2)
      Example.counting = Ok (hidden, g') /\
    hidden !! 0%nat = Some bel /\ hidden !! 4%nat = Some states /\
    getitem states 0 = Ok st0 /\ getitem bel 0 = Ok b0 /\
    masked (Some Example.nonterminals2) 1 st0 = Ok st /\
    getitem Example.actions2 1 = Ok a /\
    belief_update Example.rssm st a b0 = Ok b' /\
    getitem bel 1 = Ok b'.
Proof.
  assert (exists hidden g',
            TransitionModel.forward Example.rssm Example.state0 Example.actions2
              Example.belief0 (Some Example.observations2)
              (Some Example.nonterminals2) Example.counting = Ok (hidden, g'))
    as (hidden & g' & H) by (eexists; eexists; run_model; reflexivity).
  destruct (rollout_is_recurrence _ _ _ _ _ _ _ _ _ H)
    as (bel & states & means & stds & H0 & H4 & _ & _ & Ht).
  destruct (Ht 1%nat) as (st0 & b0 & st & a & b' & pm & psd & [Hs Hb] & ? & ? & ? & ? & _);
    [cbn; lia|].
  exists hidden, g', bel, states, st0, b0, st, a, b'. auto 12.
Defined.

(** ** The noise of the rollout *)

Lemma reparameterize_gen m sd g x g1 :
  reparameterize m sd g = Ok (x, g1) ->
  forall i, g1 i = g (nrows m * ncols m + i)%nat.
Proof.
  unfold reparameterize, randn_like. intros H.
  apply bind_ok in H as (p & _ & H). apply bind_ok in H as (y & _ & H).
  by injection H as _ <-.
Qed.

(** A sample depends on the generator through the values it delivers. *)
Lemma reparameterize_ext m sd g h x g1 :
  (forall i, g i = h i) -> reparameterize m sd g = Ok (x, g1) ->
  exists h1, reparameterize m sd h = Ok (x, h1).
Proof.
  intros E H. unfold reparameterize, randn_like in *.
  assert (Hmap : map (fun i => map (fun j => h (i * ncols m + j)%nat)
                                   (seq 0 (ncols m))) (seq 0 (nrows m))
                 = map (fun i => map (fun j => g (i * ncols m + j)%nat)
                                     (seq 0 (ncols m))) (seq 0 (nrows m))).
  { apply map_ext. intros i. apply map_ext. intros j. symmetry. apply E. }
  rewrite Hmap.
  apply bind_ok in H as (p & Hp & H). apply bind_ok in H as (y & Hy & H).
  injection H as -> _. rewrite Hp. cbn [mbind result_bind]. rewrite Hy. cbn. eauto.
Qed.

Section Noise.

Variable self : TransitionModel.t.
Variables belief_size state_size action_size hidden_size embedding_size : nat.
Variable batch : nat.
Variable actions : Tensor3.

Lemma noise_inv_step observations nonterminals prev_state prev_belief g0 t st st' :
  TransitionModel.__init__ belief_size state_size action_size hidden_size
                           embedding_size self ->
  well_shaped belief_size state_size action_size embedding_size batch actions
              observations nonterminals prev_state prev_belief ->
  (t < size0 actions)%nat ->
  noise_inv belief_size state_size batch actions observations g0 t st ->
  TransitionModel.forward_body self actions observations nonterminals t st = Ok st' ->
  noise_inv belief_size state_size batch actions observations g0 (S t) st'.
Proof.
  destruct st as [s g], st' as [s' g'].
  intros Hinit Hshape Ht (Hinv & Hg & Hn) Hb.
  destruct (forward_body_total self belief_size state_size action_size hidden_size
              embedding_size batch actions observations nonterminals prev_state
              prev_belief t (s, g) Hinit Hshape Ht Hinv) as (st'' & Hb'' & Hinv').
  rewrite Hb in Hb''. injection Hb'' as <-.
  pose proof (forward_body_step _ _ _ _ _ _ _ _ _ Hb) as Hstep.
  split; [exact Hinv'|]. cbn [fst snd] in *.
  destruct Hinv' as (_ & _ & _ & Hgood). specialize (Hgood (t + 1)%nat ltac:(lia)).
  unfold good_slot in Hgood. cbn [fst] in Hgood.
  destruct Hgood as (_ & _ & (y & Hy & Sy) & _ & Hq).
  pose proof Hstep as (st0 & st & a & b & b' & pm & psd & ps & g1 & _ & _ & _ & _ & _
                       & _ & Hrp & Lb & Lps & Lpm & Lpsd & Eb & Eps & Epm & Epsd
                       & Hpost).
  rewrite Epm, list_lookup_insert_eq in Hy by assumption. injection Hy as <-.
  pose proof (reparameterize_gen _ _ _ _ _ Hrp) as Hg1.
  destruct Sy as (Yr & Yc & _). rewrite Yr, Yc in Hg1.
  destruct (reparameterize_ext pm psd g
              (skip (t * draws observations * (batch * state_size)) g0) ps g1)
    as (h1 & Hh1); [intros i; unfold skip; apply Hg | exact Hrp |].
  assert (Hold : forall k, (k < t)%nat ->
            noise_at observations g0 (batch * state_size) s' k).
  { intros k Hk. destruct (Hn k Hk) as (pm0 & psd0 & ps0 & g10 & K1 & K2 & K3 & K4 & K5).
    destruct (step_lookup_ne _ _ _ _ _ _ _ _ _ (k + 1)%nat Hstep ltac:(lia))
      as (_ & F2 & F3 & F4 & F5 & F6 & F7).
    exists pm0, psd0, ps0, g10. rewrite F2, F3, F4.
    repeat (split; [assumption|]).
    destruct observations; [|exact I].
    destruct K5 as (qm & qsd & qs & g2 & ? & ? & ? & ?).
    exists qm, qsd, qs, g2. rewrite F5, F6, F7. auto. }
  unfold posterior_step in Hpost. destruct observations as [obs|].
  - destruct Hpost as (e & qm & qsd & qs & _ & _ & Hrq & Lqs & Lqm & Lqsd
                       & Eqs & Eqm & Eqsd).
    destruct (Hq ltac:(done)) as (_ & (z & Hz & Sz) & _).
    rewrite Eqm, list_lookup_insert_eq in Hz by assumption. injection Hz as <-.
    pose proof (reparameterize_gen _ _ _ _ _ Hrq) as Hg2.
    destruct Sz as (Zr & Zc & _). rewrite Zr, Zc in Hg2.
    destruct (reparameterize_ext qm qsd g1
                (skip (t * draws (Some obs) * (batch * state_size)
                       + batch * state_size) g0) qs g')
      as (h2 & Hh2); [|exact Hrq|].
    { intros i. unfold skip. rewrite Hg1, Hg. f_equal. lia. }
    split.
    + intros i. rewrite Hg2, Hg1, Hg. f_equal. cbn [draws]. lia.
    + intros k Hk. destruct (decide (k = t)) as [->|Hne]; [|apply Hold; lia].
      exists pm, psd, ps, h1.
      rewrite Epm, Epsd, Eps, !list_lookup_insert_eq by assumption.
      repeat (split; [first [reflexivity | assumption]|]).
      exists qm, qsd, qs, h2.
      rewrite Eqm, Eqsd, Eqs, !list_lookup_insert_eq by assumption. auto.
  - destruct Hpost as (-> & _). split.
    + intros i. rewrite Hg1, Hg. f_equal. cbn [draws]. lia.
    + intros k Hk. destruct (decide (k = t)) as [->|Hne]; [|apply Hold; lia].
      exists pm, psd, ps, h1.
      rewrite Epm, Epsd, Eps, !list_lookup_insert_eq by assumption. auto.
Qed.

Lemma forward_slots_noise observations nonterminals prev_state prev_belief g s g' :
  TransitionModel.__init__ belief_size state_size action_size hidden_size
                           embedding_size self ->
  well_shaped belief_size state_size action_size embedding_size batch actions
              observations nonterminals prev_state prev_belief ->
  TransitionModel.forward_slots self actions observations nonterminals
                                prev_state prev_belief g = Ok (s, g') ->
  noise_inv belief_size state_size batch actions observations g (size0 actions)
            (s, g').
Proof.
  intros Hinit Hshape H. unfold TransitionModel.forward_slots in H.
  destruct (initial_slots_ok self actions observations nonterminals
              prev_state prev_belief) as (s0 & Hs0 & Hinv).
  rewrite Hs0 in H. cbn [mbind result_bind] in H. unfold range in H.
  replace (size0 actions + 1 - 1)%nat with (size0 actions) in H by lia.
  apply (for_range_inv
           (TransitionModel.forward_body self actions observations nonterminals)
           (noise_inv belief_size state_size batch actions observations g)
           (size0 actions) 0%nat (s0, g) (s, g')); [| |exact H].
  - intros t s1 s2 Ht. apply (noise_inv_step _ nonterminals prev_state prev_belief);
      [exact Hinit | exact Hshape | lia].
  - destruct (Hinv g) as (HL & B0 & P0 & Q0 & _). cbn [fst] in *.
    destruct Hshape as (Sst & Sb & _).
    split; [|split; [intros i; cbn [snd]; f_equal; lia | intros t Ht; lia]].
    unfold total_inv. cbn [fst]. split; [assumption|].
    split; [eauto|]. split; [|intros i Hi; lia].
    exists prev_state. split; [|assumption]. unfold selected.
    by destruct observations.
Qed.

End Noise.

(** X3: the noise of a rollout. For a model as its constructor builds it
    and inputs of the shapes of the model, every returned prior state is its
    returned mean plus its returned stddev times standard-normal noise, and
    so is every returned posterior state. Each of them has noise of its own:
    step [t] finds the generator advanced by the draws of the steps before
    it, its posterior draws after its prior, and the rollout leaves the
    generator advanced by one batch x state_size tensor for each returned
    state. *)
Theorem rollout_noise
    self belief_size state_size action_size hidden_size embedding_size batch
    prev_state actions prev_belief observations nonterminals g hidden g' :
  TransitionModel.__init__ belief_size state_size action_size hidden_size
                           embedding_size self ->
  well_shaped belief_size state_size action_size embedding_size batch actions
              observations nonterminals prev_state prev_belief ->
  TransitionModel.forward self prev_state actions prev_belief observations
                          nonterminals g = Ok (hidden, g') ->
  (forall i,
     g' i = skip (size0 actions * draws observations * (batch * state_size)) g i) /\
  exists states means stds,
    hidden !! 1%nat = Some states /\ hidden !! 2%nat = Some means /\
    hidden !! 3%nat = Some stds /\
    forall t, (t < size0 actions)%nat ->
      exists m sd x g1,
        getitem means (Z.of_nat t) = Ok m /\
        getitem stds (Z.of_nat t) = Ok sd /\
        getitem states (Z.of_nat t) = Ok x /\
        reparameterize m sd
          (skip (t * draws observations * (batch * state_size)) g) = Ok (x, g1) /\
        match observations with
        | None => True
        | Some _ =>
            exists qstates qmeans qstds qm qsd qx g2,
              hidden !! 4%nat = Some qstates /\ hidden !! 5%nat = Some qmeans /\
              hidden !! 6%nat = Some qstds /\
              getitem qmeans (Z.of_nat t) = Ok qm /\
              getitem qstds (Z.of_nat t) = Ok qsd /\
              getitem qstates (Z.of_nat t) = Ok qx /\
              reparameterize qm qsd
                (skip (t * draws observations * (batch * state_size)
                       + batch * state_size) g) = Ok (qx, g2)
        end.
Proof.
  intros Hinit Hshape H. apply forward_ok in H as (s & Hs & Hf).
  apply (forward_slots_noise self _ _ _ _ _ batch actions observations nonterminals
           prev_state prev_belief g s g' Hinit Hshape) in Hs as (_ & Hg & Hn).
  cbn [fst snd] in *. split; [exact Hg|].
  destruct Hf as (h0 & h1 & h2 & h3 & _ & [_ E1] & [_ E2] & [_ E3] & _ & Hh).
  exists h1, h2, h3.
  assert (hidden !! 1%nat = Some h1 /\ hidden !! 2%nat = Some h2
          /\ hidden !! 3%nat = Some h3) as (H1 & H2 & H3).
  { destruct observations.
    - by destruct Hh as (h4 & h5 & h6 & _ & _ & _ & _ & ->).
    - by subst hidden. }
  repeat (split; [assumption|]). intros t Ht.
  destruct (Hn t Ht) as (pm & psd & ps & g1 & K1 & K2 & K3 & K4 & K5).
  rewrite Nat.add_1_r in K1, K2, K3.
  exists pm, psd, ps, g1. repeat (split; [by auto|]).
  destruct observations as [obs|]; [|exact I].
  destruct Hh as (h4 & h5 & h6 & [_ E4] & [_ E5] & [_ E6] & _ & ->).
  destruct K5 as (qm & qsd & qs & g2 & Q1 & Q2 & Q3 & Q4).
  rewrite Nat.add_1_r in Q1, Q2, Q3.
  exists h4, h5, h6, qm, qsd, qs, g2. auto 12.
Qed.

Lemma rollout_noise_witness :
  exists hidden g' states means stds m sd x g1,
    TransitionModel.forward Example.rssm Example.state0 Example.actions2
      Example.belief0 (Some Example.observations2) (Some Example.nonterminals2)
      Example.counting = Ok (hidden, g') /\
    g' 0%nat = Example.counting 8%nat /\
    hidden !! 1%nat = Some states /\ hidden !! 2%nat = Some means /\
    hidden !! 3%nat = Some stds /\
    getitem means 1 = Ok m /\ getitem stds 1 = Ok sd /\
    getitem states 1 = Ok x /\
    reparameterize m sd (skip 4 Example.counting) = Ok (x, g1).
Proof.
  assert (exists hidden g',
            TransitionModel.forward Example.rssm Example.state0 Example.actions2
              Example.belief0 (Some Example.observations2)
              (Some Example.nonterminals2) Example.counting = Ok (hidden, g'))
    as (hidden & g' & H) by (eexists; eexists; run_model; reflexivity).
  assert (Hi : TransitionModel.__init__ 1 1 1 1 1 Example.rssm)
    by (repeat split; repeat constructor).
  assert (Hw : well_shaped 1 1 1 1 2 Example.actions2 (Some Example.observations2)
                 (Some Example.nonterminals2) Example.state0 Example.belief0)
    by (repeat split; repeat constructor).
  destruct (rollout_noise _ _ _ _ _ _ _ _ _ _ _ _ _ _ _ Hi Hw H)
    as (Hg & states & means & stds & H1 & H2 & H3 & Ht).
  destruct (Ht 1%nat) as (m & sd & x & g1 & ? & ? & ? & ? & _); [cbn; lia|].
  exists hidden, g', states, means, stds, m, sd, x, g1.
  split; [exact H|]. split; [exact (Hg 0%nat)|]. auto 12.
Defined.

(** ** Which entries of the sequences the rollout reads *)

Lemma getitem_prefix n x y t :
  size2 x = size2 y -> take n (planes x) = take n (planes y) -> (t < n)%nat ->
  getitem x (Z.of_nat t) = getitem y (Z.of_nat t).
Proof.
  intros H2 Hp Ht. rewrite !getitem_nat, H2.
  rewrite <- (lookup_take_lt (planes x) n t), <- (lookup_take_lt (planes y) n t) by lia.
  by rewrite Hp.
Qed.

Lemma forward_body_prefix self actions obs1 obs2 mask1 mask2 n t st :
  same_prefix n obs1 obs2 -> same_prefix n mask1 mask2 -> (t < n)%nat ->
  TransitionModel.forward_body self actions obs1 mask1 t st
  = TransitionModel.forward_body self actions obs2 mask2 t st.
Proof.
  intros Ho Hm Ht. destruct st as [s g]. unfold TransitionModel.forward_body.
  assert (Hmask : forall st0 : Tensor2,
            match mask1 with
            | None => Ok st0
            | Some n0 => m ← getitem n0 (Z.of_nat t); mul st0 m
            end
            = match mask2 with
              | None => Ok st0
              | Some n0 => m ← getitem n0 (Z.of_nat t); mul st0 m
              end).
  { intros st0. destruct mask1 as [m1|], mask2 as [m2|]; try done.
    destruct Hm as [M2 Mp]. by rewrite (getitem_prefix n m1 m2 t M2 Mp Ht). }
  destruct obs1 as [o1|], obs2 as [o2|]; try done.
  - destruct Ho as [O2 Op]. cbv zeta.
    rewrite observation_index, (getitem_prefix n o1 o2 t O2 Op Ht).
    destruct (pyget (TransitionModel.posterior_states s) t) as [st0|]; [|reflexivity].
    cbn [mbind result_bind]. by rewrite Hmask.
  - destruct (pyget (TransitionModel.prior_states s) t) as [st0|]; [|reflexivity].
    cbn [mbind result_bind]. by rewrite Hmask.
Qed.

(** X4: the rollout reads the observations and the mask at the indices of
    the actions and nowhere else: two calls whose observation sequences
    agree on their first len(actions) entries, and whose masks do, give the
    same result, whatever the sequences hold after that and however long
    they are. *)
Theorem rollout_reads_prefix
    self prev_state actions prev_belief obs1 obs2 mask1 mask2 g :
  same_prefix (size0 actions) obs1 obs2 ->
  same_prefix (size0 actions) mask1 mask2 ->
  TransitionModel.forward self prev_state actions prev_belief obs1 mask1 g
  = TransitionModel.forward self prev_state actions prev_belief obs2 mask2 g.
Proof.
  intros Ho Hm. unfold TransitionModel.forward.
  assert (Hs : TransitionModel.forward_slots self actions obs1 mask1
                 prev_state prev_belief g
               = TransitionModel.forward_slots self actions obs2 mask2
                   prev_state prev_belief g).
  { unfold TransitionModel.forward_slots.
    destruct (TransitionModel.initial_slots actions prev_state prev_belief)
      as [s0|]; [|reflexivity].
    cbn [mbind result_bind]. unfold range.
    replace (size0 actions + 1 - 1)%nat with (size0 actions) by lia.
    apply (for_range_ext _ _ (fun _ _ => True)); [|done..].
    intros t s1 Ht _. apply (forward_body_prefix _ _ _ _ _ _ (size0 actions));
      [assumption..|lia]. }
  rewrite Hs.
  destruct (TransitionModel.forward_slots self actions obs2 mask2
              prev_state prev_belief g) as [[s g1]|]; [|reflexivity].
  cbn [mbind result_bind].
  assert (Hh : TransitionModel.forward_hidden obs1 s
               = TransitionModel.forward_hidden obs2 s).
  { unfold TransitionModel.forward_hidden. by destruct obs1, obs2. }
  by rewrite Hh.
Qed.

Lemma rollout_reads_prefix_witness :
  same_prefix 2 (Some Example.observations2)
                (Some (padded 3 Example.observations2)) /\
  same_prefix 2 (Some Example.nonterminals2) (Some (padded 1 Example.nonterminals2)) /\
  TransitionModel.forward Example.rssm Example.state0 Example.actions2
    Example.belief0 (Some Example.observations2) (Some Example.nonterminals2)
    Example.counting
  = TransitionModel.forward Example.rssm Example.state0 Example.actions2
      Example.belief0 (Some (padded 3 Example.observations2))
      (Some (padded 1 Example.nonterminals2)) Example.counting.
Proof.
  assert (H1 : same_prefix 2 (Some Example.observations2)
                 (Some (padded 3 Example.observations2))) by (by split).
  assert (H2 : same_prefix 2 (Some Example.nonterminals2)
                 (Some (padded 1 Example.nonterminals2))) by (by split).
  split; [exact H1|]. split; [exact H2|].
  exact (rollout_reads_prefix Example.rssm Example.state0 Example.actions2
           Example.belief0 _ _ _ _ Example.counting H1 H2).
Defined.

(** ** Too few observations *)

Lemma for_range_app {St} (body : nat -> St -> result St) l1 l2 s :
  for_range body (l1 ++ l2) s = for_range body l1 s ≫= for_range body l2.
Proof.
  revert s. induction l1 as [|t l1 IH]; intros s; cbn; [reflexivity|].
  destruct (body t s) as [s1|]; cbn; [apply IH | reflexivity].
Qed.

Lemma same_prefix_refl n x : same_prefix n x x.
Proof. by destruct x. Qed.

Lemma same_prefix_padded n x : same_prefix (size0 x) (Some x) (Some (padded n x)).
Proof.
  split; [reflexivity|]. unfold padded, size0. cbn [planes].
  by rewrite take_app_length, firstn_all.
Qed.

Lemma padded_wf3 n x : wf3 x -> wf3 (padded n x).
Proof.
  intros Hw. unfold wf3, padded. cbn [planes size1 size2].
  apply Forall_app_2; [exact Hw|]. apply Forall_replicate.
  rewrite length_replicate. split; [reflexivity|].
  apply Forall_replicate. by rewrite length_replicate.
Qed.

(** Up to the read of the observation the body does not depend on the
    observations: where it returns with one sequence, it fails with a
    sequence that has no entry at the index of the step. *)
Lemma forward_body_read_fails self actions obs obs' nonterminals t st st' :
  TransitionModel.forward_body self actions (Some obs') nonterminals t st = Ok st' ->
  (size0 obs <= t)%nat ->
  TransitionModel.forward_body self actions (Some obs) nonterminals t st
  = Raise IndexError.
Proof.
  destruct st as [s g]. unfold TransitionModel.forward_body. intros H Hk.
  apply bind_ok in H as (st0 & Hst0 & H). rewrite Hst0. cbn [mbind result_bind].
  apply bind_ok in H as (st & Hst & H). rewrite Hst. cbn [mbind result_bind].
  apply bind_ok in H as (a & Ha & H). rewrite Ha. cbn [mbind result_bind].
  apply bind_ok in H as (x & Hx & H). rewrite Hx. cbn [mbind result_bind].
  apply bind_ok in H as (h & Hh & H). rewrite Hh. cbn [mbind result_bind].
  apply bind_ok in H as (b & Hb & H). rewrite Hb. cbn [mbind result_bind].
  apply bind_ok in H as (b' & Hb' & H). rewrite Hb'. cbn [mbind result_bind].
  apply bind_ok in H as (beliefs' & Hbs & H). rewrite Hbs. cbn [mbind result_bind].
  rewrite (pyset_pyget _ _ _ _ Hbs) in H |- *. cbn [mbind result_bind] in H |- *.
  apply bind_ok in H as (h1 & Hh1 & H). rewrite Hh1. cbn [mbind result_bind].
  apply bind_ok in H as (o & Ho & H). rewrite Ho. cbn [mbind result_bind].
  apply bind_ok in H as ([pm raw] & Hc & H). rewrite Hc. cbn [mbind result_bind].
  apply bind_ok in H as (pms & Hpms & H). rewrite Hpms. cbn [mbind result_bind].
  apply bind_ok in H as (psds & Hpsds & H). rewrite Hpsds. cbn [mbind result_bind].
  rewrite (pyset_pyget _ _ _ _ Hpms), (pyset_pyget _ _ _ _ Hpsds) in H |- *.
  cbn [mbind result_bind] in H |- *.
  destruct (randn_like pm g) as [eps g1].
  apply bind_ok in H as (p & Hp & H). rewrite Hp. cbn [mbind result_bind].
  apply bind_ok in H as (ps & Hps & H). rewrite Hps. cbn [mbind result_bind].
  apply bind_ok in H as (pss & Hpss & H). rewrite Hpss. cbn [mbind result_bind].
  rewrite observation_index, getitem_nat.
  rewrite (lookup_ge_None_2 (planes obs) t) by (unfold size0 in Hk; lia).
  reflexivity.
Qed.

(** X5: an observation sequence shorter than the action sequence. For a
    model as its constructor builds it and inputs that otherwise have the
    shapes of the model, the rollout raises [IndexError]: the steps that
    have an observation are computed, and the read of the first missing
    observation fails. No sequences are returned, not even those of the
    steps that were computed. *)
Theorem rollout_short_observations
    self belief_size state_size action_size hidden_size embedding_size batch
    prev_state actions prev_belief obs nonterminals g :
  TransitionModel.__init__ belief_size state_size action_size hidden_size
                           embedding_size self ->
  well_shaped belief_size state_size action_size embedding_size batch actions
              None nonterminals prev_state prev_belief ->
  wf3 obs -> size1 obs = batch -> size2 obs = embedding_size ->
  (size0 obs < size0 actions)%nat ->
  TransitionModel.forward self prev_state actions prev_belief (Some obs)
                          nonterminals g
  = Raise IndexError.
Proof.
  intros Hinit Hshape Ow O1 O2 Hk.
  set (k := size0 obs). set (obs' := padded (size0 actions - k) obs).
  assert (Hshape' : well_shaped belief_size state_size action_size embedding_size
                      batch actions (Some obs') nonterminals prev_state prev_belief).
  { destruct Hshape as (S1 & S2 & S3 & _ & S5). repeat (split; [assumption|]).
    split; [|exact S5]. split; [by apply padded_wf3|].
    repeat (split; [assumption|]).
    unfold obs', padded, size0. cbn [planes].
    rewrite length_app, length_replicate. fold (size0 obs). lia. }
  unfold TransitionModel.forward.
  assert (TransitionModel.forward_slots self actions (Some obs) nonterminals
            prev_state prev_belief g = Raise IndexError) as ->; [|reflexivity].
  unfold TransitionModel.forward_slots.
  destruct (initial_slots_ok self actions (Some obs') nonterminals
              prev_state prev_belief) as (s0 & Hs0 & Hinv).
  rewrite Hs0. cbn [mbind result_bind]. unfold range.
  replace (size0 actions + 1 - 1)%nat with (k + (size0 actions - k))%nat by lia.
  rewrite seq_app, for_range_app.
  assert (Hpre : for_range (TransitionModel.forward_body self actions (Some obs)
                              nonterminals) (seq 0 k) (s0, g)
                 = for_range (TransitionModel.forward_body self actions (Some obs')
                                nonterminals) (seq 0 k) (s0, g)).
  { apply (for_range_ext _ _ (fun _ _ => True)); [|done..].
    intros t s1 Ht _. apply (forward_body_prefix _ _ _ _ _ _ k); [| |lia].
    - apply same_prefix_padded.
    - apply same_prefix_refl. }
  rewrite Hpre.
  destruct (for_range_total
              (TransitionModel.forward_body self actions (Some obs') nonterminals)
              (total_inv belief_size state_size batch actions (Some obs'))
              k 0%nat (s0, g))
    as (sk & -> & Hfin).
  - intros t s1 Ht. apply (forward_body_total self _ _ action_size hidden_size
                             embedding_size _ _ _ _ prev_state prev_belief);
      [assumption..|lia].
  - destruct (Hinv g) as (HL & B0 & P0 & Q0 & _). cbn [fst] in *.
    destruct Hshape as (Sst & Sb & _).
    unfold total_inv. cbn [fst]. split; [assumption|].
    split; [eauto|]. split; [eauto|intros i Hi; lia].
  - cbn [mbind result_bind]. cbn [Nat.add] in Hfin |- *.
    destruct (forward_body_total self belief_size state_size action_size hidden_size
                embedding_size batch actions (Some obs') nonterminals prev_state
                prev_belief k sk Hinit Hshape' Hk Hfin) as (st' & Hst' & _).
    destruct (size0 actions - k)%nat as [|m] eqn:Em; [lia|]. cbn [seq for_range].
    by rewrite (forward_body_read_fails _ _ obs obs' _ _ _ _ Hst').
Qed.

Lemma rollout_short_observations_witness :
  TransitionModel.forward Example.rssm Example.state0 Example.actions2
    Example.belief0 (Some (mk3 2 1 [[[1]; [1]]])) (Some Example.nonterminals2)
    Example.counting
  = Raise IndexError.
Proof.
  apply (rollout_short_observations Example.rssm 1 1 1 1 1 2).
  - repeat split; repeat constructor.
  - repeat split; repeat constructor.
  - repeat constructor.
  - reflexivity.
  - reflexivity.
  - cbn. lia.
Defined.

(** X19: a mask shorter than the action sequence. For a model as its
    constructor builds it and inputs that otherwise have the shapes of the
    model, the rollout raises [IndexError]: the steps that have a mask entry
    are computed, and the step after them fails when it reads the mask,
    before it computes anything. *)
Theorem rollout_short_mask
    self belief_size state_size action_size hidden_size embedding_size batch
    prev_state actions prev_belief observations mask g :
  TransitionModel.__init__ belief_size state_size action_size hidden_size
                           embedding_size self ->
  well_shaped belief_size state_size action_size embedding_size batch actions
              observations None prev_state prev_belief ->
  wf3 mask -> size1 mask = batch -> size2 mask = 1%nat ->
  (size0 mask < size0 actions)%nat ->
  TransitionModel.forward self prev_state actions prev_belief observations
                          (Some mask) g
  = Raise IndexError.
Proof.
  intros Hinit Hshape Mw M1 M2 Hk.
  set (k := size0 mask). set (mask' := padded (size0 actions - k) mask).
  assert (Hshape' : well_shaped belief_size state_size action_size embedding_size
                      batch actions observations (Some mask') prev_state prev_belief).
  { destruct Hshape as (S1 & S2 & S3 & S4 & _). repeat (split; [assumption|]).
    split; [by apply padded_wf3|]. repeat (split; [assumption|]).
    unfold mask', padded, size0. cbn [planes].
    rewrite length_app, length_replicate. fold (size0 mask). lia. }
  unfold TransitionModel.forward.
  assert (TransitionModel.forward_slots self actions observations (Some mask)
            prev_state prev_belief g = Raise IndexError) as ->; [|reflexivity].
  unfold TransitionModel.forward_slots.
  destruct (initial_slots_ok self actions observations (Some mask')
              prev_state prev_belief) as (s0 & Hs0 & Hinv).
  rewrite Hs0. cbn [mbind result_bind]. unfold range.
  replace (size0 actions + 1 - 1)%nat with (k + (size0 actions - k))%nat by lia.
  rewrite seq_app, for_range_app.
  assert (Hpre : for_range (TransitionModel.forward_body self actions observations
                              (Some mask)) (seq 0 k) (s0, g)
                 = for_range (TransitionModel.forward_body self actions observations
                                (Some mask')) (seq 0 k) (s0, g)).
  { apply (for_range_ext _ _ (fun _ _ => True)); [|done..].
    intros t s1 Ht _. apply (forward_body_prefix _ _ _ _ _ _ k); [| |lia].
    - apply same_prefix_refl.
    - apply same_prefix_padded. }
  rewrite Hpre.
  destruct (for_range_total
              (TransitionModel.forward_body self actions observations (Some mask'))
              (total_inv belief_size state_size batch actions observations)
              k 0%nat (s0, g))
    as ([sk gk] & -> & Hfin).
  - intros t s1 Ht. apply (forward_body_total self _ _ action_size hidden_size
                             embedding_size _ _ _ _ prev_state prev_belief);
      [assumption..|lia].
  - destruct (Hinv g) as (HL & B0 & P0 & Q0 & _). cbn [fst] in *.
    destruct Hshape as (Sst & Sb & _).
    unfold total_inv. cbn [fst]. split; [assumption|].
    split; [eauto|]. split; [|intros i Hi; lia].
    exists prev_state. split; [|assumption]. unfold selected.
    by destruct observations.
  - cbn [mbind result_bind]. cbn [Nat.add] in Hfin |- *.
    destruct Hfin as (_ & _ & (st0 & Hst0 & _) & _). cbn [fst] in Hst0.
    destruct (size0 actions - k)%nat as [|m] eqn:Em; [lia|]. cbn [seq for_range].
    unfold TransitionModel.forward_body. unfold selected in Hst0.
    rewrite (proj2 (pyget_ok _ _ _) Hst0). cbn [mbind result_bind].
    rewrite (getitem_nat mask k).
    by rewrite (lookup_ge_None_2 (planes mask) k) by (unfold k, size0; lia).
Qed.

Lemma rollout_short_mask_witness :
  TransitionModel.forward Example.rssm Example.state0 Example.actions2
    Example.belief0 (Some Example.observations2) (Some (mk3 2 1 [[[1]; [0]]]))
    Example.counting
  = Raise IndexError.
Proof.
  apply (rollout_short_mask Example.rssm 1 1 1 1 1 2).
  - repeat split; repeat constructor.
  - repeat split; repeat constructor.
  - repeat constructor.
  - reflexivity.
  - reflexivity.
  - cbn. lia.
Defined.

(** ** The shapes of what the rollout returns *)

Lemma stack_shaped3 r c l h :
  stack l = Ok h -> Forall (shaped r c) l -> shaped3 (length l) r c h.
Proof.
  intros Hst Hl. pose proof (stack_size0 _ _ Hst) as H0.
  apply stack_ok in Hst as (Hne & Hp & Hs).
  destruct l as [|x l]; [done|].
  pose proof (Forall_inv Hl) as (Xr & Xc & _). pose proof (Forall_inv Hs) as (Y1 & Y2).
  unfold shaped3. repeat split; [assumption|congruence|congruence|].
  unfold wf3. rewrite Hp. apply Forall_forall. intros p Hp'.
  apply list_elem_of_In, in_map_iff in Hp' as (y & <- & Hy).
  rewrite Forall_forall in Hl, Hs. apply list_elem_of_In in Hy.
  destruct (Hl y Hy) as (Yr & Yc & Yw). destruct (Hs y Hy) as (Z1 & Z2).
  unfold nrows, wf2 in *. split; [congruence|]. by rewrite <- Z2.
Qed.

(** X16: the shapes of the returned sequences. For a model as its
    constructor builds it and inputs of the shapes of the model, the
    returned beliefs are a sequence of len(actions) tensors of batch x
    belief_size, and every other returned sequence -- states, means and
    stddevs, prior and posterior -- is a sequence of len(actions) tensors
    of batch x state_size. *)
Theorem rollout_output_shapes
    self belief_size state_size action_size hidden_size embedding_size batch
    prev_state actions prev_belief observations nonterminals g hidden g' :
  TransitionModel.__init__ belief_size state_size action_size hidden_size
                           embedding_size self ->
  well_shaped belief_size state_size action_size embedding_size batch actions
              observations nonterminals prev_state prev_belief ->
  TransitionModel.forward self prev_state actions prev_belief observations
                          nonterminals g = Ok (hidden, g') ->
  exists bel rest,
    hidden = bel :: rest /\
    shaped3 (size0 actions) batch belief_size bel /\
    Forall (shaped3 (size0 actions) batch state_size) rest.
Proof.
  intros Hinit Hshape H. unfold TransitionModel.forward in H.
  apply bind_ok in H as ([s g1] & Hs & H). apply bind_ok in H as (h & Hh & H).
  injection H as -> ->.
  destruct (forward_slots_total self _ _ _ _ _ batch actions observations
              nonterminals prev_state prev_belief g Hinit Hshape)
    as (s' & g'' & Hs' & HL & _ & _ & Hgood).
  rewrite Hs in Hs'. injection Hs' as <- <-. cbn [fst] in HL, Hgood.
  destruct HL as (Lb & Lps & Lpm & Lpsd & Lqs & Lqm & Lqsd).
  assert (Hstack : forall (l : list Tensor2) c y,
            length l = (size0 actions + 1)%nat ->
            (forall i, (1 <= i <= size0 actions)%nat ->
                       exists z, l !! i = Some z /\ shaped batch c z) ->
            stack (drop 1 l) = Ok y -> shaped3 (size0 actions) batch c y).
  { intros l c y Hl Hall Hy.
    replace (size0 actions) with (length (drop 1 l)) by (rewrite length_drop; lia).
    apply stack_shaped3; [exact Hy|].
    apply Forall_forall. intros z Hz.
    apply list_elem_of_lookup in Hz as (i & Hz). rewrite lookup_drop in Hz.
    pose proof (lookup_lt_Some _ _ _ Hz) as Hi.
    destruct (Hall (1 + i)%nat ltac:(lia)) as (z' & Hz' & Sz). congruence. }
  unfold TransitionModel.forward_hidden in Hh.
  apply bind_ok in Hh as (h0 & H0 & Hh). apply bind_ok in Hh as (h1 & H1 & Hh).
  apply bind_ok in Hh as (h2 & H2 & Hh). apply bind_ok in Hh as (h3 & H3 & Hh).
  apply (Hstack _ belief_size _ Lb) in H0; [|intros i Hi; apply Hgood, Hi].
  apply (Hstack _ state_size _ Lps) in H1; [|intros i Hi; apply Hgood, Hi].
  apply (Hstack _ state_size _ Lpm) in H2; [|intros i Hi; apply Hgood, Hi].
  apply (Hstack _ state_size _ Lpsd) in H3; [|intros i Hi; apply Hgood, Hi].
  destruct observations as [obs|].
  - apply bind_ok in Hh as (h4 & H4 & Hh). apply bind_ok in Hh as (h5 & H5 & Hh).
    apply bind_ok in Hh as (h6 & H6 & Hh). injection Hh as <-.
    apply (Hstack _ state_size _ Lqs) in H4; [|intros i Hi; by apply (Hgood i Hi)].
    apply (Hstack _ state_size _ Lqm) in H5; [|intros i Hi; by apply (Hgood i Hi)].
    apply (Hstack _ state_size _ Lqsd) in H6; [|intros i Hi; by apply (Hgood i Hi)].
    eexists. eexists. split; [reflexivity|]. split; [assumption|].
    repeat (apply Forall_cons_2; [assumption|]). apply Forall_nil_2.
  - injection Hh as <-.
    eexists. eexists. split; [reflexivity|]. split; [assumption|].
    repeat (apply Forall_cons_2; [assumption|]). apply Forall_nil_2.
Qed.

Lemma rollout_output_shapes_witness :
  exists hidden g' bel rest,
    TransitionModel.forward Example.rssm Example.state0 Example.actions2
      Example.belief0 (Some Example.observations2) (Some Example.nonterminals2)
      Example.counting = Ok (hidden, g') /\
    hidden = bel :: rest /\
    shaped3 2 2 1 bel /\ Forall (shaped3 2 2 1) rest.
Proof.
  assert (exists hidden g',
            TransitionModel.forward Example.rssm Example.state0 Example.actions2
              Example.belief0 (Some Example.observations2)
              (Some Example.nonterminals2) Example.counting = Ok (hidden, g'))
    as (hidden & g' & H) by (eexists; eexists; run_model; reflexivity).
  assert (Hi : TransitionModel.__init__ 1 1 1 1 1 Example.rssm)
    by (repeat split; repeat constructor).
  assert (Hw : well_shaped 1 1 1 1 2 Example.actions2 (Some Example.observations2)
                 (Some Example.nonterminals2) Example.state0 Example.belief0)
    by (repeat split; repeat constructor).
  destruct (rollout_output_shapes _ _ _ _ _ _ _ _ _ _ _ _ _ _ _ Hi Hw H)
    as (bel & rest & Hh & Hb & Hr).
  exists hidden, g', bel, rest. auto.
Defined.

(** ** Batches that do not match *)

(** X17: a previous state and actions of different batch sizes. Without a
    mask, a rollout over at least one action whose previous state has
    another number of rows than the actions have raises [RuntimeError], in
    the concatenation of the first step. *)
Theorem rollout_batch_mismatch
    self prev_state actions prev_belief observations g :
  wf3 actions -> (0 < size0 actions)%nat -> nrows prev_state <> size1 actions ->
  TransitionModel.forward self prev_state actions prev_belief observations None g
  = Raise RuntimeError.
Proof.
  intros Hw Hpos Hne. unfold TransitionModel.forward, TransitionModel.forward_slots.
  destruct (initial_slots_ok self actions observations None prev_state prev_belief)
    as (s0 & -> & Hinv).
  cbn [mbind result_bind]. unfold range.
  replace (size0 actions + 1 - 1)%nat with (S (size0 actions - 1)) by lia.
  cbn [seq for_range].
  assert (TransitionModel.forward_body self actions observations None 0 (s0, g)
          = Raise RuntimeError) as ->; [|reflexivity].
  destruct (Hinv g) as (_ & _ & P0 & Q0 & _). cbn [fst] in P0, Q0.
  unfold TransitionModel.forward_body.
  assert (pyget (match observations with
                 | None => TransitionModel.prior_states s0
                 | Some _ => TransitionModel.posterior_states s0
                 end) 0 = Ok prev_state) as ->.
  { apply pyget_ok. by destruct observations. }
  cbn [mbind result_bind].
  destruct (getitem_shaped actions 0 Hw Hpos) as (a & Ha & Ar & _).
  change (Z.of_nat 0) with 0%Z in Ha |- *. rewrite Ha. cbn [mbind result_bind].
  unfold cat1. rewrite Ar.
  destruct (nrows prev_state =? size1 actions)%nat eqn:E; [|reflexivity].
  by apply Nat.eqb_eq in E.
Qed.

Lemma rollout_batch_mismatch_witness :
  TransitionModel.forward Example.rssm (mk2 1 [[1]; [2]; [3]]) Example.actions2
    Example.belief0 None None Example.counting
  = Raise RuntimeError.
Proof.
  apply rollout_batch_mismatch.
  - repeat constructor.
  - cbn. lia.
  - cbn. lia.
Defined.

(** ** Beliefs are bounded *)

(** The new hidden state of a GRU cell is a mixture of a tanh and the old
    hidden state. *)
Lemma gru_row_within hs gi gh h :
  Forall (fun v => -1 <= v <= 1) h ->
  Forall (fun v => -1 < v < 1) (gru_row hs gi gh h).
Proof.
  intros Hh. unfold gru_row. apply Forall_forall. intros v Hv.
  apply list_elem_of_lookup in Hv as (i & Hv).
  apply lookup_zip_with_Some in Hv as ([z n] & h0 & -> & Hzn & Hh0).
  apply lookup_zip_with_Some in Hzn as (z' & n' & [= <- <-] & Hz & Hn).
  apply lookup_zip_with_Some in Hz as (a & b & -> & _).
  apply lookup_zip_with_Some in Hn as (c & d & -> & _).
  rewrite Forall_forall in Hh.
  pose proof (Hh h0 (list_elem_of_lookup_2 _ _ _ Hh0)) as [H0l H0u].
  pose proof (sigmoid_bounds (a + b)) as [Zl Zu].
  pose proof (tanh_bounds (c + d)) as [Nl Nu].
  cbn [fst snd]. split; nra.
Qed.

Lemma GRUCell_forward_within c x h y :
  GRUCell_forward c x h = Ok y -> all_in (-1) 1 h -> all_within (-1) 1 y.
Proof.
  unfold GRUCell_forward.
  destruct (negb _); [discriminate|]. destruct (negb _); [discriminate|].
  destruct (negb _); [discriminate|]. intros H Hh.
  apply bind_ok in H as (gi & _ & H). apply bind_ok in H as (gh & _ & H).
  injection H as <-. unfold all_within, all_in in *. cbn [rows].
  apply Forall_forall. intros r Hr.
  apply list_elem_of_lookup in Hr as (i & Hr).
  apply lookup_zip_with_Some in Hr as (gg & h0 & -> & _ & Hh0).
  apply gru_row_within. rewrite Forall_forall in Hh.
  by eapply Hh, list_elem_of_lookup_2.
Qed.

(** X18: the beliefs stay bounded. When the rollout returns and every entry
    of the previous belief lies between -1 and 1 -- a belief of zeros, or a
    belief that an earlier rollout returned --, every entry of every
    returned belief lies between -1 and 1 again, whatever the weights, the
    actions, the states and the noise are: the GRU cell mixes a tanh with
    the belief before. *)
Theorem rollout_beliefs_bounded
    self prev_state actions prev_belief observations nonterminals g hidden g' :
  TransitionModel.forward self prev_state actions prev_belief observations
                          nonterminals g = Ok (hidden, g') ->
  all_in (-1) 1 prev_belief ->
  exists bel,
    hidden !! 0%nat = Some bel /\
    forall (t : nat), (t < size0 actions)%nat ->
      exists b, getitem bel (Z.of_nat t) = Ok b /\ all_in (-1) 1 b.
Proof.
  intros H Hprev. apply forward_ok in H as (s & Hs & Hf).
  apply forward_slots_inv in Hs as (_ & B0 & _ & _ & Hc). cbn [fst] in *.
  destruct Hf as (h0 & h1 & h2 & h3 & [_ E0] & _ & _ & _ & _ & Hh).
  exists h0. split.
  { destruct observations.
    - by destruct Hh as (h4 & h5 & h6 & _ & _ & _ & _ & ->).
    - by subst hidden. }
  assert (Hslot : forall t, (t <= size0 actions)%nat ->
            forall b, TransitionModel.beliefs s !! t = Some b -> all_in (-1) 1 b).
  { induction t as [|t IH]; intros Ht b Hb; [congruence|].
    destruct (Hc t ltac:(lia)) as (st0 & st & a & b0 & b' & pm & psd & ps & g0 & g1
                                   & _ & _ & _ & Hb0 & Hu & Hb' & _).
    rewrite Nat.add_1_r, Hb in Hb'. injection Hb' as <-.
    unfold belief_update in Hu. apply bind_ok in Hu as (x & _ & Hu).
    apply bind_ok in Hu as (h & _ & Hu).
    apply all_within_in. eapply GRUCell_forward_within; [exact Hu|].
    apply (IH ltac:(lia) b0 Hb0). }
  intros t Ht.
  destruct (Hc t Ht) as (st0 & st & a & b0 & b' & pm & psd & ps & g0 & g1
                         & _ & _ & _ & Hb0 & Hu & Hb' & _).
  exists b'. rewrite Nat.add_1_r in Hb'. split; [by apply E0|].
  unfold belief_update in Hu. apply bind_ok in Hu as (x & _ & Hu).
  apply bind_ok in Hu as (h & _ & Hu).
  apply all_within_in.
  eapply GRUCell_forward_within; [exact Hu|]. apply (Hslot t ltac:(lia) b0 Hb0).
Qed.

Lemma rollout_beliefs_bounded_witness :
  exists hidden g' bel b,
    TransitionModel.forward Example.rssm Example.state0 Example.actions2
      Example.belief0 (Some Example.observations2) (Some Example.nonterminals2)
      Example.counting = Ok (hidden, g') /\
    hidden !! 0%nat = Some bel /\
    all_in (-1) 1 Example.belief0 /\
    getitem bel 1 = Ok b /\ all_in (-1) 1 b.
Proof.
  assert (exists hidden g',
            TransitionModel.forward Example.rssm Example.state0 Example.actions2
              Example.belief0 (Some Example.observations2)
              (Some Example.nonterminals2) Example.counting = Ok (hidden, g'))
    as (hidden & g' & H) by (eexists; eexists; run_model; reflexivity).
  destruct (rollout_beliefs_bounded _ _ _ _ _ _ _ _ _ H) as (bel & H0 & Ht).
  - repeat constructor; lra.
  - destruct (Ht 1%nat) as (b & Hb & Hw); [cbn; lia|].
    exists hidden, g', bel, b. repeat (split; [assumption|]).
    split; [repeat constructor; lra|]. auto.
Defined.

(** ** The perceptrons work row by row *)

Lemma map_zip_with {A B C D} (f : C -> D) (g : A -> B -> C) l k :
  map f (zip_with g l k) = zip_with (fun a b => f (g a b)) l k.
Proof.
  revert k. induction l as [|a l IH]; intros [|b k]; cbn; [reflexivity..|].
  by rewrite IH.
Qed.

Lemma cat1_rows r c1 c2 a b :
  shaped r c1 a -> shaped r c2 b ->
  cat1 a b = Ok (mk2 (c1 + c2) (zip_with app (rows a) (rows b))).
Proof.
  intros (Ha & Hca & _) (Hb & Hcb & _). unfold cat1.
  by rewrite Ha, Hb, Hca, Hcb, Nat.eqb_refl.
Qed.

(** A layer and its activation: the rows of the result are the rows of the
    input, each sent through the layer. *)
Lemma dense_rows act i o l x :
  Linear_init i o l -> ncols x = i ->
  exists h, Linear_forward l x = Ok h /\
            tmap act h = mk2 o (map (dense act l) (rows x)).
Proof.
  intros (Hi & Ho & _) Hc. unfold Linear_forward.
  rewrite Hc, Hi, Nat.eqb_refl. eexists. split; [reflexivity|].
  unfold tmap. cbn [rows ncols]. by rewrite Ho, map_map.
Qed.

Lemma Linear_forward_rows i o l x :
  Linear_init i o l -> ncols x = i ->
  Linear_forward l x = Ok (mk2 o (map (linear_row l) (rows x))).
Proof.
  intros (Hi & Ho & _) Hc. unfold Linear_forward.
  by rewrite Hc, Hi, Nat.eqb_refl, Ho.
Qed.

Lemma zip_with_rows_shaped (f : list R -> list R -> list R) r c a b :
  nrows a = r -> nrows b = r -> (forall x y, length (f x y) = c) ->
  shaped r c (mk2 c (zip_with f (rows a) (rows b))).
Proof.
  intros Ha Hb Hf. unfold shaped, nrows, wf2 in *. cbn [rows ncols].
  rewrite length_zip_with. repeat split; [lia|].
  apply Forall_forall. intros y Hy.
  apply list_elem_of_lookup in Hy as (i & Hy).
  by apply lookup_zip_with_Some in Hy as (ra & rb & -> & _).
Qed.

Lemma observation_forward_eq
    self observation_size belief_size state_size embedding_size batch belief state :
  SymbolicObservationModel.__init__ observation_size belief_size state_size
                                    embedding_size self ->
  shaped batch belief_size belief -> shaped batch state_size state ->
  SymbolicObservationModel.forward self belief state
  = Ok (mk2 observation_size
            (zip_with (fun b s => observation_row self (b ++ s))
                      (rows belief) (rows state))).
Proof.
  intros (L1 & L2 & L3) Hb Hs. unfold SymbolicObservationModel.forward.
  rewrite (cat1_rows _ _ _ _ _ Hb Hs). cbn [mbind result_bind].
  destruct (dense_rows (SymbolicObservationModel.act_fn self) _ _ _
              (mk2 (belief_size + state_size) (zip_with app (rows belief) (rows state)))
              L1 eq_refl) as (h1 & -> & T1).
  cbn [mbind result_bind rows] in T1 |- *. rewrite T1.
  destruct (dense_rows (SymbolicObservationModel.act_fn self) _ _ _
              (mk2 embedding_size
                   (map (dense (SymbolicObservationModel.act_fn self)
                               (SymbolicObservationModel.fc1 self))
                        (zip_with app (rows belief) (rows state))))
              L2 eq_refl) as (h2 & -> & T2).
  cbn [mbind result_bind rows] in T2 |- *. rewrite T2.
  rewrite (Linear_forward_rows _ _ _ (mk2 embedding_size _) L3 eq_refl).
  cbn [mbind result_bind rows].
  by rewrite !map_map, map_zip_with.
Qed.

Lemma observation_row_length
    self observation_size belief_size state_size embedding_size r :
  SymbolicObservationModel.__init__ observation_size belief_size state_size
                                    embedding_size self ->
  length (observation_row self r) = observation_size.
Proof. intros (_ & _ & L3). unfold observation_row. by eapply linear_row_length. Qed.

(** X6: [SymbolicObservationModel.forward] on a batch. For a model as its
    constructor builds it, a batch of beliefs and a batch of states of the
    sizes of the model, it returns a batch of observations of the
    observation size, and the observation of a batch element is computed
    from the belief and the state of that element alone: the three layers
    applied to their concatenation, with the activation after the first two
    and none after the last. *)
Theorem observation_model_rowwise
    self observation_size belief_size state_size embedding_size batch belief state :
  SymbolicObservationModel.__init__ observation_size belief_size state_size
                                    embedding_size self ->
  shaped batch belief_size belief -> shaped batch state_size state ->
  exists y,
    SymbolicObservationModel.forward self belief state = Ok y /\
    shaped batch observation_size y /\
    rows y = zip_with (fun b s => observation_row self (b ++ s))
                      (rows belief) (rows state).
Proof.
  intros Hinit Hb Hs.
  rewrite (observation_forward_eq self _ _ _ _ batch belief state Hinit Hb Hs).
  eexists. split; [reflexivity|]. split; [|reflexivity].
  apply zip_with_rows_shaped; [apply Hb | apply Hs |].
  intros x y. by apply (observation_row_length self _ _ _ _ _ Hinit).
Qed.

Lemma observation_model_rowwise_witness :
  exists y,
    SymbolicObservationModel.forward Demo.observation_model
      Example.belief0 Example.state0 = Ok y /\
    shaped 2 1 y /\
    rows y = [observation_row Demo.observation_model [0; 1];
              observation_row Demo.observation_model [0; 2]].
Proof.
  apply (observation_model_rowwise Demo.observation_model 1 1 1 1 2).
  - repeat split; repeat constructor.
  - repeat split; repeat constructor.
  - repeat split; repeat constructor.
Defined.

Lemma reward_forward_eq self belief_size state_size hidden_size batch belief state :
  RewardModel.__init__ belief_size state_size hidden_size self ->
  shaped batch belief_size belief -> shaped batch state_size state ->
  RewardModel.forward self belief state
  = Ok (Rank1 (zip_with (fun b s => reward_row self (b ++ s))
                        (rows belief) (rows state))).
Proof.
  intros (L1 & L2 & L3) Hb Hs. unfold RewardModel.forward.
  rewrite (cat1_rows _ _ _ _ _ Hb Hs). cbn [mbind result_bind].
  destruct (dense_rows (RewardModel.act_fn self) _ _ _
              (mk2 (belief_size + state_size) (zip_with app (rows belief) (rows state)))
              L1 eq_refl) as (h1 & -> & T1).
  cbn [mbind result_bind rows] in T1 |- *. rewrite T1.
  destruct (dense_rows (RewardModel.act_fn self) _ _ _
              (mk2 hidden_size
                   (map (dense (RewardModel.act_fn self) (RewardModel.fc1 self))
                        (zip_with app (rows belief) (rows state))))
              L2 eq_refl) as (h2 & -> & T2).
  cbn [mbind result_bind rows] in T2 |- *. rewrite T2.
  rewrite (Linear_forward_rows _ _ _ (mk2 hidden_size _) L3 eq_refl).
  cbn [mbind result_bind rows]. unfold squeeze1. cbn [ncols rows Nat.eqb].
  by rewrite !map_map, map_zip_with.
Qed.

(** X7: [RewardModel.forward] on a batch. For a model as its constructor
    builds it and a batch of beliefs and states of the sizes of the model,
    it returns a tensor of rank 1 -- [squeeze] removes the feature axis of
    the last layer -- with one reward for each batch element, computed from
    the belief and the state of that element alone. *)
Theorem reward_model_one_scalar_each
    self belief_size state_size hidden_size batch belief state :
  RewardModel.__init__ belief_size state_size hidden_size self ->
  shaped batch belief_size belief -> shaped batch state_size state ->
  exists v,
    RewardModel.forward self belief state = Ok (Rank1 v) /\
    length v = batch /\
    v = zip_with (fun b s => reward_row self (b ++ s)) (rows belief) (rows state).
Proof.
  intros Hinit Hb Hs.
  rewrite (reward_forward_eq self _ _ _ batch belief state Hinit Hb Hs).
  eexists. split; [reflexivity|]. split; [|reflexivity].
  rewrite length_zip_with. destruct Hb as (Hb & _), Hs as (Hs & _).
  unfold nrows in *. lia.
Qed.

Lemma reward_model_one_scalar_each_witness :
  exists v,
    RewardModel.forward Demo.reward_model Example.belief0 Example.state0
    = Ok (Rank1 v) /\
    length v = 2%nat /\
    v = [reward_row Demo.reward_model [0; 1]; reward_row Demo.reward_model [0; 2]].
Proof.
  apply (reward_model_one_scalar_each Demo.reward_model 1 1 1 2).
  - repeat split; repeat constructor.
  - repeat split; repeat constructor.
  - repeat split; repeat constructor.
Defined.

(** X8: [ValueModel.forward] on a batch: as for the reward, a tensor of rank
    1 with one value for each batch element, computed from the belief and
    the state of that element alone through the four layers. *)
Theorem value_model_one_scalar_each
    self belief_size state_size hidden_size batch belief state :
  ValueModel.__init__ belief_size state_size hidden_size self ->
  shaped batch belief_size belief -> shaped batch state_size state ->
  exists v,
    ValueModel.forward self belief state = Ok (Rank1 v) /\
    length v = batch /\
    v = zip_with (fun b s => value_row self (b ++ s)) (rows belief) (rows state).
Proof.
  intros (L1 & L2 & L3 & L4) Hb Hs. unfold ValueModel.forward.
  rewrite (cat1_rows _ _ _ _ _ Hb Hs). cbn [mbind result_bind].
  destruct (dense_rows (ValueModel.act_fn self) _ _ _
              (mk2 (belief_size + state_size) (zip_with app (rows belief) (rows state)))
              L1 eq_refl) as (h1 & -> & T1).
  cbn [mbind result_bind rows] in T1 |- *. rewrite T1.
  destruct (dense_rows (ValueModel.act_fn self) _ _ _
              (mk2 hidden_size
                   (map (dense (ValueModel.act_fn self) (ValueModel.fc1 self))
                        (zip_with app (rows belief) (rows state))))
              L2 eq_refl) as (h2 & -> & T2).
  cbn [mbind result_bind rows] in T2 |- *. rewrite T2.
  destruct (dense_rows (ValueModel.act_fn self) _ _ _
              (mk2 hidden_size
                   (map (dense (ValueModel.act_fn self) (ValueModel.fc2 self))
                      (map (dense (ValueModel.act_fn self) (ValueModel.fc1 self))
                           (zip_with app (rows belief) (rows state)))))
              L3 eq_refl) as (h3 & -> & T3).
  cbn [mbind result_bind rows] in T3 |- *. rewrite T3.
  rewrite (Linear_forward_rows _ _ _ (mk2 hidden_size _) L4 eq_refl).
  cbn [mbind result_bind rows]. unfold squeeze1. cbn [ncols rows Nat.eqb].
  rewrite !map_map, map_zip_with. fold (value_row self).
  eexists. split; [reflexivity|]. split; [|reflexivity].
  rewrite length_zip_with. destruct Hb as (Hb & _), Hs as (Hs & _).
  unfold nrows in *. lia.
Qed.

Lemma value_model_one_scalar_each_witness :
  exists v,
    ValueModel.forward Demo.value_model Example.belief0 Example.state0
    = Ok (Rank1 v) /\
    length v = 2%nat /\
    v = [value_row Demo.value_model [0; 1]; value_row Demo.value_model [0; 2]].
Proof.
  apply (value_model_one_scalar_each Demo.value_model 1 1 1 2).
  - repeat split; repeat constructor.
  - repeat split; repeat constructor.
  - repeat split; repeat constructor.
Defined.

Lemma map_rows_shaped (f : list R -> list R) r c a :
  nrows a = r -> (forall x, length (f x) = c) -> shaped r c (mk2 c (map f (rows a))).
Proof.
  intros Ha Hf. unfold shaped, nrows, wf2 in *. cbn [rows ncols].
  rewrite length_map. repeat split; [assumption|].
  apply Forall_forall. intros y Hy.
  by apply list_elem_of_In, in_map_iff in Hy as (x & <- & _).
Qed.

Lemma encoder_forward_eq self observation_size embedding_size batch observation :
  SymbolicEncoder.__init__ observation_size embedding_size self ->
  shaped batch observation_size observation ->
  SymbolicEncoder.forward self observation
  = Ok (mk2 embedding_size (map (encoder_row self) (rows observation))).
Proof.
  intros (L1 & L2 & L3) (Hr & Hc & _). unfold SymbolicEncoder.forward.
  destruct (dense_rows (SymbolicEncoder.act_fn self) _ _ _ observation L1 Hc)
    as (h1 & -> & T1).
  cbn [mbind result_bind]. rewrite T1.
  destruct (dense_rows (SymbolicEncoder.act_fn self) _ _ _
              (mk2 embedding_size
                   (map (dense (SymbolicEncoder.act_fn self) (SymbolicEncoder.fc1 self))
                        (rows observation)))
              L2 eq_refl) as (h2 & -> & T2).
  cbn [mbind result_bind rows] in T2 |- *. rewrite T2.
  rewrite (Linear_forward_rows _ _ _ (mk2 embedding_size _) L3 eq_refl).
  cbn [mbind result_bind rows]. by rewrite !map_map.
Qed.

Lemma encoder_row_length self observation_size embedding_size r :
  SymbolicEncoder.__init__ observation_size embedding_size self ->
  length (encoder_row self r) = embedding_size.
Proof. intros (_ & _ & L3). unfold encoder_row. by eapply linear_row_length. Qed.

(** X9: [SymbolicEncoder.forward] on a batch. For an encoder as its
    constructor builds it and a batch of observations of its observation
    size, it returns a batch of embeddings of the embedding size, each
    computed from the observation of its batch element alone; the last
    layer has no activation. *)
Theorem encoder_rowwise self observation_size embedding_size batch observation :
  SymbolicEncoder.__init__ observation_size embedding_size self ->
  shaped batch observation_size observation ->
  exists y,
    SymbolicEncoder.forward self observation = Ok y /\
    shaped batch embedding_size y /\
    rows y = map (encoder_row self) (rows observation).
Proof.
  intros Hinit Hs.
  rewrite (encoder_forward_eq self _ _ batch observation Hinit Hs).
  eexists. split; [reflexivity|]. split; [|reflexivity].
  apply map_rows_shaped; [apply Hs|].
  intros x. by apply (encoder_row_length self _ _ _ Hinit).
Qed.

Lemma encoder_rowwise_witness :
  exists y,
    SymbolicEncoder.forward Demo.encoder Example.state0 = Ok y /\
    shaped 2 1 y /\
    rows y = [encoder_row Demo.encoder [1]; encoder_row Demo.encoder [2]].
Proof.
  apply (encoder_rowwise Demo.encoder 1 1 2).
  - repeat split; repeat constructor.
  - repeat split; repeat constructor.
Defined.

(** ** [bottle]: flattening time and batch, and back *)

Lemma lookup_concat_uniform {A} B (P : list (list A)) t b p :
  Forall (fun p => length p = B) P -> P !! t = Some p -> (b < B)%nat ->
  concat P !! (t * B + b)%nat = p !! b.
Proof.
  intros HP. revert t. induction HP as [|p0 P Hp0 _ IH]; intros t Ht Hb; [done|].
  destruct t as [|t]; cbn in *.
  - injection Ht as ->. by rewrite lookup_app_l by lia.
  - rewrite lookup_app_r by lia.
    replace (B + t * B + b - length p0)%nat with (t * B + b)%nat by lia.
    by apply IH.
Qed.

Lemma length_concat_uniform {A} B (P : list (list A)) :
  Forall (fun p => length p = B) P -> length (concat P) = (length P * B)%nat.
Proof.
  induction 1 as [|p P Hp _ IH]; cbn; [reflexivity|]. rewrite length_app. lia.
Qed.

(** Cutting the flattened rows into steps again gives the planes back. *)
Lemma regroup_zip_with {A C} (g : A -> A -> C) (d : C) T B (P1 P2 : list (list A)) :
  length P1 = T -> length P2 = T ->
  Forall (fun p => length p = B) P1 -> Forall (fun p => length p = B) P2 ->
  map (fun t => map (fun b => nth (t * B + b) (zip_with g (concat P1) (concat P2)) d)
                    (seq 0 B))
      (seq 0 T)
  = zip_with (zip_with g) P1 P2.
Proof.
  intros L1 L2 U1 U2. apply list_eq. intros t.
  rewrite list_lookup_fmap, lookup_zip_with.
  destruct (decide (t < T)%nat) as [Ht|Ht].
  - rewrite lookup_seq_lt by assumption.
    destruct (lookup_lt_is_Some_2 P1 t ltac:(lia)) as [p1 Hp1].
    destruct (lookup_lt_is_Some_2 P2 t ltac:(lia)) as [p2 Hp2].
    rewrite Hp1, Hp2. cbn. f_equal. apply list_eq. intros b.
    rewrite list_lookup_fmap, lookup_zip_with.
    pose proof U1 as V1. pose proof U2 as V2. rewrite Forall_forall in V1, V2.
    pose proof (V1 p1 (list_elem_of_lookup_2 _ _ _ Hp1)) as K1.
    pose proof (V2 p2 (list_elem_of_lookup_2 _ _ _ Hp2)) as K2.
    destruct (decide (b < B)%nat) as [Hb|Hb].
    + rewrite lookup_seq_lt by assumption.
      destruct (lookup_lt_is_Some_2 p1 b ltac:(lia)) as [r1 Hr1].
      destruct (lookup_lt_is_Some_2 p2 b ltac:(lia)) as [r2 Hr2].
      rewrite Hr1, Hr2. cbn. f_equal. apply nth_lookup_Some.
      rewrite lookup_zip_with.
      rewrite (lookup_concat_uniform B P1 t b p1), (lookup_concat_uniform B P2 t b p2)
        by assumption.
      by rewrite Hr1, Hr2.
    + rewrite lookup_seq_ge by lia. by rewrite (lookup_ge_None_2 p1) by lia.
  - rewrite lookup_seq_ge by lia. by rewrite (lookup_ge_None_2 P1) by lia.
Qed.

Lemma view_flat_shaped T B Fe x :
  shaped3 T B Fe x -> shaped (T * B) Fe (view_flat x).
Proof.
  intros (H0 & H1 & H2 & Hw). unfold shaped, view_flat, nrows, wf2, wf3, size0 in *.
  cbn [rows ncols]. rewrite H1, H2 in Hw. split; [|split; [assumption|]].
  - rewrite (length_concat_uniform B), H0; [reflexivity|].
    eapply Forall_impl; [exact Hw|]. by intros p [? _].
  - rewrite H2. apply Forall_concat. eapply Forall_impl; [exact Hw|]. by intros p [_ ?].
Qed.

Lemma shaped3_uniform T B Fe x :
  shaped3 T B Fe x -> Forall (fun p => length p = B) (planes x).
Proof.
  intros (_ & H1 & _ & Hw). unfold wf3 in Hw. rewrite H1 in Hw.
  eapply Forall_impl; [exact Hw|]. by intros p [? _].
Qed.

Lemma getitem_shaped3 T B Fe x (t : nat) y :
  shaped3 T B Fe x -> getitem x (Z.of_nat t) = Ok y ->
  planes x !! t = Some (rows y) /\ shaped B Fe y.
Proof.
  intros (H0 & H1 & H2 & Hw) Hy. rewrite getitem_nat in Hy.
  destruct (planes x !! t) as [p|] eqn:Hp; [|discriminate]. injection Hy as <-.
  split; [reflexivity|]. unfold wf3 in Hw. rewrite Forall_forall in Hw.
  destruct (Hw p (list_elem_of_lookup_2 _ _ _ Hp)) as [Hl Hr].
  unfold shaped, nrows, wf2. cbn [rows ncols]. repeat split; congruence.
Qed.

Lemma bottle_two (f : vec Tensor2 2 -> result Tensor12) a b :
  bottle f [# a; b]
  = y ← f [# view_flat a; view_flat b]; view_seq (size0 a) (size1 a) y.
Proof. reflexivity. Qed.

Lemma star2_two {A} (f : Tensor2 -> Tensor2 -> A) a b : star2 f [# a; b] = f a b.
Proof. reflexivity. Qed.

(** X10: [bottle] around the observation model. For a model as its
    constructor builds it and sequences of beliefs and of states over the
    same [T] steps and batch of [B], [bottle] returns a sequence of
    observations over the same steps and batch, and its entry at step [t]
    is what the model returns on the beliefs and the states of step [t]:
    flattening time into the batch and cutting the result up again mixes no
    steps. A sequence of no steps gives a sequence of no steps. *)
Theorem bottle_observation_model
    self observation_size belief_size state_size embedding_size T B beliefs states :
  SymbolicObservationModel.__init__ observation_size belief_size state_size
                                    embedding_size self ->
  shaped3 T B belief_size beliefs -> shaped3 T B state_size states ->
  exists out,
    bottle (fun args => rank2 (star2 (SymbolicObservationModel.forward self) args))
           [# beliefs; states]
    = Ok (Seq3 out) /\
    shaped3 T B observation_size out /\
    forall (t : nat) b s,
      getitem beliefs (Z.of_nat t) = Ok b -> getitem states (Z.of_nat t) = Ok s ->
      SymbolicObservationModel.forward self b s = getitem out (Z.of_nat t).
Proof.
  intros Hinit Hb Hs.
  rewrite bottle_two, star2_two. unfold rank2.
  rewrite (observation_forward_eq self _ _ _ _ (T * B)%nat
             (view_flat beliefs) (view_flat states) Hinit
             (view_flat_shaped _ _ _ _ Hb) (view_flat_shaped _ _ _ _ Hs)).
  cbn [mbind result_bind]. unfold view_seq.
  pose proof (shaped3_uniform _ _ _ _ Hb) as Ub.
  pose proof (shaped3_uniform _ _ _ _ Hs) as Us.
  destruct Hb as (B0 & B1 & B2 & Bw), Hs as (S0 & S1 & S2 & Sw).
  assert (nrows (mk2 observation_size
                     (zip_with (fun b s => observation_row self (b ++ s))
                               (rows (view_flat beliefs)) (rows (view_flat states))))
          = (T * B)%nat) as ->.
  { unfold nrows, view_flat, size0 in *. cbn [rows].
    rewrite length_zip_with, !(length_concat_uniform B) by assumption. lia. }
  rewrite B0, B1. cbn [ncols rows]. rewrite Nat.eqb_refl. unfold view_flat. cbn [rows].
  rewrite (regroup_zip_with _ [] T B) by assumption.
  eexists. split; [reflexivity|].
  split.
  - unfold shaped3, size0, wf3 in *. cbn [planes size1 size2].
    rewrite length_zip_with. repeat split; [lia|].
    apply Forall_forall. intros p Hp.
    apply list_elem_of_lookup in Hp as (t & Hp).
    apply lookup_zip_with_Some in Hp as (p1 & p2 & -> & Hp1 & Hp2).
    rewrite Forall_forall in Bw, Sw.
    destruct (Bw p1 (list_elem_of_lookup_2 _ _ _ Hp1)) as [K1 _].
    destruct (Sw p2 (list_elem_of_lookup_2 _ _ _ Hp2)) as [K2 _].
    rewrite length_zip_with. split; [lia|].
    apply Forall_forall. intros r Hr.
    apply list_elem_of_lookup in Hr as (b & Hr).
    apply lookup_zip_with_Some in Hr as (r1 & r2 & -> & _).
    by apply (observation_row_length self _ _ _ _ _ Hinit).
  - intros t b s Gb Gs.
    apply (getitem_shaped3 T B belief_size) in Gb as [Pb Sb]; [|by repeat split].
    apply (getitem_shaped3 T B state_size) in Gs as [Ps Ss]; [|by repeat split].
    rewrite (observation_forward_eq self _ _ _ _ B b s Hinit Sb Ss).
    rewrite getitem_nat. cbn [planes size2].
    by rewrite lookup_zip_with, Pb, Ps.
Qed.

Lemma bottle_observation_model_witness :
  exists out y,
    bottle (fun args =>
              rank2 (star2 (SymbolicObservationModel.forward Demo.observation_model)
                           args))
           [# Demo.beliefs2; Demo.states2]
    = Ok (Seq3 out) /\
    shaped3 2 2 1 out /\
    SymbolicObservationModel.forward Demo.observation_model
      (mk2 1 [[2]; [3]]) (mk2 1 [[0]; [2]]) = Ok y /\
    getitem out 1 = Ok y.
Proof.
  destruct (bottle_observation_model Demo.observation_model 1 1 1 1 2 2
              Demo.beliefs2 Demo.states2)
    as (out & Ho & Hs & Ht).
  - repeat split; repeat constructor.
  - repeat split; repeat constructor.
  - repeat split; repeat constructor.
  - specialize (Ht 1%nat (mk2 1 [[2]; [3]]) (mk2 1 [[0]; [2]]) eq_refl eq_refl).
    destruct (SymbolicObservationModel.forward Demo.observation_model
                (mk2 1 [[2]; [3]]) (mk2 1 [[0]; [2]])) as [y|] eqn:Hy.
    + exists out, y. auto.
    + destruct Hs as (H0 & _). revert Ht. rewrite (getitem_nat out 1).
      destruct (planes out !! 1%nat) eqn:Hp; [discriminate|].
      apply lookup_ge_None in Hp. unfold size0 in H0. lia.
Defined.

(** X11: [bottle] around the reward model. For a model as its constructor
    builds it and sequences of beliefs and of states over the same [T] steps
    and batch of [B], [bottle] returns a tensor of rank 2 with [T] rows and
    [B] columns, and its row [t] holds the rewards that the model returns on
    the beliefs and the states of step [t]. *)
Theorem bottle_reward_model
    self belief_size state_size hidden_size T B beliefs states :
  RewardModel.__init__ belief_size state_size hidden_size self ->
  shaped3 T B belief_size beliefs -> shaped3 T B state_size states ->
  exists out,
    bottle (star2 (RewardModel.forward self)) [# beliefs; states] = Ok (Seq2 out) /\
    shaped T B out /\
    forall (t : nat) b s,
      getitem beliefs (Z.of_nat t) = Ok b -> getitem states (Z.of_nat t) = Ok s ->
      exists r, RewardModel.forward self b s = Ok (Rank1 r) /\
                rows out !! t = Some r.
Proof.
  intros Hinit Hb Hs.
  rewrite bottle_two, star2_two.
  rewrite (reward_forward_eq self _ _ _ (T * B)%nat
             (view_flat beliefs) (view_flat states) Hinit
             (view_flat_shaped _ _ _ _ Hb) (view_flat_shaped _ _ _ _ Hs)).
  cbn [mbind result_bind]. unfold view_seq.
  pose proof (shaped3_uniform _ _ _ _ Hb) as Ub.
  pose proof (shaped3_uniform _ _ _ _ Hs) as Us.
  destruct Hb as (B0 & B1 & B2 & Bw), Hs as (S0 & S1 & S2 & Sw).
  assert (length (zip_with (fun b s => reward_row self (b ++ s))
                           (rows (view_flat beliefs)) (rows (view_flat states)))
          = (T * B)%nat) as ->.
  { unfold view_flat, size0 in *. cbn [rows].
    rewrite length_zip_with, !(length_concat_uniform B) by assumption. lia. }
  rewrite B0, B1, Nat.eqb_refl. unfold view_flat. cbn [rows].
  rewrite (regroup_zip_with _ 0 T B) by assumption.
  eexists. split; [reflexivity|]. split.
  - unfold shaped, nrows, wf2, size0, wf3 in *. cbn [rows ncols].
    rewrite length_zip_with. repeat split; [lia|].
    apply Forall_forall. intros p Hp.
    apply list_elem_of_lookup in Hp as (t & Hp).
    apply lookup_zip_with_Some in Hp as (p1 & p2 & -> & Hp1 & Hp2).
    rewrite Forall_forall in Bw, Sw.
    destruct (Bw p1 (list_elem_of_lookup_2 _ _ _ Hp1)) as [K1 _].
    destruct (Sw p2 (list_elem_of_lookup_2 _ _ _ Hp2)) as [K2 _].
    rewrite length_zip_with. lia.
  - intros t b s Gb Gs.
    apply (getitem_shaped3 T B belief_size) in Gb as [Pb Sb]; [|by repeat split].
    apply (getitem_shaped3 T B state_size) in Gs as [Ps Ss]; [|by repeat split].
    rewrite (reward_forward_eq self _ _ _ B b s Hinit Sb Ss).
    eexists. split; [reflexivity|]. cbn [rows].
    by rewrite lookup_zip_with, Pb, Ps.
Qed.

Lemma bottle_reward_model_witness :
  exists out r,
    bottle (star2 (RewardModel.forward Demo.reward_model))
           [# Demo.beliefs2; Demo.states2]
    = Ok (Seq2 out) /\
    shaped 2 2 out /\
    RewardModel.forward Demo.reward_model (mk2 1 [[2]; [3]]) (mk2 1 [[0]; [2]])
    = Ok (Rank1 r) /\
    rows out !! 1%nat = Some r.
Proof.
  destruct (bottle_reward_model Demo.reward_model 1 1 1 2 2
              Demo.beliefs2 Demo.states2)
    as (out & Ho & Hs & Ht).
  - repeat split; repeat constructor.
  - repeat split; repeat constructor.
  - repeat split; repeat constructor.
  - destruct (Ht 1%nat (mk2 1 [[2]; [3]]) (mk2 1 [[0]; [2]]) eq_refl eq_refl)
      as (r & Hr & Hrow).
    exists out, r. auto.
Defined.

Lemma zip_with_diag {A} (l : list A) : zip_with (fun a _ => a) l l = l.
Proof. induction l as [|a l IH]; cbn; [reflexivity|]. by rewrite IH. Qed.

(** X12: [bottle] around the identity. For a sequence whose planes and
    rows have its sizes, flattening time into the batch and viewing the
    result by the sizes of the sequence gives the sequence back, entry for
    entry, also when one of its sizes is zero. *)
Theorem bottle_identity T B Fe x :
  shaped3 T B Fe x ->
  bottle (star1 (fun y => Ok (Rank2 y))) [# x] = Ok (Seq3 x).
Proof.
  intros Hx. pose proof (shaped3_uniform _ _ _ _ Hx) as Hu.
  pose proof (view_flat_shaped _ _ _ _ Hx) as (Vr & _).
  destruct Hx as (H0 & H1 & H2 & Hw).
  unfold bottle, star1. simpl. unfold view_seq.
  rewrite Vr, H0, H1, Nat.eqb_refl. unfold view_flat. cbn [rows ncols].
  rewrite <- (zip_with_diag (concat (planes x))).
  rewrite (regroup_zip_with _ [] T B) by assumption.
  assert (zip_with (zip_with (fun (a _ : list R) => a)) (planes x) (planes x)
          = planes x) as ->.
  { clear. induction (planes x) as [|p P IH]; cbn; [reflexivity|].
    by rewrite IH, zip_with_diag. }
  rewrite <- H1. by destruct x.
Qed.

Lemma bottle_identity_witness :
  bottle (star1 (fun y => Ok (Rank2 y))) [# Demo.beliefs2] = Ok (Seq3 Demo.beliefs2).
Proof.
  apply (bottle_identity 2 2 1). repeat split; repeat constructor.
Defined.

(** ** The convolutional models: shapes *)

Lemma Forall_map {A B} (P : B -> Prop) (f : A -> B) (l : list A) :
  (forall a, P (f a)) -> Forall P (map f l).
Proof.
  intros Hf. apply Forall_forall. intros y Hy.
  by apply list_elem_of_In, in_map_iff in Hy as (a & <- & _).
Qed.

Lemma tmap4_shaped f B C H W x : shaped4 B C H W x -> shaped4 B C H W (tmap4 f x).
Proof.
  intros (XB & XC & XH & XW & Xw). unfold shaped4, wf4, tmap4 in *.
  cbn [images channels height width]. rewrite length_map.
  repeat (split; [assumption|]).
  rewrite Forall_forall in Xw |- *. intros img Himg.
  apply list_elem_of_In, in_map_iff in Himg as (img0 & <- & Hi0).
  destruct (Xw img0 (proj2 (list_elem_of_In _ _) Hi0)) as [Lc Hch].
  unfold wf_image. rewrite length_map. split; [assumption|].
  rewrite Forall_forall in Hch |- *. intros ch Hc.
  apply list_elem_of_In, in_map_iff in Hc as (ch0 & <- & Hc0).
  destruct (Hch ch0 (proj2 (list_elem_of_In _ _) Hc0)) as [Lh Hr].
  rewrite length_map. split; [assumption|].
  rewrite Forall_forall in Hr |- *. intros r Hr'.
  apply list_elem_of_In, in_map_iff in Hr' as (r0 & <- & Hr0).
  rewrite length_map. by apply Hr, list_elem_of_In.
Qed.

Lemma Conv2d_forward_shaped i o k s l B H W x :
  Conv2d_init i o k s l -> shaped4 B i H W x -> (k <= H)%nat -> (k <= W)%nat ->
  exists y, Conv2d_forward l x = Ok y /\
            shaped4 B o (conv_out H k s) (conv_out W k s) y.
Proof.
  intros (Li & Lo & Lk & Ls & _) (XB & XC & XH & XW & _) HH HW.
  unfold Conv2d_forward. rewrite XC, Li, Nat.eqb_refl, XH, XW, Lk, Ls. cbn [negb].
  destruct (H <? k)%nat eqn:E1; [apply Nat.ltb_lt in E1; lia|].
  destruct (W <? k)%nat eqn:E2; [apply Nat.ltb_lt in E2; lia|]. cbn [orb].
  eexists. split; [reflexivity|].
  unfold shaped4, wf4. cbn [images channels height width]. rewrite length_map.
  repeat (split; [first [assumption | reflexivity]|]).
  apply Forall_map. intros img. unfold wf_image, Conv2d_image.
  rewrite length_map, length_seq. split; [reflexivity|].
  apply Forall_map. intros c. rewrite length_map, length_seq.
  split; [reflexivity|]. apply Forall_map. intros r.
  by rewrite length_map, length_seq.
Qed.

Lemma ConvTranspose2d_forward_shaped i o k s l B H W x :
  ConvTranspose2d_init i o k s l -> shaped4 B i H W x ->
  (0 < H)%nat -> (0 < W)%nat ->
  exists y, ConvTranspose2d_forward l x = Ok y /\
            shaped4 B o (conv_transpose_out H k s) (conv_transpose_out W k s) y.
Proof.
  intros (Li & Lo & Lk & Ls & _) (XB & XC & XH & XW & _) HH HW.
  unfold ConvTranspose2d_forward.
  rewrite XC, Li, Nat.eqb_refl, XH, XW, Lk, Ls. cbn [negb].
  destruct (H =? 0)%nat eqn:E1; [apply Nat.eqb_eq in E1; lia|].
  destruct (W =? 0)%nat eqn:E2; [apply Nat.eqb_eq in E2; lia|]. cbn [orb].
  eexists. split; [reflexivity|].
  unfold shaped4, wf4. cbn [images channels height width]. rewrite length_map.
  repeat (split; [first [assumption | reflexivity]|]).
  apply Forall_map. intros img. unfold wf_image, ConvTranspose2d_image.
  rewrite length_map, length_seq. split; [reflexivity|].
  apply Forall_map. intros c. rewrite length_map, length_seq.
  split; [reflexivity|]. apply Forall_map. intros r.
  by rewrite length_map, length_seq.
Qed.

Lemma flatten4_length B C H W x :
  shaped4 B C H W x -> length (flatten4 x) = (B * (C * (H * W)))%nat.
Proof.
  intros (XB & XC & XH & XW & Xw). unfold flatten4, wf4 in *.
  rewrite XC, XH, XW in Xw.
  rewrite (length_concat_uniform (C * (H * W))); [by rewrite length_map, XB|].
  apply Forall_forall. intros d Hd.
  apply list_elem_of_In, in_map_iff in Hd as (img & <- & Himg).
  rewrite Forall_forall in Xw.
  destruct (Xw img (proj2 (list_elem_of_In _ _) Himg)) as [Lc Hch].
  rewrite (length_concat_uniform (H * W)); [by rewrite length_map, Lc|].
  apply Forall_forall. intros e He.
  apply list_elem_of_In, in_map_iff in He as (ch & <- & Hc).
  rewrite Forall_forall in Hch.
  destruct (Hch ch (proj2 (list_elem_of_In _ _) Hc)) as [Lh Hr].
  rewrite (length_concat_uniform W); [by rewrite Lh | exact Hr].
Qed.

Lemma view_rows_ok c data :
  (0 < c)%nat -> (length data mod c = 0)%nat ->
  view_rows c data = Ok (chunks c data) /\
  length (chunks c data) = (length data / c)%nat /\
  Forall (fun r => length r = c) (chunks c data).
Proof.
  intros Hc Hm. unfold view_rows.
  destruct (c =? 0)%nat eqn:E; [apply Nat.eqb_eq in E; lia|].
  rewrite Hm. cbn [Nat.eqb]. split; [reflexivity|]. unfold chunks.
  rewrite length_map, length_seq. split; [reflexivity|].
  apply Forall_forall. intros r Hr.
  apply list_elem_of_In, in_map_iff in Hr as (i & <- & Hi).
  apply in_seq in Hi. rewrite length_take, length_drop.
  pose proof (Nat.div_mod_eq (length data) c) as Hd. rewrite Hm in Hd. nia.
Qed.

Lemma view_rows_fails c data :
  (length data mod c <> 0)%nat -> view_rows c data = Raise RuntimeError.
Proof.
  intros Hm. unfold view_rows. destruct (c =? 0)%nat; [reflexivity|].
  destruct (length data mod c =? 0)%nat eqn:E; [|reflexivity].
  by apply Nat.eqb_eq in E.
Qed.

Lemma conv_out_lower n m : (2 * m + 2 <= n)%nat -> (m <= conv_out n 4 2)%nat.
Proof.
  intros H. unfold conv_out.
  pose proof (Nat.div_mod_eq (n - 4) 2). pose proof (Nat.mod_upper_bound (n - 4) 2).
  lia.
Qed.

(** The four convolutions of the encoder with their activations. *)
Lemma encoder_convolutions self E B H W observation :
  VisualEncoder.__init__ E self -> shaped4 B 3 H W observation ->
  (46 <= H)%nat -> (46 <= W)%nat ->
  exists h1 h2 h3 h4,
    Conv2d_forward (VisualEncoder.conv1 self) observation = Ok h1 /\
    Conv2d_forward (VisualEncoder.conv2 self) (tmap4 (VisualEncoder.act_fn self) h1)
    = Ok h2 /\
    Conv2d_forward (VisualEncoder.conv3 self) (tmap4 (VisualEncoder.act_fn self) h2)
    = Ok h3 /\
    Conv2d_forward (VisualEncoder.conv4 self) (tmap4 (VisualEncoder.act_fn self) h3)
    = Ok h4 /\
    shaped4 B 256 (encoded_size H) (encoded_size W)
            (tmap4 (VisualEncoder.act_fn self) h4).
Proof.
  intros (_ & C1 & C2 & C3 & C4 & _) Hx HH HW.
  pose proof (conv_out_lower H 22 ltac:(lia)) as H1.
  pose proof (conv_out_lower W 22 ltac:(lia)) as W1.
  pose proof (conv_out_lower _ 10 H1) as H2. pose proof (conv_out_lower _ 10 W1) as W2.
  pose proof (conv_out_lower _ 4 H2) as H3. pose proof (conv_out_lower _ 4 W2) as W3.
  destruct (Conv2d_forward_shaped _ _ _ _ _ _ _ _ _ C1 Hx) as (h1 & E1 & S1); [lia..|].
  apply (tmap4_shaped (VisualEncoder.act_fn self)) in S1.
  destruct (Conv2d_forward_shaped _ _ _ _ _ _ _ _ _ C2 S1) as (h2 & E2 & S2); [lia..|].
  apply (tmap4_shaped (VisualEncoder.act_fn self)) in S2.
  destruct (Conv2d_forward_shaped _ _ _ _ _ _ _ _ _ C3 S2) as (h3 & E3 & S3); [lia..|].
  apply (tmap4_shaped (VisualEncoder.act_fn self)) in S3.
  destruct (Conv2d_forward_shaped _ _ _ _ _ _ _ _ _ C4 S3) as (h4 & E4 & S4); [lia..|].
  apply (tmap4_shaped (VisualEncoder.act_fn self)) in S4.
  exists h1, h2, h3, h4. auto 10.
Qed.

(** The view and the last layer of the encoder. *)
Lemma encoder_projection self E n data :
  VisualEncoder.__init__ E self -> length data = (n * 1024)%nat ->
  exists y,
    (vectors ← view_rows 1024 data;
     match VisualEncoder.fc self with
     | None => Ok (mk2 1024 vectors)
     | Some l => Linear_forward l (mk2 1024 vectors)
     end) = Ok y /\
    shaped n E y.
Proof.
  intros (_ & _ & _ & _ & _ & Hfc) Hlen.
  destruct (view_rows_ok 1024 data) as (-> & Hn & Hrows); [lia| |].
  { rewrite Hlen. apply Nat.Div0.mod_mul. }
  cbn [mbind result_bind]. rewrite Hlen, Nat.div_mul in Hn by lia.
  assert (Sv : shaped n 1024 (mk2 1024 (chunks 1024 data))) by (by repeat split).
  destruct (E =? 1024)%nat eqn:EE.
  - apply Nat.eqb_eq in EE as ->. rewrite Hfc. eauto.
  - destruct Hfc as (l & -> & Ll).
    destruct Sv as (Sr & Sc & _). by apply (Linear_forward_shaped 1024 E).
Qed.

(** The small models of the examples are models as the constructors build
    them. *)

Lemma const_kernels_wf a b k w : wf_kernels a b k (Demo.const_kernels a b k w).
Proof.
  unfold wf_kernels, Demo.const_kernels. rewrite length_replicate.
  split; [reflexivity|]. apply Forall_replicate. rewrite length_replicate.
  split; [reflexivity|]. apply Forall_replicate. rewrite length_replicate.
  split; [reflexivity|]. apply Forall_replicate. by rewrite length_replicate.
Qed.

Lemma const_conv_init i o k s w b : Conv2d_init i o k s (Demo.const_conv i o k s w b).
Proof.
  unfold Conv2d_init, Demo.const_conv. cbn [in_channels out_channels kernel_size
    stride conv_weight conv_bias].
  repeat (split; [reflexivity|]). split; [apply const_kernels_wf|].
  by rewrite length_replicate.
Qed.

Lemma const_conv_transpose_init i o k s w b :
  ConvTranspose2d_init i o k s (Demo.const_conv_transpose i o k s w b).
Proof.
  unfold ConvTranspose2d_init, Demo.const_conv_transpose.
  cbn [t_in_channels t_out_channels t_kernel_size t_stride t_weight t_bias].
  repeat (split; [reflexivity|]). split; [apply const_kernels_wf|].
  by rewrite length_replicate.
Qed.

Lemma visual_observation_model_init :
  VisualObservationModel.__init__ 1 1 1 Demo.visual_observation_model.
Proof.
  split; [reflexivity|]. split; [repeat split; repeat constructor|].
  repeat split; apply const_conv_transpose_init.
Qed.

Lemma black_images_shaped B n : shaped4 B 3 n n (Demo.black_images B n).
Proof.
  unfold shaped4, wf4, Demo.black_images. cbn [images channels height width].
  rewrite length_replicate. repeat (split; [reflexivity|]).
  apply Forall_replicate. unfold wf_image. rewrite length_replicate.
  split; [reflexivity|].
  apply Forall_replicate. rewrite length_replicate. split; [reflexivity|].
  apply Forall_replicate. by rewrite length_replicate.
Qed.

Lemma visual_encoder_init : VisualEncoder.__init__ 1024 Demo.visual_encoder.
Proof.
  split; [reflexivity|]. repeat (split; [apply const_conv_init|]).
  by rewrite Nat.eqb_refl.
Qed.

(** X20: the visual encoder and the size of its images. For an encoder as
    its constructor builds it and a batch of [B] images of 3 channels and
    at least 46 x 46 pixels, the four convolutions return 256 channels of
    [encoded_size H] x [encoded_size W] pixels, and the view cuts all of
    their entries into rows of 1024: the encoder returns as many embeddings
    as there are entries, divided by 1024, when that is a whole number, and
    raises otherwise. For 64 x 64 images these are [B] embeddings, one for
    each image; the size of the images is not checked, and for 96 x 96
    images the encoder returns [4 * B] rows. *)
Theorem visual_encoder_rows self E B H W observation :
  VisualEncoder.__init__ E self -> shaped4 B 3 H W observation ->
  (46 <= H)%nat -> (46 <= W)%nat ->
  if (encoded_entries B H W mod 1024 =? 0)%nat
  then exists y, VisualEncoder.forward self observation = Ok y /\
                 shaped (encoded_entries B H W / 1024) E y
  else VisualEncoder.forward self observation = Raise RuntimeError.
Proof.
  intros Hinit Hx HH HW.
  destruct (encoder_convolutions self E B H W observation Hinit Hx HH HW)
    as (h1 & h2 & h3 & h4 & E1 & E2 & E3 & E4 & S4).
  unfold VisualEncoder.forward.
  rewrite E1. cbn [mbind result_bind]. rewrite E2. cbn [mbind result_bind].
  rewrite E3. cbn [mbind result_bind]. rewrite E4. cbn [mbind result_bind].
  pose proof (flatten4_length _ _ _ _ _ S4) as Hlen.
  fold (encoded_entries B H W) in Hlen.
  destruct (encoded_entries B H W mod 1024 =? 0)%nat eqn:Hm.
  - apply Nat.eqb_eq in Hm.
    apply (encoder_projection self E (encoded_entries B H W / 1024));
      [assumption|].
    rewrite Hlen. pose proof (Nat.div_mod_eq (encoded_entries B H W) 1024). lia.
  - apply Nat.eqb_neq in Hm. rewrite view_rows_fails by (by rewrite Hlen).
    reflexivity.
Qed.

Lemma visual_encoder_rows_witness :
  exists y,
    VisualEncoder.forward Demo.visual_encoder (Demo.black_images 1 96) = Ok y /\
    shaped 4 1024 y.
Proof.
  pose proof (visual_encoder_rows Demo.visual_encoder 1024 1 96 96
                (Demo.black_images 1 96) visual_encoder_init
                (black_images_shaped 1 96) ltac:(lia) ltac:(lia)) as H.
  exact H.
Defined.

Lemma Conv2d_forward_small i o k s l B H W x :
  Conv2d_init i o k s l -> shaped4 B i H W x -> (H < k \/ W < k)%nat ->
  Conv2d_forward l x = Raise RuntimeError.
Proof.
  intros (Li & Lo & Lk & Ls & _) (XB & XC & XH & XW & _) Hsmall.
  unfold Conv2d_forward. rewrite XC, Li, Nat.eqb_refl, XH, XW, Lk. cbn [negb].
  destruct (H <? k)%nat eqn:E1; [reflexivity|].
  destruct (W <? k)%nat eqn:E2; [reflexivity|].
  apply Nat.ltb_ge in E1, E2. lia.
Qed.

Lemma conv_out_inv n m :
  (4 <= n)%nat -> (m <= conv_out n 4 2)%nat -> (2 * m + 2 <= n)%nat.
Proof.
  intros Hn H. unfold conv_out in H.
  pose proof (Nat.div_mod_eq (n - 4) 2). pose proof (Nat.mod_upper_bound (n - 4) 2).
  lia.
Qed.

(** X23: images that are too small. For an encoder as its constructor
    builds it and a batch of images of 3 channels of which one side is
    shorter than 46 pixels, the encoder raises [RuntimeError]: one of the
    four convolutions meets an image smaller than its kernel. *)
Theorem visual_encoder_small_images self E B H W observation :
  VisualEncoder.__init__ E self -> shaped4 B 3 H W observation ->
  (H < 46 \/ W < 46)%nat ->
  VisualEncoder.forward self observation = Raise RuntimeError.
Proof.
  intros (_ & C1 & C2 & C3 & C4 & _) Hx Hsmall. unfold VisualEncoder.forward.
  destruct (decide (H < 4 \/ W < 4)%nat) as [S1|L1].
  { by rewrite (Conv2d_forward_small _ _ _ _ _ _ _ _ _ C1 Hx S1). }
  destruct (Conv2d_forward_shaped _ _ _ _ _ _ _ _ _ C1 Hx) as (h1 & -> & X1); [lia..|].
  cbn [mbind result_bind].
  apply (tmap4_shaped (VisualEncoder.act_fn self)) in X1.
  destruct (decide (conv_out H 4 2 < 4 \/ conv_out W 4 2 < 4)%nat) as [S2|L2].
  { by rewrite (Conv2d_forward_small _ _ _ _ _ _ _ _ _ C2 X1 S2). }
  destruct (Conv2d_forward_shaped _ _ _ _ _ _ _ _ _ C2 X1) as (h2 & -> & X2); [lia..|].
  cbn [mbind result_bind].
  apply (tmap4_shaped (VisualEncoder.act_fn self)) in X2.
  destruct (decide (conv_out (conv_out H 4 2) 4 2 < 4
                    \/ conv_out (conv_out W 4 2) 4 2 < 4)%nat) as [S3|L3].
  { by rewrite (Conv2d_forward_small _ _ _ _ _ _ _ _ _ C3 X2 S3). }
  destruct (Conv2d_forward_shaped _ _ _ _ _ _ _ _ _ C3 X2) as (h3 & -> & X3); [lia..|].
  cbn [mbind result_bind].
  apply (tmap4_shaped (VisualEncoder.act_fn self)) in X3.
  rewrite (Conv2d_forward_small _ _ _ _ _ _ _ _ _ C4 X3); [reflexivity|].
  destruct (decide (conv_out (conv_out (conv_out H 4 2) 4 2) 4 2 < 4
                    \/ conv_out (conv_out (conv_out W 4 2) 4 2) 4 2 < 4)%nat)
    as [S4|L4]; [exact S4|].
  pose proof (conv_out_inv (conv_out (conv_out H 4 2) 4 2) 4 ltac:(lia) ltac:(lia)).
  pose proof (conv_out_inv (conv_out (conv_out W 4 2) 4 2) 4 ltac:(lia) ltac:(lia)).
  pose proof (conv_out_inv (conv_out H 4 2) 10 ltac:(lia) ltac:(lia)).
  pose proof (conv_out_inv (conv_out W 4 2) 10 ltac:(lia) ltac:(lia)).
  pose proof (conv_out_inv H 22 ltac:(lia) ltac:(lia)).
  pose proof (conv_out_inv W 22 ltac:(lia) ltac:(lia)).
  lia.
Qed.

Lemma visual_encoder_small_images_witness :
  VisualEncoder.forward Demo.visual_encoder (Demo.black_images 2 32)
  = Raise RuntimeError.
Proof.
  apply (visual_encoder_small_images Demo.visual_encoder 1024 2 32 32).
  - apply visual_encoder_init.
  - apply black_images_shaped.
  - lia.
Defined.

Lemma visual_observation_forward_shaped self belief_size state_size embedding_size
    B belief state :
  VisualObservationModel.__init__ belief_size state_size embedding_size self ->
  shaped B belief_size belief -> shaped B state_size state ->
  (0 < embedding_size)%nat ->
  exists y, VisualObservationModel.forward self belief state = Ok y /\
            shaped4 B 3 64 64 y.
Proof.
  intros (He & L1 & C1 & C2 & C3 & C4) Hb Hs Hpos.
  unfold VisualObservationModel.forward. rewrite He.
  destruct (cat1_shaped _ _ _ _ _ Hb Hs) as (x & -> & Xr & Xc & _).
  cbn [mbind result_bind].
  destruct (Linear_forward_shaped _ _ _ B x L1 Xr Xc) as (h & -> & Hr & Hc & Hw).
  cbn [mbind result_bind].
  assert (Hlen : length (concat (rows h)) = (B * embedding_size)%nat).
  { unfold wf2, nrows in *. rewrite Hc in Hw.
    by rewrite (length_concat_uniform embedding_size), Hr. }
  destruct (view_rows_ok embedding_size (concat (rows h))) as (-> & Hn & Hrows);
    [assumption| |].
  { rewrite Hlen. apply Nat.Div0.mod_mul. }
  cbn [mbind result_bind]. rewrite Hlen, Nat.div_mul in Hn by lia.
  assert (S0 : shaped4 B embedding_size 1 1
                 (mk4 embedding_size 1 1
                      (map (map (fun v => [[v]]))
                           (chunks embedding_size (concat (rows h)))))).
  { unfold shaped4, wf4. cbn [images channels height width]. rewrite length_map.
    repeat (split; [first [assumption | reflexivity]|]).
    rewrite Forall_forall in Hrows. apply Forall_forall. intros img Himg.
    apply list_elem_of_In, in_map_iff in Himg as (r & <- & Hr0).
    unfold wf_image. rewrite length_map.
    split; [by apply Hrows, list_elem_of_In|].
    apply Forall_map. intros v. by repeat constructor. }
  destruct (ConvTranspose2d_forward_shaped _ _ _ _ _ _ _ _ _ C1 S0)
    as (h1 & -> & S1); [lia..|].
  cbn [mbind result_bind].
  apply (tmap4_shaped (VisualObservationModel.act_fn self)) in S1.
  destruct (ConvTranspose2d_forward_shaped _ _ _ _ _ _ _ _ _ C2 S1)
    as (h2 & -> & S2); [unfold conv_transpose_out; lia..|].
  cbn [mbind result_bind].
  apply (tmap4_shaped (VisualObservationModel.act_fn self)) in S2.
  destruct (ConvTranspose2d_forward_shaped _ _ _ _ _ _ _ _ _ C3 S2)
    as (h3 & -> & S3); [unfold conv_transpose_out; lia..|].
  cbn [mbind result_bind].
  apply (tmap4_shaped (VisualObservationModel.act_fn self)) in S3.
  destruct (ConvTranspose2d_forward_shaped _ _ _ _ _ _ _ _ _ C4 S3)
    as (h4 & -> & S4); [unfold conv_transpose_out; lia..|].
  cbn [mbind result_bind]. exists h4. split; [reflexivity|]. exact S4.
Qed.

(** X21: the observation model that the factory builds, and what it
    returns. [ObservationModel] builds a [SymbolicObservationModel] exactly
    when [symbolic] is set, and a [VisualObservationModel] otherwise. On a
    batch of beliefs and states of the sizes given to the factory, the
    symbolic model returns a batch x observation_size tensor, and the
    visual model returns a batch of images of 3 channels and 64 x 64
    pixels, whatever the observation size given to the factory is. *)
Theorem observation_model_factory
    symbolic observation_size belief_size state_size embedding_size m B belief state :
  ObservationModel symbolic observation_size belief_size state_size embedding_size m ->
  shaped B belief_size belief -> shaped B state_size state ->
  (0 < embedding_size)%nat ->
  match m with
  | SymbolicObservation s =>
      symbolic = true /\
      exists y, SymbolicObservationModel.forward s belief state = Ok y /\
                shaped B observation_size y
  | VisualObservation v =>
      symbolic = false /\
      exists y, VisualObservationModel.forward v belief state = Ok y /\
                shaped4 B 3 64 64 y
  end.
Proof.
  intros Hm Hb Hs Hpos. unfold ObservationModel in Hm. destruct symbolic.
  - destruct Hm as (s & -> & Hinit). split; [reflexivity|].
    rewrite (observation_forward_eq s _ _ _ _ B belief state Hinit Hb Hs).
    eexists. split; [reflexivity|].
    apply zip_with_rows_shaped; [apply Hb | apply Hs |].
    intros x y. by apply (observation_row_length s _ _ _ _ _ Hinit).
  - destruct Hm as (v & -> & Hinit). split; [reflexivity|].
    by eapply visual_observation_forward_shaped.
Qed.

Lemma observation_model_factory_witness :
  exists y,
    VisualObservationModel.forward Demo.visual_observation_model
      Example.belief0 Example.state0 = Ok y /\
    shaped4 2 3 64 64 y.
Proof.
  assert (Hm : ObservationModel false 7 1 1 1
                 (VisualObservation Demo.visual_observation_model)).
  { eexists. split; [reflexivity | apply visual_observation_model_init]. }
  assert (Hb : shaped 2 1 Example.belief0) by (repeat split; repeat constructor).
  assert (Hs : shaped 2 1 Example.state0) by (repeat split; repeat constructor).
  exact (proj2 (observation_model_factory false 7 1 1 1 _ 2 _ _ Hm Hb Hs
                  ltac:(lia))).
Defined.

(** X22: the encoder that the factory builds, and what it takes. [Encoder]
    builds a [SymbolicEncoder] exactly when [symbolic] is set, and a
    [VisualEncoder] otherwise. The symbolic encoder maps a batch of
    observation vectors of the observation size to a batch of embeddings;
    the visual encoder maps a batch of images of 3 channels and 64 x 64
    pixels to a batch of embeddings, one for each image, whatever the
    observation size given to the factory is, and whether its last layer is
    the identity (an embedding size of 1024) or a projection. *)
Theorem encoder_factory symbolic observation_size embedding_size m :
  Encoder symbolic observation_size embedding_size m ->
  match m with
  | SymbolicEnc s =>
      symbolic = true /\
      forall B observation,
        shaped B observation_size observation ->
        exists y, SymbolicEncoder.forward s observation = Ok y /\
                  shaped B embedding_size y
  | VisualEnc v =>
      symbolic = false /\
      forall B observation,
        shaped4 B 3 64 64 observation ->
        exists y, VisualEncoder.forward v observation = Ok y /\
                  shaped B embedding_size y
  end.
Proof.
  intros Hm. unfold Encoder in Hm. destruct symbolic.
  - destruct Hm as (s & -> & Hinit). split; [reflexivity|]. intros B obs Hs.
    rewrite (encoder_forward_eq s _ _ B obs Hinit Hs).
    eexists. split; [reflexivity|]. apply map_rows_shaped; [apply Hs|].
    intros x. by apply (encoder_row_length s _ _ _ Hinit).
  - destruct Hm as (v & -> & Hinit). split; [reflexivity|]. intros B obs Hx.
    destruct (encoder_convolutions v embedding_size B 64 64 obs Hinit Hx)
      as (h1 & h2 & h3 & h4 & E1 & E2 & E3 & E4 & S4); [lia..|].
    unfold VisualEncoder.forward.
    rewrite E1. cbn [mbind result_bind]. rewrite E2. cbn [mbind result_bind].
    rewrite E3. cbn [mbind result_bind]. rewrite E4. cbn [mbind result_bind].
    apply (encoder_projection v embedding_size B); [assumption|].
    rewrite (flatten4_length _ _ _ _ _ S4).
    change (encoded_size 64) with 2%nat. lia.
Qed.

Lemma encoder_factory_witness :
  exists y,
    VisualEncoder.forward Demo.visual_encoder (Demo.black_images 2 64) = Ok y /\
    shaped 2 1024 y.
Proof.
  assert (Hm : Encoder false 7 1024 (VisualEnc Demo.visual_encoder)).
  { eexists. split; [reflexivity | apply visual_encoder_init]. }
  exact (proj2 (encoder_factory false 7 1024 _ Hm) 2%nat (Demo.black_images 2 64)
           (black_images_shaped 2 64)).
Defined.

(** ** Actions are bounded *)

(** X13: the mean of the Normal under the action distribution, with the
    default [mean_scale] of 5. In a model as [__init__] builds it, every
    entry of the mean lies between -5 and 5, the bound that the comment
    in [forward] gives, whatever the network computes: it is
    5 * tanh(raw_mean / 5). *)
Theorem policy_mean_bounded self action_size belief_size state_size hidden_size
    belief state training sd :
  ActionModel.__init__ action_size belief_size state_size hidden_size self ->
  ActionModel.forward self belief state training = Ok sd ->
  ActionModel.mean_scale self = 5 ->
  exists mean std,
    SampleDist._dist sd = squashed mean std /\ all_in (-5) 5 mean.
Proof.
  intros Hi H Hs.
  apply (ActionModel_forward_ok _ _ _ _ _ _ _ _ _ Hi) in H
    as (rm & rs & _ & _ & _ & ->).
  eexists. eexists. split; [reflexivity|].
  rewrite reals_pointwise, Hs. apply all_within_in, tmap_all_within. intros v.
  rewrite scaled_tanh_number by lra. cbn [from_option id]. unfold Datatypes.id.
  pose proof (tanh_bounds (v / 5)) as [Hl Hu]. split; lra.
Qed.

Lemma policy_mean_bounded_witness :
  exists sd mean std,
    ActionModel.__init__ 1 1 1 1 Example.policy /\
    ActionModel.forward Example.policy Example.belief0 Example.state0 true = Ok sd /\
    ActionModel.mean_scale Example.policy = 5 /\
    SampleDist._dist sd = squashed mean std /\
    all_in (- 5) 5 mean.
Proof.
  destruct (policy_returns true) as (sd & HA).
  destruct (policy_mean_bounded _ _ _ _ _ _ _ _ _ policy_init HA eq_refl)
    as (mean & std & Hd & Hm).
  exists sd, mean, std. split; [exact policy_init|]. auto.
Defined.

(** X14: the actions of the policy are bounded. Whatever the network
    computes, each of the hundred samples that [mode] and [mean] draw from
    the distribution that [ActionModel.forward] returns has passed the
    tanh, so that every entry of the action that [mode] returns lies
    between -1 and 1, and every entry of the mean is a number between -1
    and 1. *)
Theorem actions_within_bounds self belief state training sd :
  ActionModel.forward self belief state training = Ok sd ->
  (forall g m g', SampleDist.mode sd g = Ok (m, g') -> all_in (-1) 1 m) /\
  (forall g m g', SampleDist.mean sd g = Ok (m, g') ->
                  exists mu, m = numbers mu /\ all_in (-1) 1 mu).
Proof.
  intros H. apply ActionModel_forward_structure in H as (mean & std & ->). split.
  - intros g m g' Hm.
    apply mode_torch in Hm as (_ & sample & logprob & Hs & _ & _ & _ & ->).
    apply all_within_in, best_rows_within; [lra|].
    refine (rsample_tanh_within _ g sample g' [] _ Hs). reflexivity.
  - intros g m g' Hm.
    apply mean_torch in Hm as (_ & sample & Hs & ->).
    cbn [SampleDist._samples SampleDist._dist] in Hs.
    assert (Hin : all_within3 (-1) 1 sample)
      by (refine (rsample_tanh_within _ g sample g' [] _ Hs); reflexivity).
    destruct (torch_rsample (TorchDistOps.mkExpanded (Z.to_nat 100) (squashed mean std)) g)
      as (x & Hx & _ & H0 & _).
    rewrite Hs in Hx. injection Hx as <- _.
    cbn [TorchDistOps.ex_samples] in H0.
    assert (Hpos : (0 < size0 sample)%nat) by (rewrite H0; cbn; lia).
    exists (reals (mean0 sample)). split; [by apply mean0_numbers|].
    by apply all_within_in, mean0_within.
Qed.

Lemma actions_within_bounds_witness :
  exists sd m g' mu,
    ActionModel.forward Example.policy Example.belief0 Example.state0 true = Ok sd /\
    SampleDist.mean sd Example.counting = Ok (m, g') /\
    m = numbers mu /\ all_in (-1) 1 mu.
Proof.
  destruct (policy_returns true) as (sd & HA).
  destruct (actions_within_bounds _ _ _ _ _ HA) as [_ Hmean].
  pose proof (ActionModel_forward_structure _ _ _ _ _ HA) as (mean & std & Hsd).
  assert (exists m g', SampleDist.mean sd Example.counting = Ok (m, g'))
    as (m & g' & Hm).
  { rewrite Hsd. unfold SampleDist.mean.
    cbn [SampleDist._samples SampleDist._dist expand TorchDist_Distribution
         TorchDistOps.expand Z.leb Z.compare mbind result_bind].
    destruct (torch_rsample (TorchDistOps.mkExpanded (Z.to_nat 100) (squashed mean std))
                            Example.counting) as (x & Hx & _).
    change (@rsample _ _ TorchDist_Distribution) with TorchDistOps.rsample.
    rewrite Hx. cbn [mbind result_bind]. eauto. }
  destruct (Hmean _ _ _ Hm) as (mu & Hmu & Hin).
  exists sd, m, g', mu. auto.
Defined.

(** ** The policy returns an action *)

(** X15: the statistics of the action distribution. When a policy network
    as its constructor builds it returns its distribution on a batch of at
    least one belief, each statistic of the distribution returns: [mode] an
    action of [action_size] entries for each batch element, [mean] a tensor
    of numbers of the same shape, [entropy] one value for each batch
    element. Each of the three draws a hundred samples of
    batch x action_size values, and leaves the generator advanced by as
    many. *)
Theorem policy_returns_action
    self action_size belief_size state_size hidden_size belief state training sd :
  ActionModel.__init__ action_size belief_size state_size hidden_size self ->
  ActionModel.forward self belief state training = Ok sd ->
  (0 < nrows belief)%nat ->
  forall g,
    (exists m, SampleDist.mode sd g
               = Ok (m, skip (100 * nrows belief * action_size) g)
               /\ shaped (nrows belief) action_size m) /\
    (exists mu, SampleDist.mean sd g
                = Ok (numbers mu, skip (100 * nrows belief * action_size) g)
                /\ shaped (nrows belief) action_size mu) /\
    (exists h, SampleDist.entropy sd g
               = Ok (([nrows belief], h), skip (100 * nrows belief * action_size) g)
               /\ length h = nrows belief).
Proof.
  intros Hinit H Hb g.
  apply (ActionModel_forward_ok _ _ _ _ _ _ _ _ _ Hinit) in H
    as (rm & rs & Hraw & _ & _ & ->).
  destruct (raw_params_halves _ _ _ _ _ _ _ _ _ Hinit Hraw) as (_ & Hc & _).
  apply raw_params_nrows in Hraw.
  set (mean := reals (pointwise (scaled_tanh (ActionModel.mean_scale self)) rm)).
  set (std := reals (pointwise (policy_scale self) rs)).
  assert (Mr : nrows mean = nrows belief).
  { unfold mean. rewrite reals_pointwise. by rewrite tmap_nrows. }
  assert (Mc : ncols mean = action_size) by exact Hc.
  destruct (squashed_statistics mean std 100 g ltac:(lia) ltac:(lia))
    as (sample & logprob & Hin & S0 & S1 & S2 & Lb & Lc & Hmean & Hmode & Hent).
  change (Z.of_nat 100) with 100%Z in *. rewrite Mr, Mc in *.
  split; [|split].
  - exists (best_rows sample logprob). split; [exact Hmode|].
    rewrite <- Lc, <- S2. apply best_rows_shaped.
  - exists (reals (mean0 sample)). split.
    + rewrite <- mean0_numbers by lia. exact Hmean.
    + rewrite <- S1, <- S2. apply mean0_shaped.
  - eexists. rewrite Lb in Hent. split; [exact Hent|].
    unfold mean0_2. by rewrite !length_map, length_seq.
Qed.

Lemma policy_returns_action_witness :
  exists sd m,
    ActionModel.__init__ 1 1 1 1 Example.policy /\
    ActionModel.forward Example.policy Example.belief0 Example.state0 false = Ok sd /\
    SampleDist.mode sd Example.counting = Ok (m, skip 200 Example.counting) /\
    shaped 2 1 m.
Proof.
  destruct (policy_returns false) as (sd & HA).
  destruct (policy_returns_action Example.policy 1 1 1 1 Example.belief0
              Example.state0 false sd policy_init HA ltac:(cbn; lia)
              Example.counting)
    as ((m & Hm & Sm) & _).
  exists sd, m. split; [exact policy_init|]. split; [exact HA|].
  split; [exact Hm | exact Sm].
Defined.

(** ** The mode is one of the drawn samples *)

(** X24: what [mode] returns was drawn. When [mode] returns, the row it
    returns for a batch element is the row of that batch element in one of
    the samples drawn in this call, never a mixture of samples: provided
    the sample is a tensor and the log-densities have a row for each of its
    entries along the sample axis, as they have for the distributions of
    [torch.distributions]. Which of the samples it is, is decided by
    [torch.argmax] on the log-densities. *)
Theorem mode_returns_drawn_sample {D E : Type} `{!Distribution D E}
    (self : SampleDist.t D) (g : Generator) (m : Tensor2) (g' : Generator) :
  SampleDist.mode self g = Ok (m, g') ->
  exists dist sample logprob,
    expand (SampleDist._samples self) (SampleDist._dist self) = Ok dist /\
    rsample dist g = Ok (sample, g') /\
    log_prob dist sample = Ok logprob /\
    nrows m = size1 sample /\
    (wf3 sample -> nan_nrows (lp_values logprob) = size0 sample ->
     forall b row, rows m !! b = Some row ->
       exists s plane, planes sample !! s = Some plane /\ plane !! b = Some row).
Proof.
  intros H.
  apply mode_ok in H as (dist & sample & logprob & Hd & Hs & Hl & Hpos & Hc & ->).
  exists dist, sample, logprob. repeat (split; [assumption|]). split.
  { unfold best_rows, nrows. cbn [rows].
    by rewrite length_imap, length_map, length_seq. }
  intros Hw Hr b row Hrow. unfold best_rows in Hrow. cbn [rows] in Hrow.
  rewrite list_lookup_imap, list_lookup_fmap in Hrow.
  destruct (seq 0 (nan_ncols (lp_values logprob)) !! b) as [j|] eqn:Hj; [|discriminate].
  apply lookup_seq in Hj as [-> Hb]. cbn in Hrow. injection Hrow as <-.
  pose proof (argmax_list_lt (column b (lp_values logprob))) as Hi.
  rewrite column_length in Hi.
  assert (Hne : column b (lp_values logprob) <> []).
  { intros Hnil. apply (f_equal length) in Hnil. rewrite column_length in Hnil.
    cbn in Hnil. lia. }
  specialize (Hi Hne).
  destruct (lookup_lt_is_Some_2 (planes sample)
              (argmax_list (column b (lp_values logprob))))
    as [plane Hp]; [unfold size0 in Hr; lia|].
  pose proof Hw as Hw'. unfold wf3 in Hw'. rewrite Forall_forall in Hw'.
  destruct (Hw' plane (list_elem_of_lookup_2 _ _ _ Hp)) as [Hlen _].
  destruct (lookup_lt_is_Some_2 plane b) as [srow Hsrow]; [lia|].
  exists (argmax_list (column b (lp_values logprob))), plane.
  split; [assumption|].
  by rewrite (gathered_row_wf _ _ _ _ _ Hw Hp Hsrow).
Qed.

Lemma mode_returns_drawn_sample_witness :
  exists m g' sample,
    SampleDist.mode (SampleDist.mk Example.dist 3) Example.counting = Ok (m, g') /\
    rsample (TorchDistOps.mkExpanded 3 Example.dist) Example.counting
    = Ok (sample, g') /\
    size0 sample = 3%nat /\ nrows m = 2%nat /\
    forall b row, rows m !! b = Some row ->
      exists s plane, planes sample !! s = Some plane /\ plane !! b = Some row.
Proof.
  destruct (squashed_statistics (mk2 1 [[0]; [0]]) (mk2 1 [[1]; [1]]) 3
              Example.counting ltac:(lia) ltac:(cbn; lia))
    as (sample0 & logprob0 & _ & _ & _ & _ & _ & _ & _ & Hmode & _).
  change (squashed (mk2 1 [[0]; [0]]) (mk2 1 [[1]; [1]])) with Example.dist in Hmode.
  change (Z.of_nat 3) with 3%Z in Hmode.
  destruct (mode_returns_drawn_sample _ _ _ _ Hmode)
    as (dist & sample & logprob & Hd & Hs & Hl & Hn & Hrows).
  cbn [SampleDist._samples SampleDist._dist expand TorchDist_Distribution] in Hd.
  apply torch_expand in Hd as [_ ->].
  change (Z.to_nat 3) with 3%nat in *.
  change (@rsample _ _ TorchDist_Distribution) with TorchDistOps.rsample in Hs.
  change (@log_prob _ _ TorchDist_Distribution) with TorchDistOps.log_prob in Hl.
  destruct (torch_rsample (TorchDistOps.mkExpanded 3 Example.dist) Example.counting)
    as (x & Hx & Hw & H0 & H1 & _).
  pose proof Hs as Hs'. rewrite Hx in Hs'. injection Hs' as ->.
  cbn [TorchDistOps.ex_samples] in H0.
  apply log_prob_shape in Hl as (S0 & B & Fe & E0 & _ & _ & Hr & _).
  cbn [TorchDistOps.ex_samples] in E0. rewrite H0, bcast_dim_same in E0.
  injection E0 as <-.
  eexists. eexists. exists sample. split; [exact Hmode|]. split; [exact Hs|].
  split; [exact H0|]. split; [by rewrite Hn, H1|].
  apply Hrows; [exact Hw | by rewrite Hr, H0].
Defined.
